(** * AuditIQ front end: a shallow embedding of [static/js/app.js]

    The page script is embedded as Rocq functions:
    - JavaScript strings are byte strings ([string]), the UTF-8 encoding of
      the text.  [trim] strips the white space and line terminators of the
      language by their encodings; [toLowerCase] acts on the ASCII part.
      None of the labels the script compares against ("high", "medium",
      "low", "unspecified") contains a letter that a non-ASCII character
      lower-cases to, so the comparison results agree.
    - Values produced by [JSON.parse] are the inductive type [JSON]; a
      JavaScript value that may also be [undefined] is an [option JSON].
      Number literals are kept as exact decimals [m * 10^e], except that a
      literal too small for binary64 is read as zero, as the truth value of
      a number depends on it.  Other binary64 rounding is outside the
      embedding: a theorem that depends on how a number prints assumes
      numbers of at most 15 significant digits ([numbers_survive]), on
      which exact decimals and binary64 agree.
    - The hue of a branch colour is computed in binary64, as the script
      computes it.
    - Code that can throw returns a [Result]; the event handlers thread the
      page state and exceptions through the monad [M].  How the network
      settles a request and how local storage settles a write are inputs
      of the handler.
    - The plain objects the aggregators use as dictionaries are property
      lists kept in the order [Object.keys] enumerates them, read through
      the prototype chain.
    - The page (markup of the template) contributes the initial state: the
      results section carries the class [d-none] until results are shown.
      What the page shows is the content of its two panels and its charts,
      each written on its own, so that an exception of [displayResults]
      leaves the panels it has not reached as they were.
    - A session is a page load followed by events (edits of the textarea,
      file selections, clicks), each handled to its end before the next.

    The repository holds a second, earlier copy of the script, without the
    local-storage, upload and export features; its aggregators differ only
    in skipping every falsy [findings] or [participants] value, and its
    submit validation is the same. *)

From Stdlib Require Import List String Ascii ZArith NArith Bool Arith Lia.
From Stdlib Require Import DecimalString Sorted.
From Stdlib Require DecimalFacts DecimalPos DecimalN.
From Stdlib Require PrimFloat FloatOps SpecFloat Uint63.
Import ListNotations.
Open Scope list_scope.
Open Scope string_scope.

(** ** Exceptions *)

(** The text of a built-in exception's message is chosen by the engine and is
    left symbolic; [DOMException] is what [localStorage.setItem] throws when
    the storage area refuses the item; [Error] carries the message the
    script passes to [new Error]. *)
Inductive Exn : Type :=
| SyntaxError
| TypeError
| DOMException
| Error (message : string).

Inductive Result (A : Type) : Type :=
| Ok (a : A)
| Throw (e : Exn).
Arguments Ok {A} a.
Arguments Throw {A} e.

Definition rbind {A B} (r : Result A) (k : A -> Result B) : Result B :=
  match r with
  | Ok a => k a
  | Throw e => Throw e
  end.

Declare Scope result_scope.
Delimit Scope result_scope with result.
Notation "x <- r ; k" := (rbind r (fun x => k))
  (at level 61, r at next level, right associativity) : result_scope.

(** ** Strings *)

Module Str.

Definition lower_ascii (c : ascii) : ascii :=
  let n := nat_of_ascii c in
  if ((65 <=? n) && (n <=? 90))%nat then ascii_of_nat (n + 32) else c.

(** [String.prototype.toLowerCase] *)
Fixpoint toLowerCase (s : string) : string :=
  match s with
  | EmptyString => EmptyString
  | String c r => String (lower_ascii c) (toLowerCase r)
  end.

(** [String.prototype.includes] *)
Fixpoint includes (s sub : string) : bool :=
  String.prefix sub s
  || match s with
     | EmptyString => false
     | String _ r => includes r sub
     end.

(** The white space and line terminators of ECMAScript, which [trim]
    strips, by the bytes of their UTF-8 encodings.  One byte: TAB, LF, VT,
    FF, CR and space. *)
Definition is_space (c : ascii) : bool :=
  let n := nat_of_ascii c in
  (((9 <=? n) && (n <=? 13)) || (n =? 32))%nat.

(** Two bytes: U+00A0. *)
Definition is_space2 (a b : ascii) : bool :=
  ((nat_of_ascii a =? 194) && (nat_of_ascii b =? 160))%nat.

(** Three bytes: U+1680, U+2000 to U+200A, U+2028, U+2029, U+202F, U+205F,
    U+3000 and U+FEFF. *)
Definition is_space3 (a b c : ascii) : bool :=
  let x := nat_of_ascii a in
  let y := nat_of_ascii b in
  let z := nat_of_ascii c in
  (((x =? 225) && (y =? 154) && (z =? 128))
   || ((x =? 226) && (y =? 128)
       && (((128 <=? z) && (z <=? 138)) || (z =? 168) || (z =? 169) || (z =? 175)))
   || ((x =? 226) && (y =? 129) && (z =? 159))
   || ((x =? 227) && (y =? 128) && (z =? 128))
   || ((x =? 239) && (y =? 187) && (z =? 191)))%nat.

(** The bytes left once the white space at the head is dropped; with
    [back], the bytes are those of a string read from its end, so that the
    bytes of a character come last one first. *)
Fixpoint skip_spaces (back : bool) (l : list ascii) : list ascii :=
  match l with
  | [] => []
  | a :: r1 =>
      if is_space a then skip_spaces back r1
      else
        match r1 with
        | [] => l
        | b :: r2 =>
            if (if back then is_space2 b a else is_space2 a b) then skip_spaces back r2
            else
              match r2 with
              | [] => l
              | c :: r3 =>
                  if (if back then is_space3 c b a else is_space3 a b c)
                  then skip_spaces back r3
                  else l
              end
        end
  end.

Definition trim_start (s : string) : string :=
  string_of_list_ascii (skip_spaces false (list_ascii_of_string s)).

Definition trim_end (s : string) : string :=
  string_of_list_ascii (rev (skip_spaces true (rev (list_ascii_of_string s)))).

(** [String.prototype.trim] *)
Definition trim (s : string) : string := trim_end (trim_start s).

(** The value a textarea reads back: every CR LF and every other CR of what
    was written to it is an LF. *)
Fixpoint normalize_newlines (s : string) : string :=
  match s with
  | EmptyString => EmptyString
  | String c r =>
      if (nat_of_ascii c =? 13)%nat then
        String (ascii_of_nat 10)
               match r with
               | EmptyString => EmptyString
               | String c' r' =>
                   if (nat_of_ascii c' =? 10)%nat then normalize_newlines r'
                   else normalize_newlines r
               end
      else String c (normalize_newlines r)
  end.

Fixpoint repeat0 (k : nat) : string :=
  match k with
  | O => EmptyString
  | S k' => String "0" (repeat0 k')
  end.

Definition digits (n : N) : string := NilZero.string_of_uint (N.to_uint n).

Fixpoint join (sep : string) (l : list string) : string :=
  match l with
  | [] => ""
  | [x] => x
  | x :: r => x ++ sep ++ join sep r
  end.

End Str.

(** ** JSON values and the operators the script applies to them *)

Set Warnings "-register-all".

Inductive JSON : Type :=
| JNull
| JBool (b : bool)
| JNum (m e : Z)                       (* the number m * 10^e *)
| JStr (s : string)
| JArr (items : list JSON)
| JObj (props : list (string * JSON)). (* own properties, in key order *)

Module Js.

Import Str.
Local Open Scope result_scope.

(** [Number::toString] for the decimal [m * 10^e], [m] without trailing
    zeros. *)
Definition number_to_string (m e : Z) : string :=
  if (m =? 0)%Z then "0" else
  let sign := if (m <? 0)%Z then "-" else "" in
  let ds := digits (Z.abs_N m) in
  let k := Z.of_nat (String.length ds) in
  let n := (k + e)%Z in
  sign ++
  (if (k <=? n)%Z && (n <=? 21)%Z then ds ++ repeat0 (Z.to_nat (n - k))
   else if (0 <? n)%Z && (n <=? 21)%Z then
     substring 0 (Z.to_nat n) ds ++ "." ++ substring (Z.to_nat n) (Z.to_nat (k - n)) ds
   else if (-6 <? n)%Z && (n <=? 0)%Z then "0." ++ repeat0 (Z.to_nat (- n)) ++ ds
   else
     let x := (n - 1)%Z in
     let es := (if (x <? 0)%Z then "-" else "+") ++ digits (Z.abs_N x) in
     match ds with
     | EmptyString => EmptyString
     | String d EmptyString => String d "e" ++ es
     | String d r => String d "." ++ r ++ "e" ++ es
     end).

(** The value of [x] in a boolean position ([!x], [x || y], [x ? a : b]). *)
Definition truthy (x : option JSON) : bool :=
  match x with
  | None | Some JNull => false
  | Some (JBool b) => b
  | Some (JNum m _) => negb (m =? 0)%Z
  | Some (JStr s) => negb (s =? "")
  | Some (JArr _) | Some (JObj _) => true
  end.

(** [x || d] with a string literal [d]. *)
Definition or_default (x : option JSON) (d : string) : JSON :=
  match x with
  | Some v => if truthy x then v else JStr d
  | None => JStr d
  end.

(** Own property lookup. *)
Fixpoint own {V} (props : list (string * V)) (k : string) : option V :=
  match props with
  | [] => None
  | (k', v) :: r => if k =? k' then Some v else own r k
  end.

(** [base.k] for the property names the script reads ([analysis],
    [summary], [findings], [participants], [severity], [branch], [title],
    [description], [recommendation], [audit_report], [exceptions],
    [error]); none of them is inherited by an object, an array or a
    primitive, so a value without such an own property yields
    [undefined]. *)
Definition get (base : option JSON) (k : string) : Result (option JSON) :=
  match base with
  | None | Some JNull => Throw TypeError
  | Some (JObj props) => Ok (own props k)
  | Some _ => Ok None
  end.

(** [base?.k] *)
Definition get_opt (base : option JSON) (k : string) : option JSON :=
  match base with
  | Some (JObj props) => own props k
  | _ => None
  end.

(** The abstract operation [ToString], as used by template literals,
    property keys and [new Error].  A parsed object has no callable
    [toString] of its own: it prints through [Object.prototype.toString],
    unless an own [toString] entry hides that method, in which case the
    conversion throws. *)
Fixpoint ToString (v : JSON) : Result string :=
  match v with
  | JNull => Ok "null"
  | JBool true => Ok "true"
  | JBool false => Ok "false"
  | JNum m e => Ok (number_to_string m e)
  | JStr s => Ok s
  | JArr items =>
      (fix join_items (l : list JSON) : Result string :=
         match l with
         | [] => Ok ""
         | x :: r =>
             s <- match x with JNull => Ok "" | _ => ToString x end;
             match r with
             | [] => Ok s
             | _ => t <- join_items r; Ok (s ++ "," ++ t)
             end
         end) items
  | JObj props =>
      match own props "toString" with
      | Some _ => Throw TypeError
      | None => Ok "[object Object]"
      end
  end.

(** [Array.prototype.forEach] with a callback that updates an
    accumulator and may throw. *)
Fixpoint forEach {S} (f : S -> JSON -> Result S) (items : list JSON) (s : S)
  : Result S :=
  match items with
  | [] => Ok s
  | x :: r => s' <- f s x; forEach f r s'
  end.

(** [x?.forEach(f)]: skipped when [x] is [null] or [undefined]; a value
    that is not an array has no callable [forEach]. *)
Definition forEach_opt {S} (x : option JSON) (f : S -> JSON -> Result S) (s : S)
  : Result S :=
  match x with
  | None | Some JNull => Ok s
  | Some (JArr items) => forEach f items s
  | Some _ => Throw TypeError
  end.

End Js.

(** ** Plain objects used as dictionaries

    [severityCounts] and [branchCounts] are object literals: their prototype
    is [Object.prototype], and [Object.keys] lists own keys that are array
    indices first, in ascending numeric order, then the other keys in the
    order they were created. *)

Module Dict.

Import Str Js.

(** What a read [o[k]] or the expression [(o[k] || 0) + 1] can yield. *)
Inductive Value : Type :=
| VUndefined             (* no such property *)
| VNumber (n : nat)      (* a count *)
| VString                (* text produced by [+ 1] on something that is not a number *)
| VInherited.            (* a method or object found on [Object.prototype] *)

Definition Object := list (string * Value).

(** Property names every plain object inherits. *)
Definition Object_prototype : list string :=
  [ "constructor"; "hasOwnProperty"; "isPrototypeOf"; "propertyIsEnumerable";
    "toLocaleString"; "toString"; "valueOf"; "__proto__";
    "__defineGetter__"; "__defineSetter__"; "__lookupGetter__"; "__lookupSetter__" ].

Definition inherited (k : string) : bool :=
  existsb (String.eqb k) Object_prototype.

Definition is_digit (c : ascii) : bool :=
  let n := nat_of_ascii c in ((48 <=? n) && (n <=? 57))%nat.

(** A key is an array index when it is the canonical decimal numeral of
    an integer below 2^32 - 1. *)
Definition array_index (k : string) : option N :=
  match NilEmpty.uint_of_string k with
  | Some d =>
      let n := N.of_uint d in
      if (digits n =? k) && (n <? 4294967295)%N then Some n else None
  | None => None
  end.

(** Does key [k] come before key [k'] when [k] is new and [k'] is already
    there?  Only an array index overtakes: it goes before every larger
    index and before every other key. *)
Definition precedes (k k' : string) : bool :=
  match array_index k, array_index k' with
  | Some i, Some j => (i <? j)%N
  | Some _, None => true
  | None, _ => false
  end.

(** Create or overwrite the own property [k]. *)
Fixpoint define {V} (k : string) (v : V) (o : list (string * V)) : list (string * V) :=
  match o with
  | [] => [(k, v)]
  | (k', v') :: r =>
      if k =? k' then (k, v) :: r
      else if precedes k k' then (k, v) :: (k', v') :: r
      else (k', v') :: define k v r
  end.

(** [o[k]] *)
Definition read (o : Object) (k : string) : Value :=
  match own o k with
  | Some v => v
  | None => if inherited k then VInherited else VUndefined
  end.

(** [(x || 0) + 1]: a number is incremented ([0 || 0] is [0]); anything
    else that is truthy is converted to text and gets "1" appended. *)
Definition or_zero_plus_one (x : Value) : Value :=
  match x with
  | VUndefined => VNumber 1
  | VNumber n => VNumber (n + 1)
  | VString | VInherited => VString
  end.

(** [o[k] = v] for a number or string [v]: the inherited [__proto__]
    setter ignores such a value and creates nothing. *)
Definition assign (o : Object) (k : string) (v : Value) : Object :=
  if k =? "__proto__" then o else define k v o.

(** [o[k] = (o[k] || 0) + 1] *)
Definition count (o : Object) (k : string) : Object :=
  assign o k (or_zero_plus_one (read o k)).

(** [Object.keys(o)] *)
Definition keys (o : Object) : list string := map fst o.

End Dict.

(** ** Binary64 arithmetic of the branch colours *)

Module Binary64.

Import PrimFloat.

Set Warnings "-inexact-float".

(** The literal [137.508]: the binary64 number nearest to it. *)
Definition golden_angle : float := 137.508%float.

Set Warnings "inexact-float".

(** An array index as a number; every index is below [2^32] and so is
    held exactly. *)
Definition of_index (i : nat) : float := of_uint63 (Uint63.of_Z (Z.of_nat i)).

(** [x % 360] for a finite [x] that is not negative: the remainder of
    the division of the exact value of [x], which binary64 holds exactly. *)
Definition rem360 (x : float) : float :=
  match FloatOps.Prim2SF x with
  | SpecFloat.S754_finite false m e =>
      if (0 <=? e)%Z then
        of_uint63 (Uint63.of_Z ((Z.pos m * 2 ^ e) mod 360))
      else
        FloatOps.Z.ldexp (of_uint63 (Uint63.of_Z (Z.pos m mod (360 * 2 ^ (- e))))) e
  | _ => x
  end.

End Binary64.

(** ** The aggregators *)

Module Aggregators.

Import Str Js Dict Binary64.
Local Open Scope result_scope.

Record SeverityData : Type := {
  sev_labels : list string;
  sev_values : list Value;
  sev_colors : list string;
  sev_borderColors : list string
}.

(** [(finding.severity || 'unspecified').toLowerCase()]: only a string has
    a [toLowerCase] method. *)
Definition severity_key (finding : JSON) : Result string :=
  severity <- get (Some finding) "severity";
  match or_default severity "unspecified" with
  | JStr s => Ok (toLowerCase s)
  | _ => Throw TypeError
  end.

Definition severityCounts0 : Object :=
  [ ("high", VNumber 0); ("medium", VNumber 0); ("low", VNumber 0);
    ("unspecified", VNumber 0) ].

Definition processSeverityData (data : option JSON) : Result SeverityData :=
  analysis <- get data "analysis";
  findings <- get analysis "findings";
  severityCounts <-
    forEach_opt findings
      (fun severityCounts finding =>
         sev <- severity_key finding;
         Ok (count severityCounts sev))
      severityCounts0;
  Ok {| sev_labels := ["High"; "Medium"; "Low"; "Unspecified"];
        sev_values := [ read severityCounts "high"; read severityCounts "medium";
                        read severityCounts "low"; read severityCounts "unspecified" ];
        sev_colors := [ "rgba(220,53,69,0.7)"; "rgba(255,193,7,0.7)";
                        "rgba(25,135,84,0.7)"; "rgba(108,117,125,0.7)" ];
        sev_borderColors := [ "rgba(220,53,69,1)"; "rgba(255,193,7,1)";
                              "rgba(25,135,84,1)"; "rgba(108,117,125,1)" ] |}.

(** A colour [hsla(h, s%, l%, a)]: the hue is the binary64 number the
    script computes, the alpha is kept in tenths. *)
Record Color : Type := hsla {
  hue : PrimFloat.float;
  saturation : Z;
  lightness : Z;
  alpha_tenths : Z
}.

(** [`hsla(${(i * 137.508) % 360}, 70%, 60%, 0.7)`] *)
Definition branch_color (i : nat) : Color :=
  hsla (rem360 (PrimFloat.mul (of_index i) golden_angle)) 70 60 7.

Record BranchData : Type := {
  br_labels : list string;
  br_values : list Value;
  br_colors : list Color
}.

(** [p.branch || 'Unspecified'], converted to a property key. *)
Definition branch_key (p : JSON) : Result string :=
  branch <- get (Some p) "branch";
  ToString (or_default branch "Unspecified").

Definition processBranchData (data : option JSON) : Result BranchData :=
  analysis <- get data "analysis";
  participants <- get analysis "participants";
  branchCounts <-
    forEach_opt participants
      (fun branchCounts p =>
         branch <- branch_key p;
         Ok (count branchCounts branch))
      [];
  let labels := keys branchCounts in
  Ok {| br_labels := labels;
        br_values := map (fun l => read branchCounts l) labels;
        br_colors := map branch_color (seq 0 (List.length labels)) |}.

(** [getSeverityBadgeClass] *)
Definition getSeverityBadgeClass (severity : option JSON) : Result string :=
  match or_default severity "" with
  | JStr s =>
      let sev := toLowerCase s in
      if includes sev "high" then Ok "danger"
      else if includes sev "medium" then Ok "warning"
      else if includes sev "low" then Ok "success"
      else Ok "secondary"
  | _ => Throw TypeError
  end.

End Aggregators.

(** ** [JSON.parse] and [JSON.stringify] *)

Module Json.

Import Str Js Dict.

Definition chars := list ascii.

(** The double quote character. *)
Definition dquote : ascii := ascii_of_nat 34.

(** JSON white space: space, TAB, LF, CR *)
Definition is_ws (c : ascii) : bool :=
  let n := nat_of_ascii c in
  ((n =? 32) || (n =? 9) || (n =? 10) || (n =? 13))%nat.

Fixpoint skip_ws (s : chars) : chars :=
  match s with
  | c :: r => if is_ws c then skip_ws r else s
  | [] => []
  end.

Fixpoint span_digits (s : chars) : chars * chars :=
  match s with
  | c :: r =>
      if is_digit c then let (d, r') := span_digits r in (c :: d, r') else ([], s)
  | [] => ([], [])
  end.

Fixpoint drop_zeros (s : chars) : chars :=
  match s with
  | c :: r => if Ascii.eqb c "0" then drop_zeros r else s
  | [] => []
  end.

Definition digits_value (s : chars) : N :=
  fold_left (fun acc c => (acc * 10 + (N.of_nat (nat_of_ascii c) - 48))%N) s 0%N.

(** A positive decimal [m * 10^e] so small that the binary64 number nearest
    to it is zero: it is at most [2^-1075], half the least positive binary64
    number (a tie goes to zero, whose significand is even). *)
Definition rounds_to_zero (m e : Z) : bool :=
  (e <? 0)%Z && (m * 2 ^ 1075 <=? 10 ^ (- e))%Z.

(** The decimal [m * 10^e] denoted by the digits [ds] scaled by [10^e0],
    with the trailing zeros of the mantissa moved into the exponent; a
    literal that binary64 rounds to zero denotes zero. *)
Definition decimal (neg : bool) (ds : chars) (e0 : Z) : JSON :=
  let sig := rev (drop_zeros (rev ds)) in
  let m := Z.of_N (digits_value sig) in
  let e := (e0 + Z.of_nat (List.length ds) - Z.of_nat (List.length sig))%Z in
  if (m =? 0)%Z || rounds_to_zero m e then JNum 0 0
  else JNum (if neg then - m else m) e.

(** An optional character [c] at the head of [s]. *)
Definition optional (c : ascii) (s : chars) : bool * chars :=
  match s with
  | x :: r => if Ascii.eqb x c then (true, r) else (false, s)
  | [] => (false, s)
  end.

(** The fraction of a number literal: a dot followed by digits, if any. *)
Definition parse_fraction (s : chars) : option (chars * chars) :=
  let (dot, r) := optional "." s in
  if dot then
    let (fp, r') := span_digits r in
    match fp with
    | [] => None
    | _ => Some (fp, r')
    end
  else Some ([], s).

(** The exponent of a number literal: [e] or [E], a sign and digits, if
    any. *)
Definition parse_exponent (s : chars) : option (Z * chars) :=
  match s with
  | c :: r =>
      if Ascii.eqb c "e" || Ascii.eqb c "E" then
        let (minus, r1) := optional "-" r in
        let r2 := if minus then r1 else snd (optional "+" r1) in
        let (ed, r3) := span_digits r2 in
        match ed with
        | [] => None
        | _ => let x := Z.of_N (digits_value ed) in
               Some (if minus then (- x)%Z else x, r3)
        end
      else Some (0%Z, s)
  | [] => Some (0%Z, s)
  end.

(** A number literal: an optional minus sign, an integer part without a
    leading zero, an optional fraction and an optional exponent. *)
Definition parse_number (s : chars) : option (JSON * chars) :=
  let (neg, s1) := optional "-" s in
  let (ip, s2) := span_digits s1 in
  match ip with
  | [] => None
  | d :: more =>
      if Ascii.eqb d "0" && negb (Nat.eqb (List.length more) 0) then None
      else
        match parse_fraction s2 with
        | None => None
        | Some (fp, s3) =>
            match parse_exponent s3 with
            | None => None
            | Some (x, s4) =>
                Some (decimal neg (ip ++ fp)%list (x - Z.of_nat (List.length fp)), s4)
            end
        end
  end.

Definition hex_value (c : ascii) : option N :=
  let n := nat_of_ascii c in
  if ((48 <=? n) && (n <=? 57))%nat then Some (N.of_nat (n - 48))
  else if ((65 <=? n) && (n <=? 70))%nat then Some (N.of_nat (n - 55))
  else if ((97 <=? n) && (n <=? 102))%nat then Some (N.of_nat (n - 87))
  else None.

Definition byte (n : N) : ascii := ascii_of_N n.

(** The UTF-8 bytes of the code unit written [\uXXXX]; each code unit is
    encoded on its own. *)
Definition utf8 (u : N) : string :=
  if (u <? 128)%N then String (byte u) ""
  else if (u <? 2048)%N then
    String (byte (192 + u / 64)) (String (byte (128 + u mod 64)) "")
  else
    String (byte (224 + u / 4096))
      (String (byte (128 + (u / 64) mod 64)) (String (byte (128 + u mod 64)) "")).

(** The character an escape letter stands for. *)
Definition escaped (e : ascii) : option ascii :=
  if Ascii.eqb e dquote then Some dquote
  else if Ascii.eqb e "\" then Some "\"%char
  else if Ascii.eqb e "/" then Some "/"%char
  else if Ascii.eqb e "b" then Some (ascii_of_nat 8)
  else if Ascii.eqb e "f" then Some (ascii_of_nat 12)
  else if Ascii.eqb e "n" then Some (ascii_of_nat 10)
  else if Ascii.eqb e "r" then Some (ascii_of_nat 13)
  else if Ascii.eqb e "t" then Some (ascii_of_nat 9)
  else None.

(** The code unit written as four hexadecimal digits. *)
Definition hex4 (h1 h2 h3 h4 : ascii) : option N :=
  match hex_value h1, hex_value h2, hex_value h3, hex_value h4 with
  | Some a, Some b, Some c, Some d => Some (((a * 16 + b) * 16 + c) * 16 + d)%N
  | _, _, _, _ => None
  end.

(** The characters of a string literal after its opening quote. *)
Fixpoint parse_string (s : chars) : option (string * chars) :=
  match s with
  | [] => None
  | c :: r =>
      if Ascii.eqb c dquote then Some ("", r)
      else if Ascii.eqb c "\" then
        match r with
        | [] => None
        | e :: r1 =>
            if Ascii.eqb e "u" then
              match r1 with
              | h1 :: h2 :: h3 :: h4 :: r2 =>
                  match hex4 h1 h2 h3 h4, parse_string r2 with
                  | Some u, Some (t, r') => Some (utf8 u ++ t, r')
                  | _, _ => None
                  end
              | _ => None
              end
            else
              match escaped e, parse_string r1 with
              | Some x, Some (t, r') => Some (String x t, r')
              | _, _ => None
              end
        end
      else if (nat_of_ascii c <? 32)%nat then None
      else match parse_string r with
           | Some (t, r') => Some (String c t, r')
           | None => None
           end
  end.

(** The rest of [s] after the literal text [p]. *)
Definition starts_with (p : string) (s : chars) : option chars :=
  let n := String.length p in
  if String.eqb (string_of_list_ascii (firstn n s)) p then Some (skipn n s) else None.

(** The rest of [s] after optional white space and the character [c]. *)
Definition expect (c : ascii) (s : chars) : option chars :=
  match skip_ws s with
  | x :: r => if Ascii.eqb x c then Some r else None
  | [] => None
  end.

(** A value that is not an array or an object, [c] being its first
    character. *)
Definition parse_scalar (c : ascii) (r : chars) : option (JSON * chars) :=
  if Ascii.eqb c dquote then
    match parse_string r with
    | Some (t, r') => Some (JStr t, r')
    | None => None
    end
  else if Ascii.eqb c "n" then
    match starts_with "ull" r with
    | Some r' => Some (JNull, r')
    | None => None
    end
  else if Ascii.eqb c "t" then
    match starts_with "rue" r with
    | Some r' => Some (JBool true, r')
    | None => None
    end
  else if Ascii.eqb c "f" then
    match starts_with "alse" r with
    | Some r' => Some (JBool false, r')
    | None => None
    end
  else parse_number (c :: r).

(** One JSON value, preceded by optional white space.  [fuel] bounds the
    nesting and the number of elements; [JSON_parse] supplies more than any
    text of that length needs ([parse_value_enough]). *)
Fixpoint parse_value (fuel : nat) (s : chars) : option (JSON * chars) :=
  match fuel with
  | O => None
  | S fuel' =>
      match skip_ws s with
      | [] => None
      | c :: r =>
          if Ascii.eqb c "[" then
            match expect "]" r with
            | Some r' => Some (JArr [], r')
            | None => parse_elements fuel' r []
            end
          else if Ascii.eqb c "{" then
            match expect "}" r with
            | Some r' => Some (JObj [], r')
            | None => parse_members fuel' r []
            end
          else parse_scalar c r
      end
  end

(** The elements of an array and its closing bracket. *)
with parse_elements (fuel : nat) (s : chars) (acc : list JSON) : option (JSON * chars) :=
  match fuel with
  | O => None
  | S fuel' =>
      match parse_value fuel' s with
      | None => None
      | Some (v, r) =>
          match expect "," r with
          | Some r' => parse_elements fuel' r' (v :: acc)
          | None =>
              match expect "]" r with
              | Some r' => Some (JArr (rev (v :: acc)), r')
              | None => None
              end
          end
      end
  end

(** The members of an object and its closing brace; each member defines a
    property on the object built so far, so a repeated key keeps its place
    and takes the later value. *)
with parse_members (fuel : nat) (s : chars) (acc : list (string * JSON))
  : option (JSON * chars) :=
  match fuel with
  | O => None
  | S fuel' =>
      match expect dquote s with
      | None => None
      | Some r0 =>
          match parse_string r0 with
          | None => None
          | Some (k, r1) =>
              match expect ":" r1 with
              | None => None
              | Some r2 =>
                  match parse_value fuel' r2 with
                  | None => None
                  | Some (v, r3) =>
                      match expect "," r3 with
                      | Some r4 => parse_members fuel' r4 (define k v acc)
                      | None =>
                          match expect "}" r3 with
                          | Some r4 => Some (JObj (define k v acc), r4)
                          | None => None
                          end
                      end
                  end
              end
          end
      end
  end.

(** [JSON.parse(text)]; [None] stands for the [SyntaxError] it throws. *)
Definition JSON_parse (text : string) : option JSON :=
  let s := list_ascii_of_string text in
  match parse_value (S (List.length s)) s with
  | Some (v, r) => match skip_ws r with [] => Some v | _ => None end
  | None => None
  end.

Definition hex_digit (n : N) : ascii :=
  if (n <? 10)%N then ascii_of_N (48 + n) else ascii_of_N (87 + n).

(** [QuoteJSONString] without the enclosing quotes. *)
Fixpoint escape (s : string) : string :=
  match s with
  | EmptyString => EmptyString
  | String c r =>
      let n := nat_of_ascii c in
      (if Ascii.eqb c dquote then String "\" (String dquote "")
       else if Ascii.eqb c "\" then "\\"
       else if (n =? 8)%nat then "\b"
       else if (n =? 12)%nat then "\f"
       else if (n =? 10)%nat then "\n"
       else if (n =? 13)%nat then "\r"
       else if (n =? 9)%nat then "\t"
       else if (n <? 32)%nat then
         "\u00" ++ String (hex_digit (N.of_nat n / 16)) (String (hex_digit (N.of_nat n mod 16)) "")
       else String c "") ++ escape r
  end.

Definition quote (s : string) : string :=
  String dquote (escape s ++ String dquote "").

(** [JSON.stringify(v)] for a value that came out of [JSON.parse]. *)
Fixpoint JSON_stringify (v : JSON) : string :=
  match v with
  | JNull => "null"
  | JBool true => "true"
  | JBool false => "false"
  | JNum m e => number_to_string m e
  | JStr s => quote s
  | JArr items => "[" ++ join "," (map JSON_stringify items) ++ "]"
  | JObj props =>
      "{" ++ join "," (map (fun kv => quote (fst kv) ++ ":" ++ JSON_stringify (snd kv)) props)
          ++ "}"
  end.

(** *** Numbers read from strings *)

Definition is_hex_digit (c : ascii) : bool :=
  let n := nat_of_ascii c in
  (is_digit c || ((65 <=? n) && (n <=? 70)) || ((97 <=? n) && (n <=? 102)))%nat.

Definition is_octal_digit (c : ascii) : bool :=
  let n := nat_of_ascii c in ((48 <=? n) && (n <=? 55))%nat.

Definition is_binary_digit (c : ascii) : bool :=
  let n := nat_of_ascii c in ((48 <=? n) && (n <=? 49))%nat.

(** An integer literal in the digits that [digit] accepts, not all of them
    zero. *)
Definition nonzero_digits (digit : ascii -> bool) (ds : chars) : bool :=
  match ds with
  | [] => false
  | _ => forallb digit ds && existsb (fun c => negb (Ascii.eqb c "0")) ds
  end.

(** An unsigned decimal literal of a numeric string that denotes a positive
    number: [Infinity], or digits with an optional fraction and exponent,
    at least one digit before the exponent, whose value binary64 does not
    round to zero. *)
Definition unsigned_positive (s : chars) : bool :=
  if String.eqb (string_of_list_ascii s) "Infinity" then true
  else
    let (ip, s1) := span_digits s in
    let (dot, s2) := optional "." s1 in
    let (fp, s3) := if dot then span_digits s2 else ([], s2) in
    match (ip ++ fp)%list, parse_exponent s3 with
    | (_ :: _) as ds, Some (x, []) =>
        let m := Z.of_N (digits_value ds) in
        (0 <? m)%Z && negb (rounds_to_zero m (x - Z.of_nat (List.length fp)))
    | _, _ => false
    end.

(** [StringToNumber(s) > 0]: the text of [s] without the white space
    around it is a hexadecimal, octal or binary integer literal, or a
    decimal literal with an optional sign, and the number is positive; the
    empty text is zero, and any other text is no number. *)
Definition string_positive (s : string) : bool :=
  match list_ascii_of_string (trim s) with
  | "0"%char :: x :: ds =>
      if Ascii.eqb x "x" || Ascii.eqb x "X" then nonzero_digits is_hex_digit ds
      else if Ascii.eqb x "o" || Ascii.eqb x "O" then nonzero_digits is_octal_digit ds
      else if Ascii.eqb x "b" || Ascii.eqb x "B" then nonzero_digits is_binary_digit ds
      else unsigned_positive ("0"%char :: x :: ds)
  | "-"%char :: _ => false
  | "+"%char :: r => unsigned_positive r
  | r => unsigned_positive r
  end.

(** [v > 0]: the comparison converts [v] to a number, an array or an
    object through its text. *)
Definition greater_than_zero (v : option JSON) : Result bool :=
  match v with
  | None | Some JNull => Ok false
  | Some (JBool b) => Ok b
  | Some (JNum m _) => Ok (0 <? m)%Z
  | Some (JStr s) => Ok (string_positive s)
  | Some x => (text <- ToString x; Ok (string_positive text))%result
  end.

(** [findings?.length > 0]: an array and a string have a [length], a
    parsed object has the one it carries as an entry, if any, and no
    other value has one. *)
Definition length_positive (findings : option JSON) : Result bool :=
  match findings with
  | Some (JArr items) => Ok (negb (Nat.eqb (List.length items) 0))
  | Some (JStr s) => Ok (negb (s =? ""))
  | Some (JObj props) => greater_than_zero (own props "length")
  | _ => Ok false
  end.

End Json.

(** ** The page: its state and the monad of the event handlers *)

Module Page.

Import Str Js Dict Aggregators Json.

(** One entry of the detailed findings panel. *)
Record FindingCard : Type := {
  card_badge : string;
  card_number : nat;
  card_title : string;
  card_description : string;
  card_recommendation : option string
}.

Inductive FindingsPanel : Type :=
| NoFindingsAvailable
| Cards (cards : list FindingCard).

(** What [displayResults] puts on the page. *)
Record Rendered : Type := {
  executiveSummary : string;
  detailedFindings : FindingsPanel;
  severityChart : SeverityData;
  branchChart : BranchData
}.

(** The two charts: not created yet, drawn from the data of one analysis,
    or disposed by [destroy()] and not created again. *)
Inductive Charts : Type :=
| NoCharts
| Drawn (severityData : SeverityData) (branchData : BranchData)
| Disposed.

(** What the page shows: the content of the summary panel and of the
    findings panel ([None]: empty, as the markup delivers them) and the two
    charts.  Each of the three is written on its own, so after an exception
    of [displayResults] the panels may show one analysis, or two, with the
    charts disposed. *)
Record View : Type := {
  summaryPanel : option string;
  findingsPanel : option FindingsPanel;
  charts : Charts
}.

(** The page as the markup delivers it. *)
Definition Blank : View :=
  {| summaryPanel := None; findingsPanel := None; charts := NoCharts |}.

(** The page showing the complete results [r] of one analysis. *)
Definition Shown (r : Rendered) : View :=
  {| summaryPanel := Some (executiveSummary r);
     findingsPanel := Some (detailedFindings r);
     charts := Drawn (severityChart r) (branchChart r) |}.

(** [executiveSummaryDiv.innerHTML = ...] *)
Definition set_summaryPanel (text : string) (v : View) : View :=
  {| summaryPanel := Some text; findingsPanel := findingsPanel v;
     charts := charts v |}.

(** [detailedFindingsDiv.innerHTML = findingsHTML] *)
Definition set_findingsPanel (panel : FindingsPanel) (v : View) : View :=
  {| summaryPanel := summaryPanel v; findingsPanel := Some panel;
     charts := charts v |}.

(** [severityChart = new Chart(...); branchChart = new Chart(...)] *)
Definition set_charts (c : Charts) (v : View) : View :=
  {| summaryPanel := summaryPanel v; findingsPanel := findingsPanel v;
     charts := c |}.

(** The text of an alert: a literal, or a prefix followed by the message of
    a built-in exception. *)
Inductive Text : Type :=
| Plain (s : string)
| Builtin (prefix : string) (e : Exn).

(** [`${prefix}${error.message}`] *)
Definition with_message (prefix : string) (error : Exn) : Text :=
  match error with
  | Error message => Plain (prefix ++ message)
  | _ => Builtin prefix error
  end.

Record Alert : Type := {
  alert_text : Text;
  alert_type : string
}.

Record Button : Type := {
  disabled : bool;
  spinner : bool;
  caption : string
}.

Record Request : Type := {
  req_url : string;
  req_method : string;
  req_content_type : string;
  req_body : string
}.

(** How a [fetch] settles: the promise rejects, or a response arrives,
    with [body] the text of its body as decoded (without a byte-order
    mark).  A response whose body cannot be read throws as a rejection
    does.  A request that never settles leaves its handler suspended and
    has no outcome here. *)
Inductive Fetch : Type :=
| Rejected
| Responded (ok : bool) (body : string).

(** How local storage settles a [setItem]: the item is stored, or the call
    throws because the storage area refuses it (its quota is exceeded, or
    storage is disabled). *)
Inductive Write : Type :=
| Stored
| Refused.

Record State : Type := {
  currentAnalysis : JSON;               (* [let currentAnalysis = null] *)
  localStorage : option string;         (* the item [previousAnalysis] *)
  auditDataTextarea : string;           (* [auditDataTextarea.value] *)
  view : View;
  resultsHidden : bool;                 (* class [d-none] on [#resultsSection] *)
  alerts : list Alert;                  (* alerts put into [#resultsSection], newest first *)
  console : list (string * Exn);        (* [console.error] calls, newest first *)
  requests : list Request;              (* [fetch] calls, newest first *)
  downloads : list (string * string);   (* [downloadFile] calls: payload and file name *)
  analyzeBtn : Button;
  generateReportBtn : Button
}.

Definition M (A : Type) : Type := State -> State * Result A.

Definition ret {A} (a : A) : M A := fun st => (st, Ok a).

Definition bind {A B} (m : M A) (k : A -> M B) : M B :=
  fun st =>
    match m st with
    | (st', Ok a) => k a st'
    | (st', Throw e) => (st', Throw e)
    end.

Definition throw {A} (e : Exn) : M A := fun st => (st, Throw e).

Definition lift {A} (r : Result A) : M A := fun st => (st, r).

Definition read_state : M State := fun st => (st, Ok st).

Definition modify (f : State -> State) : M unit := fun st => (f st, Ok tt).

(** [try { body } catch (error) { handler }] *)
Definition try_catch {A} (body : M A) (handler : Exn -> M A) : M A :=
  fun st =>
    match body st with
    | (st', Ok a) => (st', Ok a)
    | (st', Throw e) => handler e st'
    end.

(** [try { body } finally { cleanup }] with a cleanup that does not throw. *)
Definition try_finally {A} (body : M A) (cleanup : M unit) : M A :=
  fun st =>
    match body st with
    | (st', r) => (fst (cleanup st'), r)
    end.

Declare Scope page_scope.
Delimit Scope page_scope with page.
Notation "x <- m ; k" := (bind m (fun x => k))
  (at level 61, m at next level, right associativity) : page_scope.
Notation "m ;; k" := (bind m (fun _ => k))
  (at level 61, right associativity) : page_scope.
Local Open Scope page_scope.

(** *** State updates *)

Definition set_currentAnalysis (v : JSON) (st : State) : State :=
  {| currentAnalysis := v; localStorage := localStorage st;
     auditDataTextarea := auditDataTextarea st; view := view st;
     resultsHidden := resultsHidden st; alerts := alerts st;
     console := console st; requests := requests st; downloads := downloads st;
     analyzeBtn := analyzeBtn st; generateReportBtn := generateReportBtn st |}.

Definition set_localStorage (v : option string) (st : State) : State :=
  {| currentAnalysis := currentAnalysis st; localStorage := v;
     auditDataTextarea := auditDataTextarea st; view := view st;
     resultsHidden := resultsHidden st; alerts := alerts st;
     console := console st; requests := requests st; downloads := downloads st;
     analyzeBtn := analyzeBtn st; generateReportBtn := generateReportBtn st |}.

Definition set_auditDataTextarea (v : string) (st : State) : State :=
  {| currentAnalysis := currentAnalysis st; localStorage := localStorage st;
     auditDataTextarea := v; view := view st;
     resultsHidden := resultsHidden st; alerts := alerts st;
     console := console st; requests := requests st; downloads := downloads st;
     analyzeBtn := analyzeBtn st; generateReportBtn := generateReportBtn st |}.

Definition set_view (v : View) (st : State) : State :=
  {| currentAnalysis := currentAnalysis st; localStorage := localStorage st;
     auditDataTextarea := auditDataTextarea st; view := v;
     resultsHidden := resultsHidden st; alerts := alerts st;
     console := console st; requests := requests st; downloads := downloads st;
     analyzeBtn := analyzeBtn st; generateReportBtn := generateReportBtn st |}.

Definition set_resultsHidden (v : bool) (st : State) : State :=
  {| currentAnalysis := currentAnalysis st; localStorage := localStorage st;
     auditDataTextarea := auditDataTextarea st; view := view st;
     resultsHidden := v; alerts := alerts st;
     console := console st; requests := requests st; downloads := downloads st;
     analyzeBtn := analyzeBtn st; generateReportBtn := generateReportBtn st |}.

Definition set_alerts (v : list Alert) (st : State) : State :=
  {| currentAnalysis := currentAnalysis st; localStorage := localStorage st;
     auditDataTextarea := auditDataTextarea st; view := view st;
     resultsHidden := resultsHidden st; alerts := v;
     console := console st; requests := requests st; downloads := downloads st;
     analyzeBtn := analyzeBtn st; generateReportBtn := generateReportBtn st |}.

Definition set_console (v : list (string * Exn)) (st : State) : State :=
  {| currentAnalysis := currentAnalysis st; localStorage := localStorage st;
     auditDataTextarea := auditDataTextarea st; view := view st;
     resultsHidden := resultsHidden st; alerts := alerts st;
     console := v; requests := requests st; downloads := downloads st;
     analyzeBtn := analyzeBtn st; generateReportBtn := generateReportBtn st |}.

Definition set_requests (v : list Request) (st : State) : State :=
  {| currentAnalysis := currentAnalysis st; localStorage := localStorage st;
     auditDataTextarea := auditDataTextarea st; view := view st;
     resultsHidden := resultsHidden st; alerts := alerts st;
     console := console st; requests := v; downloads := downloads st;
     analyzeBtn := analyzeBtn st; generateReportBtn := generateReportBtn st |}.

Definition set_downloads (v : list (string * string)) (st : State) : State :=
  {| currentAnalysis := currentAnalysis st; localStorage := localStorage st;
     auditDataTextarea := auditDataTextarea st; view := view st;
     resultsHidden := resultsHidden st; alerts := alerts st;
     console := console st; requests := requests st; downloads := v;
     analyzeBtn := analyzeBtn st; generateReportBtn := generateReportBtn st |}.

Definition set_analyzeBtn (v : Button) (st : State) : State :=
  {| currentAnalysis := currentAnalysis st; localStorage := localStorage st;
     auditDataTextarea := auditDataTextarea st; view := view st;
     resultsHidden := resultsHidden st; alerts := alerts st;
     console := console st; requests := requests st; downloads := downloads st;
     analyzeBtn := v; generateReportBtn := generateReportBtn st |}.

Definition set_generateReportBtn (v : Button) (st : State) : State :=
  {| currentAnalysis := currentAnalysis st; localStorage := localStorage st;
     auditDataTextarea := auditDataTextarea st; view := view st;
     resultsHidden := resultsHidden st; alerts := alerts st;
     console := console st; requests := requests st; downloads := downloads st;
     analyzeBtn := analyzeBtn st; generateReportBtn := v |}.

(** *** Helpers of the script *)

Inductive ButtonId : Type := AnalyzeBtn | GenerateReportBtn.

(** [setLoadingState(button, isLoading, text)] *)
Definition setLoadingState (button : ButtonId) (isLoading : bool) (text : string) : M unit :=
  let b := {| disabled := isLoading; spinner := isLoading; caption := text |} in
  modify (match button with
          | AnalyzeBtn => set_analyzeBtn b
          | GenerateReportBtn => set_generateReportBtn b
          end).

(** [showAlert(message, type)]: the alert element is prepended to
    [#resultsSection]. *)
Definition showAlert (message : Text) (type : string) : M unit :=
  modify (fun st =>
            set_alerts ({| alert_text := message; alert_type := type |} :: alerts st) st).

(** [console.error(label, error)] *)
Definition console_error (label : string) (error : Exn) : M unit :=
  modify (fun st => set_console ((label, error) :: console st) st).

(** [await fetch(url, { method: 'POST', headers: {'Content-Type':
    'application/json'}, body })]: the call is recorded; [answer] is how the
    network settles it.  A rejected [fetch] throws a [TypeError]. *)
Definition fetch (url body : string) (answer : Fetch) : M (bool * string) :=
  modify (fun st =>
            set_requests ({| req_url := url; req_method := "POST";
                             req_content_type := "application/json";
                             req_body := body |} :: requests st) st);;
  match answer with
  | Rejected => throw TypeError
  | Responded ok body' => ret (ok, body')
  end.

(** [localStorage.setItem('previousAnalysis', text)]; [write] is how the
    storage area settles the call. *)
Definition setItem (text : string) (write : Write) : M unit :=
  match write with
  | Stored => modify (set_localStorage (Some text))
  | Refused => throw DOMException
  end.

(** [JSON.parse] as a computation that throws. *)
Definition parse (text : string) : Result JSON :=
  match JSON_parse text with
  | Some v => Ok v
  | None => Throw SyntaxError
  end.

(** [downloadFile(blob, filename)] *)
Definition downloadFile (blob filename : string) : M unit :=
  modify (fun st => set_downloads ((blob, filename) :: downloads st) st).

End Page.

(** ** The script: rendering and the event handlers *)

Module App.

Import Str Js Dict Aggregators Json Page.

(** The markup of one finding: each [${...}] is evaluated and converted to
    text in turn. *)
Definition finding_card (index : nat) (finding : JSON) : Result FindingCard :=
  (severity <- get (Some finding) "severity";
   badge <- getSeverityBadgeClass severity;
   title <- get (Some finding) "title";
   titleText <- ToString (or_default title "Untitled Finding");
   description <- get (Some finding) "description";
   descriptionText <- ToString (or_default description "No description provided");
   recommendation <- get (Some finding) "recommendation";
   recommendationText <-
     match recommendation with
     | Some r => if truthy recommendation
                 then (t <- ToString r; Ok (Some t))
                 else Ok None
     | None => Ok None
     end;
   Ok {| card_badge := badge; card_number := index + 1;
         card_title := titleText; card_description := descriptionText;
         card_recommendation := recommendationText |})%result.

Fixpoint finding_cards (index : nat) (findings : list JSON) : Result (list FindingCard) :=
  match findings with
  | [] => Ok []
  | finding :: rest =>
      (card <- finding_card index finding;
       cards <- finding_cards (S index) rest;
       Ok (card :: cards))%result
  end.

(** [if (findings?.length > 0) findings.forEach(...) else placeholder].
    A [findings] value that is not an array has no callable [forEach]:
    the call throws here when its [length] is positive; otherwise the
    placeholder is shown, and [processSeverityData] throws later unless
    the value is [null] or missing, so rendering such a value always ends
    in a [TypeError]. *)
Definition findings_panel (findings : option JSON) : Result FindingsPanel :=
  (nonempty <- length_positive findings;
   if nonempty then
     match findings with
     | Some (JArr items) => (cards <- finding_cards 0 items; Ok (Cards cards))
     | _ => Throw TypeError
     end
   else Ok NoFindingsAvailable)%result.

(** The text of the executive summary. *)
Definition summary_text (data : JSON) : Result string :=
  (analysis <- get (Some data) "analysis";
   summary <- get analysis "summary";
   ToString (or_default summary "No summary available"))%result.

(** The content of the findings panel, built in [findingsHTML] before it is
    assigned. *)
Definition findings_html (data : JSON) : Result FindingsPanel :=
  (analysis <- get (Some data) "analysis";
   findings <- get analysis "findings";
   findings_panel findings)%result.

(** The findings panel and the data of the two charts. *)
Definition findings_and_charts (data : JSON) (summaryText : string) : Result Rendered :=
  (analysis <- get (Some data) "analysis";
   findings <- get analysis "findings";
   panel <- findings_panel findings;
   severityData <- processSeverityData (Some data);
   branchData <- processBranchData (Some data);
   Ok {| executiveSummary := summaryText; detailedFindings := panel;
         severityChart := severityData; branchChart := branchData |})%result.

(** What [displayResults(data)] and [generateCharts(data)] put on the page
    when nothing throws. *)
Definition render (data : JSON) : Result Rendered :=
  (summaryText <- summary_text data; findings_and_charts data summaryText)%result.

(** [if (severityChart) severityChart.destroy(); if (branchChart)
    branchChart.destroy()] *)
Definition destroy_charts (v : View) : View :=
  match charts v with
  | NoCharts => v
  | Drawn _ _ | Disposed => set_charts Disposed v
  end.

Local Open Scope page_scope.

(** [generateCharts(data)]: the data of both charts is computed before either
    chart is created. *)
Definition generateCharts (data : JSON) : M unit :=
  severityData <- lift (processSeverityData (Some data));
  branchData <- lift (processBranchData (Some data));
  modify (fun st => set_view (set_charts (Drawn severityData branchData) (view st)) st).

(** [displayResults(data)]: the charts are disposed, then the summary panel
    is written, then the findings panel, then the charts are created. *)
Definition displayResults (data : JSON) : M unit :=
  modify (fun st => set_view (destroy_charts (view st)) st);;
  summaryText <- lift (summary_text data);
  modify (fun st => set_view (set_summaryPanel summaryText (view st)) st);;
  panel <- lift (findings_html data);
  modify (fun st => set_view (set_findingsPanel panel (view st)) st);;
  generateCharts data.

(** The body of the [try] block of the Analyze handler. *)
Definition analyze_try (auditDataText : string) (answer : Fetch) (write : Write)
  : M unit :=
  auditData <- lift (parse auditDataText);
  audit_report <- lift (get (Some auditData) "audit_report");
  if negb (truthy (get_opt audit_report "exceptions")) then
    showAlert (Plain "JSON must contain audit_report with exceptions array") "danger"
  else
    setLoadingState AnalyzeBtn true "Analyzing...";;
    response <- fetch "/analyze" auditDataText answer;
    data <- lift (parse (snd response));
    (if negb (fst response) then
       error <- lift (get (Some data) "error");
       message <- lift (ToString (or_default error "Analysis failed"));
       throw (Error message)
     else ret tt);;
    modify (set_currentAnalysis data);;
    setItem (JSON_stringify data) write;;
    displayResults data;;
    modify (set_resultsHidden false).

(** The click handler of [analyzeBtn]; [answer] is how the network settles
    the request and [write] how local storage settles the write, should
    the handler come to them. *)
Definition analyzeBtn_click (answer : Fetch) (write : Write) : M unit :=
  st <- read_state;
  let auditDataText := trim (auditDataTextarea st) in
  try_finally
    (try_catch
       (analyze_try auditDataText answer write)
       (fun error =>
          console_error "Analysis error:" error;;
          showAlert (with_message "Analysis failed: " error) "danger"))
    (setLoadingState AnalyzeBtn false "Analyze Data").

(** The click handler of [generateReportBtn]; a response body stands for
    the blob. *)
Definition generateReportBtn_click (answer : Fetch) : M unit :=
  st <- read_state;
  if negb (truthy (Some (currentAnalysis st))) then
    showAlert (Plain "No analysis results available") "warning"
  else
    try_finally
      (try_catch
         (setLoadingState GenerateReportBtn true "Generating...";;
          response <- fetch "/generate-report" (JSON_stringify (currentAnalysis st)) answer;
          if negb (fst response) then throw (Error "Report generation failed")
          else downloadFile (snd response) "audit_report.docx")
         (fun error =>
            console_error "Report generation error:" error;;
            showAlert (with_message "Report generation failed: " error) "danger"))
      (setLoadingState GenerateReportBtn false "Generate Word Report").

(** The change handler of [fileUpload], once the reader has loaded the
    selected file: [file] is the text the reader hands to [onload], [None]
    when no file was selected.  The value written to the textarea reads
    back with its line ends normalized. *)
Definition fileUpload_change (file : option string) : M unit :=
  match file with
  | None => ret tt
  | Some text => modify (set_auditDataTextarea (normalize_newlines text))
  end.

(** The page as the markup delivers it, with [stored] in local storage. *)
Definition initial (stored : option string) : State :=
  {| currentAnalysis := JNull; localStorage := stored;
     auditDataTextarea := ""; view := Blank; resultsHidden := true;
     alerts := []; console := []; requests := []; downloads := [];
     analyzeBtn := {| disabled := false; spinner := false; caption := "Analyze Data" |};
     generateReportBtn :=
       {| disabled := false; spinner := false; caption := "Generate Word Report" |} |}.

(** The restore step of the [DOMContentLoaded] handler.  Nothing catches
    what it throws: a [Throw] result is an uncaught exception, which ends
    the handler before any listener is registered. *)
Definition restore : M unit :=
  st <- read_state;
  match localStorage st with
  | Some savedAnalysis =>
      if negb (savedAnalysis =? "") then
        data <- lift (parse savedAnalysis);
        modify (set_currentAnalysis data);;
        displayResults data;;
        modify (set_resultsHidden false)
      else ret tt
  | None => ret tt
  end.

Definition DOMContentLoaded (stored : option string) : State * Result unit :=
  restore (initial stored).

End App.

(** ** Notions used to state the properties *)

Module Notions.

Import Str Js Dict Aggregators Json Page App.

(** Number of occurrences of a key in a list of keys. *)
Fixpoint occurrences (k : string) (ks : list string) : nat :=
  match ks with
  | [] => 0
  | k' :: r => (if k' =? k then 1 else 0) + occurrences k r
  end.

(** The object reached by counting the keys [ks] one after the other. *)
Definition tally (ks : list string) (o : Object) : Object := fold_left count ks o.

(** A finding as the data model has it: an object whose [severity] is
    absent, [null] or a string. *)
Definition well_formed_finding (finding : JSON) : bool :=
  match finding with
  | JObj props =>
      match own props "severity" with
      | None | Some JNull | Some (JStr _) => true
      | Some _ => false
      end
  | _ => false
  end.

(** The four keys the severity chart reads. *)
Definition charted (k : string) : bool :=
  (k =? "high") || (k =? "medium") || (k =? "low") || (k =? "unspecified").

(** Number of findings counted under a key the chart does not read. *)
Definition uncharted (findings : list JSON) : nat :=
  List.length
    (filter (fun f => match severity_key f with
                      | Ok k => negb (charted k)
                      | Throw _ => false
                      end) findings).

(** An analysis response with the given findings and participants. *)
Definition response_of (findings participants : list JSON) : JSON :=
  JObj [("analysis", JObj [("findings", JArr findings);
                           ("participants", JArr participants)])].

(** [1] when the two labels are equal, else [0]. *)
Definition hit (k label : string) : nat := if k =? label then 1 else 0.

(** Sample findings. *)
Definition finding_critical : JSON := JObj [("severity", JStr "critical")].
Definition finding_very_high : JSON := JObj [("severity", JStr "very high")].
Definition finding_High : JSON := JObj [("severity", JStr "High")].
Definition finding_plain : JSON := JObj [("title", JStr "Cash count")].

(** A participant as the data model has it: an object whose [branch] is
    absent, [null] or a string. *)
Definition well_formed_participant (p : JSON) : bool :=
  match p with
  | JObj props =>
      match own props "branch" with
      | None | Some JNull | Some (JStr _) => true
      | Some _ => false
      end
  | _ => false
  end.

(** The branch value of a participant, a missing one replaced by the label
    "Unspecified". *)
Definition branch_of (p : JSON) : string :=
  match p with
  | JObj props =>
      match own props "branch" with
      | Some (JStr s) => if s =? "" then "Unspecified" else s
      | _ => "Unspecified"
      end
  | _ => "Unspecified"
  end.

Definition is_index (k : string) : bool :=
  match array_index k with
  | Some _ => true
  | None => false
  end.

(** Both keys are array indices and the first is the smaller one. *)
Definition index_lt (k k' : string) : Prop :=
  match array_index k, array_index k' with
  | Some i, Some j => (i < j)%N
  | _, _ => False
  end.

(** The distinct elements of a list, each at the place of its first
    occurrence. *)
Fixpoint first_seen (l : list string) : list string :=
  match l with
  | [] => []
  | x :: r => x :: filter (fun y => negb (y =? x)) (first_seen r)
  end.

(** The keys of an object after property [k] is defined on it. *)
Fixpoint insert_key (k : string) (ks : list string) : list string :=
  match ks with
  | [] => [k]
  | k' :: r =>
      if k =? k' then k' :: r
      else if precedes k k' then k :: k' :: r
      else k' :: insert_key k r
  end.

(** The sum of the counts in a list of values; text counts for nothing. *)
Fixpoint total (vs : list Value) : nat :=
  match vs with
  | [] => 0
  | VNumber n :: r => n + total r
  | _ :: r => total r
  end.

Definition is_count (v : Value) : bool :=
  match v with
  | VNumber n => (1 <=? n)%nat
  | _ => false
  end.

(** Sample participants. *)
Definition participant (branch : string) : JSON := JObj [("branch", JStr branch)].

(** JSON text written with ['] in place of the double quote. *)
Fixpoint json (s : string) : string :=
  match s with
  | EmptyString => EmptyString
  | String c r => String (if Ascii.eqb c "'" then dquote else c) (json r)
  end.

(** The parsed input carries a truthy [exceptions] entry inside an
    [audit_report] object. *)
Definition has_exceptions (auditData : JSON) : bool :=
  match auditData with
  | JObj props =>
      match own props "audit_report" with
      | Some (JObj props') => truthy (own props' "exceptions")
      | _ => false
      end
  | _ => false
  end.

(** The text parses as JSON and the parsed value has the exceptions entry. *)
Definition accepted (text : string) : bool :=
  match JSON_parse text with
  | Some auditData => has_exceptions auditData
  | None => false
  end.

(** The request the Analyze handler sends for the text [body]. *)
Definition analyze_request (body : string) : Request :=
  {| req_url := "/analyze"; req_method := "POST";
     req_content_type := "application/json"; req_body := body |}.

(** The request the report handler sends for the analysis [analysis]. *)
Definition report_request (analysis : JSON) : Request :=
  {| req_url := "/generate-report"; req_method := "POST";
     req_content_type := "application/json"; req_body := JSON_stringify analysis |}.

(** The alerts a user can see: those of [#resultsSection], unless the
    section is hidden. *)
Definition visible_alerts (st : State) : list Alert :=
  if resultsHidden st then [] else alerts st.

Definition idle_analyzeBtn : Button :=
  {| disabled := false; spinner := false; caption := "Analyze Data" |}.

Definition danger (text : Text) : Alert := {| alert_text := text; alert_type := "danger" |}.

Definition warning (text : Text) : Alert := {| alert_text := text; alert_type := "warning" |}.

(** The page with [text] typed into the textarea. *)
Definition typed (text : string) (st : State) : State := set_auditDataTextarea text st.

(** The page once it has loaded with nothing in local storage. *)
Definition fresh_page : State := fst (DOMContentLoaded None).

(** Sample texts: an audit report, a success response and a failure
    response. *)
Definition sample_audit_text : string :=
  json "{'audit_report':{'exceptions':[{'severity':'High'}]}}".

Definition sample_response_body : string :=
  json "{'analysis':{'summary':'OK','findings':[{'severity':'medium'}],'participants':[{'branch':'NYC'}]}}".

Definition sample_error_body : string := json "{'error':'quota exceeded'}".

(** A page that holds an earlier analysis and its stored copy, with the
    sample audit report typed in. *)
Definition analysed_page : State :=
  typed sample_audit_text
        (set_currentAnalysis (response_of [finding_critical] [])
           (set_localStorage (Some (JSON_stringify (response_of [finding_critical] [])))
              (initial None))).

(** What the Analyze handler throws on a non-success response with the
    given body. *)
Definition thrown_for (body : string) : Exn :=
  match JSON_parse body with
  | None => SyntaxError
  | Some data =>
      match get (Some data) "error" with
      | Throw e => e
      | Ok error =>
          match ToString (or_default error "Analysis failed") with
          | Ok message => Error message
          | Throw e => e
          end
      end
  end.

End Notions.

(** ** The earlier copy of the script

    The second copy of the script in the repository guards the aggregation
    loops with [if (x)] instead of [x?.forEach], validates the text a second
    time, and keeps nothing in local storage. *)

Module Earlier.

Import Str Js Dict Aggregators Json Page App.

(** [if (x) { x.forEach(f) }]: skipped for every falsy [x]; a truthy value
    that is not an array has no callable [forEach]. *)
Definition forEach_if {S} (x : option JSON) (f : S -> JSON -> Result S) (s : S)
  : Result S :=
  if truthy x then
    match x with
    | Some (JArr items) => forEach f items s
    | _ => Throw TypeError
    end
  else Ok s.

Definition processSeverityData (data : option JSON) : Result SeverityData :=
  (analysis <- get data "analysis";
   findings <- get analysis "findings";
   severityCounts <-
     forEach_if findings
       (fun severityCounts finding =>
          severity <- severity_key finding;
          Ok (count severityCounts severity))
       severityCounts0;
   Ok {| sev_labels := ["High"; "Medium"; "Low"; "Unspecified"];
         sev_values := [ read severityCounts "high"; read severityCounts "medium";
                         read severityCounts "low"; read severityCounts "unspecified" ];
         sev_colors := [ "rgba(220, 53, 69, 0.7)"; "rgba(255, 193, 7, 0.7)";
                         "rgba(25, 135, 84, 0.7)"; "rgba(108, 117, 125, 0.7)" ];
         sev_borderColors := [ "rgba(220, 53, 69, 1)"; "rgba(255, 193, 7, 1)";
                               "rgba(25, 135, 84, 1)"; "rgba(108, 117, 125, 1)" ] |})%result.

Definition processBranchData (data : option JSON) : Result BranchData :=
  (analysis <- get data "analysis";
   participants <- get analysis "participants";
   branchCounts <-
     forEach_if participants
       (fun branchCounts participant =>
          branch <- branch_key participant;
          Ok (count branchCounts branch))
       [];
   let labels := keys branchCounts in
   Ok {| br_labels := labels;
         br_values := map (fun label => read branchCounts label) labels;
         br_colors := map branch_color (seq 0 (List.length labels)) |})%result.

(** [if (findings && findings.length > 0) findings.forEach(...) else
    placeholder].  A truthy [findings] that is not an array has no callable
    [forEach]: the call throws here when its [length] is positive;
    otherwise the placeholder is shown, and [processSeverityData] throws
    later. *)
Definition findings_panel (findings : option JSON) : Result FindingsPanel :=
  if truthy findings then
    (nonempty <- length_positive findings;
     if nonempty then
       match findings with
       | Some (JArr items) => (cards <- finding_cards 0 items; Ok (Cards cards))
       | _ => Throw TypeError
       end
     else Ok NoFindingsAvailable)%result
  else Ok NoFindingsAvailable.

(** The content of the findings panel, built in [findingsHTML] before it is
    assigned. *)
Definition findings_html (data : JSON) : Result FindingsPanel :=
  (analysis <- get (Some data) "analysis";
   findings <- get analysis "findings";
   findings_panel findings)%result.

Definition findings_and_charts (data : JSON) (summaryText : string) : Result Rendered :=
  (analysis <- get (Some data) "analysis";
   findings <- get analysis "findings";
   panel <- findings_panel findings;
   severityData <- processSeverityData (Some data);
   branchData <- processBranchData (Some data);
   Ok {| executiveSummary := summaryText; detailedFindings := panel;
         severityChart := severityData; branchChart := branchData |})%result.

Definition render (data : JSON) : Result Rendered :=
  (summaryText <- summary_text data; findings_and_charts data summaryText)%result.

Local Open Scope page_scope.

(** [generateCharts(data)]: the data of both charts is computed before either
    chart is created. *)
Definition generateCharts (data : JSON) : M unit :=
  severityData <- lift (processSeverityData (Some data));
  branchData <- lift (processBranchData (Some data));
  modify (fun st => set_view (set_charts (Drawn severityData branchData) (view st)) st).

Definition displayResults (data : JSON) : M unit :=
  modify (fun st => set_view (destroy_charts (view st)) st);;
  summaryText <- lift (summary_text data);
  modify (fun st => set_view (set_summaryPanel summaryText (view st)) st);;
  panel <- lift (findings_html data);
  modify (fun st => set_view (set_findingsPanel panel (view st)) st);;
  generateCharts data.

(** The body of the [try] block of the Analyze handler, with its inner
    [try { JSON.parse(auditDataText) } catch (e) { ... return }]. *)
Definition analyze_try (auditDataText : string) (answer : Fetch) : M unit :=
  auditData <- lift (parse auditDataText);
  audit_report <- lift (get (Some auditData) "audit_report");
  if negb (truthy (get_opt audit_report "exceptions")) then
    showAlert (Plain "JSON must contain audit_report with exceptions array") "danger"
  else
    match parse auditDataText with
    | Throw e => showAlert (with_message "Invalid JSON format: " e) "danger"
    | Ok _ =>
        setLoadingState AnalyzeBtn true "Analyzing...";;
        response <- fetch "/analyze" auditDataText answer;
        data <- lift (parse (snd response));
        (if negb (fst response) then
           error <- lift (get (Some data) "error");
           message <- lift (ToString (or_default error "Analysis failed"));
           throw (Error message)
         else ret tt);;
        modify (set_currentAnalysis data);;
        displayResults data;;
        modify (set_resultsHidden false)
    end.

(** The click handler of [analyzeBtn].  What it catches is an [Error]
    object, which has no [response] property, so the last statement of the
    [catch] block logs nothing. *)
Definition analyzeBtn_click (answer : Fetch) : M unit :=
  st <- read_state;
  let auditDataText := trim (auditDataTextarea st) in
  try_finally
    (try_catch
       (analyze_try auditDataText answer)
       (fun error =>
          console_error "Analysis error:" error;;
          showAlert (with_message "Analysis failed: " error) "danger"))
    (setLoadingState AnalyzeBtn false "Analyze Data").

End Earlier.

(** ** Further notions *)

Module MoreNotions.

Import Str Js Dict Aggregators Json Page App Notions.

(** An optional text field: absent, [null] or a string. *)
Definition optional_text (props : list (string * JSON)) (k : string) : bool :=
  match own props k with
  | None | Some JNull | Some (JStr _) => true
  | Some _ => false
  end.

(** The text shown for an optional text field, [placeholder] standing in
    for a missing or empty one. *)
Definition text_or (props : list (string * JSON)) (k placeholder : string) : string :=
  match own props k with
  | Some (JStr s) => if s =? "" then placeholder else s
  | _ => placeholder
  end.

(** The text of an optional text field that is present and not empty. *)
Definition text_if_any (props : list (string * JSON)) (k : string) : option string :=
  match own props k with
  | Some (JStr s) => if s =? "" then None else Some s
  | _ => None
  end.

Definition props_of (v : JSON) : list (string * JSON) :=
  match v with
  | JObj props => props
  | _ => []
  end.

(** A finding whose four fields are optional texts. *)
Definition displayable_finding (finding : JSON) : bool :=
  match finding with
  | JObj props =>
      optional_text props "severity" && optional_text props "title"
      && optional_text props "description" && optional_text props "recommendation"
  | _ => false
  end.

(** An optional list: absent, [null] or an array whose items satisfy [ok]. *)
Definition optional_list (ok : JSON -> bool) (x : option JSON) : bool :=
  match x with
  | None | Some JNull => true
  | Some (JArr items) => forallb ok items
  | Some _ => false
  end.

Definition items_of (x : option JSON) : list JSON :=
  match x with
  | Some (JArr items) => items
  | _ => []
  end.

(** An analysis result as the data model has it. *)
Definition well_typed_result (data : JSON) : bool :=
  match data with
  | JObj props =>
      match own props "analysis" with
      | Some (JObj analysis) =>
          optional_text analysis "summary"
          && optional_list displayable_finding (own analysis "findings")
          && optional_list well_formed_participant (own analysis "participants")
      | _ => false
      end
  | _ => false
  end.

(** The badge of a severity string, by substrings of its folded form. *)
Definition badge_of (s : string) : string :=
  if includes (toLowerCase s) "high" then "danger"
  else if includes (toLowerCase s) "medium" then "warning"
  else if includes (toLowerCase s) "low" then "success"
  else "secondary".

(** The badge that goes with a chart bucket. *)
Definition bucket_badge (k : string) : string :=
  if k =? "high" then "danger"
  else if k =? "medium" then "warning"
  else if k =? "low" then "success"
  else "secondary".

(** A finding the Severity Aggregator can count: not [null], its severity
    falsy or a string. *)
Definition countable_finding (finding : JSON) : bool :=
  match finding with
  | JNull => false
  | JObj props =>
      match own props "severity" with
      | Some (JStr _) => true
      | x => negb (truthy x)
      end
  | _ => true
  end.

Definition idle_generateReportBtn : Button :=
  {| disabled := false; spinner := false; caption := "Generate Word Report" |}.

(** The alert text starts with [prefix]. *)
Definition has_prefix (prefix : string) (a : Alert) : bool :=
  match alert_text a with
  | Plain s => String.prefix prefix s
  | Builtin p _ => String.prefix prefix p
  end.

(** The values a JSON value can be printed as: everything but an object
    with an own [toString] entry, or an array holding such an object. *)
Fixpoint printable (v : JSON) : bool :=
  match v with
  | JArr items => forallb printable items
  | JObj props =>
      match own props "toString" with
      | Some _ => false
      | None => true
      end
  | _ => true
  end.

(** A participant the Branch Aggregator can count: not [null], its branch
    falsy or printable. *)
Definition countable_participant (p : JSON) : bool :=
  match p with
  | JNull => false
  | JObj props =>
      match own props "branch" with
      | Some v => if truthy (Some v) then printable v else true
      | None => true
      end
  | _ => true
  end.

(** The entries of the [analysis] object of a response. *)
Definition analysis_props (data : JSON) : list (string * JSON) :=
  match data with
  | JObj props => props_of (match own props "analysis" with Some a => a | None => JNull end)
  | _ => []
  end.

(** *** Notions for the colours *)

(** Two binary64 numbers with the same sign, significand and exponent. *)
Definition same_number (x y : PrimFloat.float) : bool :=
  match FloatOps.Prim2SF x, FloatOps.Prim2SF y with
  | SpecFloat.S754_zero s, SpecFloat.S754_zero s' => Bool.eqb s s'
  | SpecFloat.S754_infinity s, SpecFloat.S754_infinity s' => Bool.eqb s s'
  | SpecFloat.S754_nan, SpecFloat.S754_nan => true
  | SpecFloat.S754_finite s m e, SpecFloat.S754_finite s' m' e' =>
      Bool.eqb s s' && Pos.eqb m m' && Z.eqb e e'
  | _, _ => false
  end.

(** No two colours of the list have the same hue. *)
Fixpoint distinct_hues (l : list Color) : bool :=
  match l with
  | [] => true
  | c :: r =>
      forallb (fun c' => negb (same_number (hue c) (hue c'))) r && distinct_hues r
  end.

(** A colour as the script writes it: its hue is at least 0 and below 360,
    saturation, lightness and alpha are the fixed ones. *)
Definition branch_colour_form (c : Color) : bool :=
  PrimFloat.leb PrimFloat.zero (hue c)
  && PrimFloat.ltb (hue c) (Binary64.of_index 360)
  && (saturation c =? 70)%Z && (lightness c =? 60)%Z && (alpha_tenths c =? 7)%Z.

(** *** Notions for the stored copy of an analysis *)

(** A number as [JSON.parse] yields it: zero is [0 * 10^0], and no other
    mantissa ends in a zero or is so small that it is read as zero. *)
Definition normal_number (m e : Z) : bool :=
  if (m =? 0)%Z then (e =? 0)%Z
  else negb (m mod 10 =? 0)%Z && negb (rounds_to_zero (Z.abs m) e).

(** The text after a number literal does not continue it. *)
Definition ends_number (rest : chars) : bool :=
  match rest with
  | [] => true
  | c :: _ =>
      negb (is_digit c || Ascii.eqb c "." || Ascii.eqb c "e" || Ascii.eqb c "E")
  end.

(** Defined after [k], the key [k'] stays behind it: it is another key,
    and it does not overtake. *)
Definition stays_behind (k k' : string) : bool :=
  negb (k' =? k) && negb (precedes k' k).

(** Keys in the order in which they were defined, none repeated and none
    overtaken: the order [Object.keys] lists them in. *)
Fixpoint key_order (ks : list string) : bool :=
  match ks with
  | [] => true
  | k :: r => forallb (stays_behind k) r && key_order r
  end.

(** A value as [JSON.parse] yields it: its numbers are normal and the
    properties of its objects are in key order. *)
Fixpoint canonical (v : JSON) : bool :=
  match v with
  | JNum m e => normal_number m e
  | JArr items => forallb canonical items
  | JObj props =>
      key_order (map fst props) && forallb (fun kv => canonical (snd kv)) props
  | _ => true
  end.

(** The text after a value inside a text: nothing, a comma or a closing
    bracket or brace. *)
Definition ends_value (rest : chars) : bool :=
  match rest with
  | [] => true
  | c :: _ => Ascii.eqb c "," || Ascii.eqb c "]" || Ascii.eqb c "}"
  end.

(** The object that results from defining the properties [props], one
    after the other, on the object [o]. *)
Definition define_all (props o : list (string * JSON)) : list (string * JSON) :=
  fold_left (fun o kv => define (fst kv) (snd kv) o) props o.

(** The text of one member of an object. *)
Definition member_text (kv : string * JSON) : string :=
  quote (fst kv) ++ ":" ++ JSON_stringify (snd kv).

(** A decimal that survives the engine's binary64 numbers: one of at most
    15 significant digits within the normal range is the shortest decimal
    that rounds to its binary64 value, so [JSON.parse] followed by
    [Number::toString] gives it back.  On these numbers the embedding,
    which keeps decimals exact, agrees with the engine. *)
Definition survives_binary64 (m e : Z) : bool :=
  (Z.abs m <? 10 ^ 15)%Z && (-300 <=? e)%Z && (e <=? 290)%Z.

Fixpoint numbers_survive (v : JSON) : bool :=
  match v with
  | JNum m e => survives_binary64 m e
  | JArr items => forallb numbers_survive items
  | JObj props => forallb (fun kv => numbers_survive (snd kv)) props
  | _ => true
  end.

(** [JSON.parse] reads [JSON.stringify(v)] back as [v], when given fuel for
    each character of that text. *)
Definition reads_back (v : JSON) : Prop :=
  forall (rest : chars) (g : nat),
    ends_value rest = true ->
    List.length (list_ascii_of_string (JSON_stringify v)) <= g ->
    parse_value g (list_ascii_of_string (JSON_stringify v) ++ rest)%list = Some (v, rest).

(** *** Sessions *)

(** What can happen on the loaded page. *)
Inductive Event : Type :=
| TextEdited (text : string)         (* the user edits the textarea *)
| FileChosen (file : option string)  (* [change] on [fileUpload], the file read *)
| AnalyzeClicked (answer : Fetch) (write : Write)
| ReportClicked (answer : Fetch).

Definition handle (ev : Event) : M unit :=
  match ev with
  | TextEdited text => modify (set_auditDataTextarea (normalize_newlines text))
  | FileChosen file => fileUpload_change file
  | AnalyzeClicked answer write => analyzeBtn_click answer write
  | ReportClicked answer => generateReportBtn_click answer
  end.

(** The page after the events, each handled to its end before the next. *)
Fixpoint after (events : list Event) (st : State) : State :=
  match events with
  | [] => st
  | ev :: rest => after rest (fst (handle ev st))
  end.

(** The numbers of the analysis that an event brings survive binary64. *)
Definition brings_plain_numbers (ev : Event) : bool :=
  match ev with
  | AnalyzeClicked (Responded true body) _ =>
      match JSON_parse body with
      | Some data => numbers_survive data
      | None => true
      end
  | _ => true
  end.

(** Local storage accepts the write of the event, should there be one. *)
Definition write_accepted (ev : Event) : bool :=
  match ev with
  | AnalyzeClicked _ Refused => false
  | _ => true
  end.

(** Charts on display come with the panels of the same analysis. *)
Definition charts_complete (st : State) : Prop :=
  forall severityData branchData,
    charts (view st) = Drawn severityData branchData -> exists r, view st = Shown r.

(** A page shows what a reload would show: its results section is
    revealed, and the stored text parses to a value that renders as what
    the page shows. *)
Definition shows_stored (st : State) : Prop :=
  forall r, view st = Shown r ->
            resultsHidden st = false /\
            exists text data,
              localStorage st = Some text /\ text <> "" /\
              JSON_parse text = Some data /\ render data = Ok r.

(** A sample session: an audit report is typed and analysed, then a
    report is requested and the request fails. *)
Definition sample_session : list Event :=
  [ TextEdited sample_audit_text;
    AnalyzeClicked (Responded true sample_response_body) Stored;
    ReportClicked Rejected ].

(** The page that an exception of [displayResults] leaves of the view [v]:
    the charts are disposed, and each panel is replaced if the exception
    came after its assignment.  [summary] and [panel] are the outcomes of
    computing the content of the two panels. *)
Definition interrupted_at (summary : Result string) (panel : Result FindingsPanel)
           (v : View) : View :=
  match summary with
  | Throw _ => destroy_charts v
  | Ok text =>
      match panel with
      | Throw _ => set_summaryPanel text (destroy_charts v)
      | Ok cards => set_findingsPanel cards (set_summaryPanel text (destroy_charts v))
      end
  end.

Definition interrupted (data : JSON) (v : View) : View :=
  interrupted_at (summary_text data) (findings_html data) v.

(** The complete results a page shows, when both panels are filled and
    the charts are drawn. *)
Definition shown (v : View) : option Rendered :=
  match summaryPanel v, findingsPanel v, charts v with
  | Some text, Some panel, Drawn severityData branchData =>
      Some {| executiveSummary := text; detailedFindings := panel;
              severityChart := severityData; branchChart := branchData |}
  | _, _, _ => None
  end.

End MoreNotions.



(** * Properties *)

(** ** The parser *)

Module JsonFacts.

Import Str Js Dict Json.

Lemma skip_ws_length (s : chars) : List.length (skip_ws s) <= List.length s.
Proof.
  induction s as [|c r IH]; simpl; [lia|].
  destruct (is_ws c); simpl; lia.
Qed.

Lemma expect_length (c : ascii) (s r : chars) :
  expect c s = Some r -> List.length r < List.length s.
Proof.
  unfold expect. pose proof (skip_ws_length s) as H.
  destruct (skip_ws s) as [|x r']; [discriminate|].
  destruct (Ascii.eqb x c); [|discriminate].
  intros E. injection E as <-. simpl in H. lia.
Qed.

Lemma optional_length (c : ascii) (s : chars) :
  List.length (snd (optional c s)) <= List.length s.
Proof.
  unfold optional. destruct s as [|x r]; simpl; [lia|].
  destruct (Ascii.eqb x c); simpl; lia.
Qed.

Lemma span_digits_length (s : chars) :
  List.length (fst (span_digits s)) + List.length (snd (span_digits s)) = List.length s.
Proof.
  induction s as [|c r IH]; simpl; [reflexivity|].
  destruct (is_digit c); simpl; [|reflexivity].
  destruct (span_digits r); simpl in *. lia.
Qed.

Lemma parse_fraction_length (s fp r : chars) :
  parse_fraction s = Some (fp, r) -> List.length r <= List.length s.
Proof.
  unfold parse_fraction. pose proof (optional_length "." s) as Ho.
  destruct (optional "." s) as [[|] r0]; simpl in Ho.
  - pose proof (span_digits_length r0) as Hd.
    destruct (span_digits r0) as [[|d ds] r']; [discriminate|].
    intros E. injection E as <- <-. simpl in Hd. lia.
  - intros E. injection E as <- <-. lia.
Qed.

Lemma parse_exponent_length (s r : chars) (x : Z) :
  parse_exponent s = Some (x, r) -> List.length r <= List.length s.
Proof.
  unfold parse_exponent. destruct s as [|c r0].
  - intros E. injection E as <- <-. lia.
  - destruct (Ascii.eqb c "e" || Ascii.eqb c "E").
    + pose proof (optional_length "-" r0) as Hm.
      destruct (optional "-" r0) as [minus r1]; simpl in Hm.
      pose proof (optional_length "+" r1) as Hp.
      set (r2 := if minus then r1 else snd (optional "+" r1)).
      assert (H2 : List.length r2 <= List.length r1) by (unfold r2; destruct minus; lia).
      pose proof (span_digits_length r2) as Hd.
      destruct (span_digits r2) as [[|d ds] r3]; [discriminate|].
      intros E. injection E as <- <-. simpl in *. lia.
    + intros E. injection E as <- <-. lia.
Qed.

Lemma parse_number_length (s r : chars) (v : JSON) :
  parse_number s = Some (v, r) -> List.length r < List.length s.
Proof.
  unfold parse_number. pose proof (optional_length "-" s) as Ho.
  destruct (optional "-" s) as [neg s1]; simpl in Ho.
  pose proof (span_digits_length s1) as Hd.
  destruct (span_digits s1) as [[|d more] s2]; [discriminate|]. simpl in Hd.
  destruct (Ascii.eqb d "0" && negb (Nat.eqb (List.length more) 0)); [discriminate|].
  destruct (parse_fraction s2) as [[fp s3]|] eqn:Ef; [|discriminate].
  apply parse_fraction_length in Ef.
  destruct (parse_exponent s3) as [[x s4]|] eqn:Ee; [|discriminate].
  apply parse_exponent_length in Ee.
  intros E. injection E as <- <-. lia.
Qed.

Lemma parse_string_length (n : nat) : forall (s r : chars) (t : string),
  List.length s <= n ->
  parse_string s = Some (t, r) -> List.length r < List.length s.
Proof.
  induction n as [|n IH]; intros s r t Hn; destruct s as [|c s']; simpl in *;
    try discriminate; try lia.
  destruct (Ascii.eqb c dquote).
  { intros E. injection E as <- <-. lia. }
  destruct (Ascii.eqb c "\").
  - destruct s' as [|e r1]; [discriminate|]. simpl in Hn.
    destruct (Ascii.eqb e "u").
    + destruct r1 as [|h1 [|h2 [|h3 [|h4 r2]]]]; try discriminate.
      destruct (hex4 h1 h2 h3 h4); [|discriminate].
      destruct (parse_string r2) as [[t' r']|] eqn:E2; [|discriminate].
      apply IH in E2; [|simpl in Hn; lia].
      intros E. injection E as <- <-. simpl. lia.
    + destruct (escaped e); [|discriminate].
      destruct (parse_string r1) as [[t' r']|] eqn:E1; [|discriminate].
      apply IH in E1; [|lia].
      intros E. injection E as <- <-. simpl. lia.
  - destruct (nat_of_ascii c <? 32)%nat; [discriminate|].
    destruct (parse_string s') as [[t' r']|] eqn:E1; [|discriminate].
    apply IH in E1; [|lia].
    intros E. injection E as <- <-. lia.
Qed.

Lemma starts_with_length (p : string) (s r : chars) :
  starts_with p s = Some r -> List.length r <= List.length s.
Proof.
  unfold starts_with.
  destruct (string_of_list_ascii (firstn (String.length p) s) =? p); [|discriminate].
  intros E. injection E as <-. rewrite length_skipn. lia.
Qed.

Lemma parse_scalar_length (c : ascii) (r r' : chars) (v : JSON) :
  parse_scalar c r = Some (v, r') -> List.length r' <= List.length r.
Proof.
  unfold parse_scalar.
  destruct (Ascii.eqb c dquote).
  { destruct (parse_string r) as [[t r0]|] eqn:E; [|discriminate].
    apply (parse_string_length (List.length r)) in E; [|lia].
    intros H. injection H as <- <-. lia. }
  destruct (Ascii.eqb c "n").
  { destruct (starts_with "ull" r) as [r0|] eqn:E; [|discriminate].
    apply starts_with_length in E. intros H. injection H as <- <-. lia. }
  destruct (Ascii.eqb c "t").
  { destruct (starts_with "rue" r) as [r0|] eqn:E; [|discriminate].
    apply starts_with_length in E. intros H. injection H as <- <-. lia. }
  destruct (Ascii.eqb c "f").
  { destruct (starts_with "alse" r) as [r0|] eqn:E; [|discriminate].
    apply starts_with_length in E. intros H. injection H as <- <-. lia. }
  intros H. apply parse_number_length in H. simpl in H. lia.
Qed.

(** A successful parse consumes input, and succeeds with the same result
    under any fuel that is at least the number of characters consumed. *)
Lemma parse_fuel (fuel : nat) :
  (forall s v r,
      parse_value fuel s = Some (v, r) ->
      List.length r < List.length s /\
      forall g, List.length s - List.length r <= g -> parse_value g s = Some (v, r)) /\
  (forall s acc v r,
      parse_elements fuel s acc = Some (v, r) ->
      List.length r < List.length s /\
      forall g, List.length s - List.length r <= g -> parse_elements g s acc = Some (v, r)) /\
  (forall s acc v r,
      parse_members fuel s acc = Some (v, r) ->
      List.length r < List.length s /\
      forall g, List.length s - List.length r <= g -> parse_members g s acc = Some (v, r)).
Proof.
  induction fuel as [|fuel (IHv & IHe & IHm)]; [repeat split; discriminate|].
  split; [|split].
  - intros s v r. simpl. pose proof (skip_ws_length s) as Hs.
    destruct (skip_ws s) as [|c r0] eqn:Es; [discriminate|]. simpl in Hs.
    destruct (Ascii.eqb c "[") eqn:Eb.
    { destruct (expect "]" r0) as [r1|] eqn:Ex.
      - pose proof (expect_length _ _ _ Ex).
        intros E. injection E as <- <-. split; [lia|].
        intros [|g] Hg; [lia|]. simpl. rewrite Es, Eb, Ex. reflexivity.
      - intros E. destruct (IHe _ _ _ _ E) as [Hl Hg]. split; [lia|].
        intros [|g] Hg'; [lia|]. simpl. rewrite Es, Eb, Ex. apply Hg. lia. }
    destruct (Ascii.eqb c "{") eqn:Ec.
    { destruct (expect "}" r0) as [r1|] eqn:Ex.
      - pose proof (expect_length _ _ _ Ex).
        intros E. injection E as <- <-. split; [lia|].
        intros [|g] Hg; [lia|]. simpl. rewrite Es, Eb, Ec, Ex. reflexivity.
      - intros E. destruct (IHm _ _ _ _ E) as [Hl Hg]. split; [lia|].
        intros [|g] Hg'; [lia|]. simpl. rewrite Es, Eb, Ec, Ex. apply Hg. lia. }
    intros E. pose proof (parse_scalar_length _ _ _ _ E). split; [lia|].
    intros [|g] Hg; [lia|]. simpl. rewrite Es, Eb, Ec. exact E.
  - intros s acc v r. simpl.
    destruct (parse_value fuel s) as [[v1 r1]|] eqn:Ev; [|discriminate].
    destruct (IHv _ _ _ Ev) as [Hl1 Hg1].
    destruct (expect "," r1) as [r2|] eqn:Ec.
    + pose proof (expect_length _ _ _ Ec).
      intros E. destruct (IHe _ _ _ _ E) as [Hl Hg]. split; [lia|].
      intros [|g] Hg'; [lia|]. simpl. rewrite Hg1 by lia. rewrite Ec. apply Hg. lia.
    + destruct (expect "]" r1) as [r2|] eqn:Eb; [|discriminate].
      pose proof (expect_length _ _ _ Eb).
      intros E. injection E as <- <-. split; [lia|].
      intros [|g] Hg'; [lia|]. simpl. rewrite Hg1 by lia. rewrite Ec, Eb. reflexivity.
  - intros s acc v r. simpl.
    destruct (expect dquote s) as [r0|] eqn:Eq; [|discriminate].
    pose proof (expect_length _ _ _ Eq).
    destruct (parse_string r0) as [[k r1]|] eqn:Ek; [|discriminate].
    pose proof (parse_string_length _ _ _ _ (le_n _) Ek).
    destruct (expect ":" r1) as [r2|] eqn:El; [|discriminate].
    pose proof (expect_length _ _ _ El).
    destruct (parse_value fuel r2) as [[v1 r3]|] eqn:Ev; [|discriminate].
    destruct (IHv _ _ _ Ev) as [Hl1 Hg1].
    destruct (expect "," r3) as [r4|] eqn:Ec.
    + pose proof (expect_length _ _ _ Ec).
      intros E. destruct (IHm _ _ _ _ E) as [Hl Hg]. split; [lia|].
      intros [|g] Hg'; [lia|]. simpl. rewrite Eq, Ek, El.
      rewrite Hg1 by lia. rewrite Ec. apply Hg. lia.
    + destruct (expect "}" r3) as [r4|] eqn:Eb; [|discriminate].
      pose proof (expect_length _ _ _ Eb).
      intros E. injection E as <- <-. split; [lia|].
      intros [|g] Hg'; [lia|]. simpl. rewrite Eq, Ek, El.
      rewrite Hg1 by lia. rewrite Ec, Eb. reflexivity.
Qed.

(** The fuel [JSON_parse] supplies is enough: whatever some fuel parses, it
    parses. *)
Lemma parse_value_enough (fuel : nat) (s r : chars) (v : JSON) :
  parse_value fuel s = Some (v, r) ->
  parse_value (S (List.length s)) s = Some (v, r).
Proof.
  intros H. destruct (proj1 (parse_fuel fuel) s v r H) as [_ Hg]. apply Hg. lia.
Qed.

(** [JSON_parse] fails only on a text that no amount of fuel parses to a
    value followed by nothing but white space. *)
Lemma JSON_parse_None (text : string) :
  JSON_parse text = None <->
  forall fuel v r,
    parse_value fuel (list_ascii_of_string text) = Some (v, r) -> skip_ws r <> [].
Proof.
  unfold JSON_parse. split.
  - intros H fuel v r Hp. rewrite (parse_value_enough _ _ _ _ Hp) in H.
    destruct (skip_ws r); [discriminate|discriminate].
  - intros H.
    destruct (parse_value _ _) as [[v r]|] eqn:Hp; [|reflexivity].
    specialize (H _ _ _ Hp). destruct (skip_ws r); [contradiction|reflexivity].
Qed.

End JsonFacts.

(** ** Dictionaries *)

Module DictFacts.

Import Str Js Dict Notions.

Lemma own_define {V} (k k' : string) (v : V) (o : list (string * V)) :
  own (define k v o) k' = if k' =? k then Some v else own o k'.
Proof.
  induction o as [|[k1 v1] r IH]; simpl.
  - reflexivity.
  - destruct (String.eqb_spec k k1) as [->|Hk].
    + simpl. destruct (k' =? k1); reflexivity.
    + destruct (precedes k k1); simpl.
      * reflexivity.
      * rewrite IH. destruct (String.eqb_spec k' k1) as [->|]; [|reflexivity].
        destruct (String.eqb_spec k1 k); [congruence|reflexivity].
Qed.

(** Counting under [k] leaves every other entry alone. *)
Lemma read_count_other (o : Object) (k k' : string) :
  k' <> k -> read (count o k) k' = read o k'.
Proof.
  intros Hk. unfold count, assign, read.
  destruct (k =? "__proto__"); [reflexivity|].
  rewrite own_define.
  destruct (String.eqb_spec k' k); [contradiction|reflexivity].
Qed.

(** Counting under a key other than [__proto__] applies [(x || 0) + 1] to
    its entry. *)
Lemma read_count_same (o : Object) (k : string) :
  k <> "__proto__" -> read (count o k) k = or_zero_plus_one (read o k).
Proof.
  intros Hk. unfold count, assign.
  destruct (String.eqb_spec k "__proto__"); [contradiction|].
  unfold read at 1. rewrite own_define, String.eqb_refl. reflexivity.
Qed.

Lemma occurrences_app k ks ks' :
  occurrences k (ks ++ ks')%list = occurrences k ks + occurrences k ks'.
Proof. induction ks; simpl; lia. Qed.

Lemma read_tally (ks : list string) : forall (o : Object) (k : string) (n : nat),
  k <> "__proto__" ->
  read o k = VNumber n ->
  read (tally ks o) k = VNumber (n + occurrences k ks).
Proof.
  induction ks as [|k1 r IH]; intros o k n Hk Hr; simpl.
  - rewrite Hr. f_equal. lia.
  - destruct (String.eqb_spec k1 k) as [->|Hne].
    + rewrite (IH _ k (n + 1)); [f_equal; lia|assumption|].
      rewrite read_count_same, Hr by assumption. reflexivity.
    + rewrite (IH _ k n); [f_equal|assumption|].
      rewrite read_count_other by congruence. assumption.
Qed.

(** [forEach] with a callback that computes a key and counts under it. *)
Lemma forEach_tally (key : JSON -> Result string) (items : list JSON) :
  forall (ks : list string) (o : Object),
    Forall2 (fun x k => key x = Ok k) items ks ->
    forEach (fun o x => rbind (key x) (fun k => Ok (count o k))) items o
    = Ok (tally ks o).
Proof.
  induction items as [|x r IH]; intros ks o H; inversion H; subst; simpl.
  - reflexivity.
  - match goal with E : key x = Ok _ |- _ => rewrite E end. simpl.
    apply IH. assumption.
Qed.

Lemma keys_exist (key : JSON -> Result string) (items : list JSON) :
  Forall (fun x => exists k, key x = Ok k) items ->
  exists ks, Forall2 (fun x k => key x = Ok k) items ks.
Proof.
  induction 1 as [|x r [k Hk] _ [ks IH]].
  - exists []. constructor.
  - exists (k :: ks). constructor; assumption.
Qed.

End DictFacts.

(** ** The Severity Aggregator *)

Module SeverityFacts.

Import Str Js Dict Aggregators Notions DictFacts.

Lemma severity_key_well_formed (finding : JSON) :
  well_formed_finding finding = true -> exists k, severity_key finding = Ok k.
Proof.
  destruct finding as [| | | |?|props]; simpl; try discriminate.
  unfold severity_key; simpl.
  destruct (own props "severity") as [[| | |s| |]|]; simpl; try discriminate;
    intros _; eauto.
  destruct (s =? ""); simpl; eauto.
Qed.

(** The key of a well-formed finding, read off its [severity] entry. *)
Lemma severity_key_folded (props : list (string * JSON)) :
  well_formed_finding (JObj props) = true ->
  severity_key (JObj props)
  = Ok match own props "severity" with
       | Some (JStr s) => if s =? "" then "unspecified" else toLowerCase s
       | _ => "unspecified"
       end.
Proof.
  unfold severity_key; simpl.
  destruct (own props "severity") as [[| | |s| |]|]; simpl; try discriminate;
    intros _; try reflexivity.
  destruct (s =? ""); reflexivity.
Qed.

Lemma charted_partition (ks : list string) :
  occurrences "high" ks + occurrences "medium" ks + occurrences "low" ks
  + occurrences "unspecified" ks
  + List.length (filter (fun k => negb (charted k)) ks)
  = List.length ks.
Proof.
  unfold charted.
  induction ks as [|k r IH]; simpl; [reflexivity|].
  destruct (String.eqb_spec k "high") as [->|]; simpl; [lia|].
  destruct (String.eqb_spec k "medium") as [->|]; simpl; [lia|].
  destruct (String.eqb_spec k "low") as [->|]; simpl; [lia|].
  destruct (String.eqb_spec k "unspecified") as [->|]; simpl; lia.
Qed.

Lemma uncharted_keys (fs : list JSON) (ks : list string) :
  Forall2 (fun f k => severity_key f = Ok k) fs ks ->
  uncharted fs = List.length (filter (fun k => negb (charted k)) ks).
Proof.
  unfold uncharted. induction 1 as [|f k fs ks Hk _ IH]; simpl; [reflexivity|].
  rewrite Hk. destruct (negb (charted k)); simpl; congruence.
Qed.

(** The four values the aggregator returns for an array of findings whose
    keys are [ks]. *)
Lemma processSeverityData_values (data : JSON) (analysis : option JSON)
      (fs : list JSON) (ks : list string) :
  get (Some data) "analysis" = Ok analysis ->
  get analysis "findings" = Ok (Some (JArr fs)) ->
  Forall2 (fun f k => severity_key f = Ok k) fs ks ->
  exists sd,
    processSeverityData (Some data) = Ok sd /\
    sev_values sd = [ VNumber (occurrences "high" ks); VNumber (occurrences "medium" ks);
                      VNumber (occurrences "low" ks);
                      VNumber (occurrences "unspecified" ks) ].
Proof.
  intros Ha Hf Hk. unfold processSeverityData.
  rewrite Ha; simpl. rewrite Hf; simpl.
  rewrite (forEach_tally severity_key fs ks) by assumption. simpl.
  eexists; split; [reflexivity|]. simpl.
  rewrite !(read_tally ks severityCounts0 _ 0) by (reflexivity || discriminate).
  reflexivity.
Qed.

(** C1 (as stated) fails: a finding whose severity is an unknown label is
    counted under that label, which the chart never reads, so the four
    counts of a one-element list sum to 0. *)
Lemma severity_buckets_sum_counterexample :
  ~ (forall fs : list JSON,
        Forall (fun f => well_formed_finding f = true) fs ->
        exists sd h m l u,
          processSeverityData (Some (response_of fs [])) = Ok sd /\
          sev_values sd = [VNumber h; VNumber m; VNumber l; VNumber u] /\
          h + m + l + u = List.length fs).
Proof.
  intros H.
  destruct (H [finding_critical]) as (sd & h & m & l & u & Hsd & Hv & Hsum).
  - repeat constructor.
  - vm_compute in Hsd. injection Hsd as <-. simpl in Hv.
    injection Hv as <- <- <- <-. discriminate Hsum.
Qed.

(** C1 (amended): for every list of well-formed findings the aggregator
    returns four counts, and these counts together with the number of
    findings whose case-folded severity is none of "high", "medium", "low",
    "unspecified" add up to the length of the list; when the findings list
    is absent or empty the four counts are zero and nothing is thrown. *)
Theorem severity_buckets_partition
        (data : JSON) (analysis findings : option JSON) :
  get (Some data) "analysis" = Ok analysis ->
  get analysis "findings" = Ok findings ->
  (findings = None \/ findings = Some JNull \/ findings = Some (JArr []) ->
   exists sd,
     processSeverityData (Some data) = Ok sd /\
     sev_values sd = [VNumber 0; VNumber 0; VNumber 0; VNumber 0])
  /\
  (forall fs,
      findings = Some (JArr fs) ->
      Forall (fun f => well_formed_finding f = true) fs ->
      exists sd h m l u,
        processSeverityData (Some data) = Ok sd /\
        sev_values sd = [VNumber h; VNumber m; VNumber l; VNumber u] /\
        h + m + l + u + uncharted fs = List.length fs /\
        (uncharted fs = 0 -> h + m + l + u = List.length fs)).
Proof.
  intros Ha Hf. split.
  - intros Hnone. unfold processSeverityData. rewrite Ha; simpl. rewrite Hf; simpl.
    destruct Hnone as [->|[->| ->]]; simpl; eexists; split; reflexivity.
  - intros fs -> Hwf.
    destruct (keys_exist severity_key fs) as [ks Hks].
    { eapply Forall_impl; [|exact Hwf]. apply severity_key_well_formed. }
    destruct (processSeverityData_values data analysis fs ks Ha Hf Hks) as (sd & Hsd & Hv).
    exists sd, (occurrences "high" ks), (occurrences "medium" ks),
      (occurrences "low" ks), (occurrences "unspecified" ks).
    rewrite (uncharted_keys fs ks Hks).
    pose proof (charted_partition ks) as Hp.
    pose proof (Forall2_length Hks) as Hl.
    repeat split; try assumption; lia.
Qed.

Lemma severity_buckets_partition_witness :
  exists sd h m l u,
    processSeverityData (Some (response_of [finding_High; finding_critical; finding_plain] []))
    = Ok sd /\
    sev_values sd = [VNumber h; VNumber m; VNumber l; VNumber u] /\
    h + m + l + u + uncharted [finding_High; finding_critical; finding_plain] = 3 /\
    (uncharted [finding_High; finding_critical; finding_plain] = 0 -> h + m + l + u = 3).
Proof.
  refine (proj2 (severity_buckets_partition
                   (response_of [finding_High; finding_critical; finding_plain] [])
                   _ _ eq_refl eq_refl) _ eq_refl _).
  repeat constructor.
Defined.

(** C2 (as stated) fails: "very high" is not one of the three labels after
    case folding, yet it is not counted in the unspecified bucket. *)
Lemma unknown_label_not_unspecified_counterexample :
  exists sd,
    processSeverityData (Some (response_of [finding_very_high] [])) = Ok sd /\
    toLowerCase "very high" <> "high" /\
    toLowerCase "very high" <> "medium" /\
    toLowerCase "very high" <> "low" /\
    nth 3 (sev_values sd) VUndefined = VNumber 0.
Proof.
  eexists. split; [vm_compute; reflexivity|].
  repeat split; discriminate.
Qed.

(** C2 (amended): a finding is assigned by case-folding its severity string
    and comparing for exact equality: appending a finding raises the high
    (medium, low) count by one exactly when the folded severity equals
    "high" ("medium", "low"), raises the unspecified count by one exactly
    when the severity is missing, empty or folds to "unspecified", and
    leaves all four counts unchanged for any other severity. *)
Theorem severity_bucket_of_folded_label
        (fs : list JSON) (props : list (string * JSON)) :
  Forall (fun f => well_formed_finding f = true) fs ->
  well_formed_finding (JObj props) = true ->
  let folded := match own props "severity" with
                | Some (JStr s) => if s =? "" then "unspecified" else toLowerCase s
                | _ => "unspecified"
                end in
  exists sd sd' h m l u,
    processSeverityData (Some (response_of fs [])) = Ok sd /\
    sev_values sd = [VNumber h; VNumber m; VNumber l; VNumber u] /\
    processSeverityData (Some (response_of (fs ++ [JObj props]) [])) = Ok sd' /\
    sev_values sd' = [ VNumber (h + hit folded "high"); VNumber (m + hit folded "medium");
                       VNumber (l + hit folded "low");
                       VNumber (u + hit folded "unspecified") ].
Proof.
  intros Hwf Hp folded.
  destruct (keys_exist severity_key fs) as [ks Hks].
  { eapply Forall_impl; [|exact Hwf]. apply severity_key_well_formed. }
  assert (Hks' : Forall2 (fun f k => severity_key f = Ok k)
                         (fs ++ [JObj props]) (ks ++ [folded])).
  { apply Forall2_app; [assumption|]. constructor; [|constructor].
    apply severity_key_folded. assumption. }
  destruct (processSeverityData_values (response_of fs []) _ fs ks eq_refl eq_refl Hks)
    as (sd & Hsd & Hv).
  destruct (processSeverityData_values (response_of (fs ++ [JObj props]) []) _ _ _
                                       eq_refl eq_refl Hks')
    as (sd' & Hsd' & Hv').
  exists sd, sd'. do 4 eexists.
  repeat split; try eassumption.
  rewrite Hv'. rewrite !occurrences_app. simpl. unfold hit.
  rewrite !Nat.add_0_r. reflexivity.
Qed.

Lemma severity_bucket_of_folded_label_witness :
  exists sd sd' h m l u,
    processSeverityData (Some (response_of [finding_critical] [])) = Ok sd /\
    sev_values sd = [VNumber h; VNumber m; VNumber l; VNumber u] /\
    processSeverityData (Some (response_of [finding_critical; finding_High] [])) = Ok sd' /\
    sev_values sd' = [ VNumber (h + 1); VNumber (m + 0); VNumber (l + 0); VNumber (u + 0) ].
Proof.
  apply (severity_bucket_of_folded_label [finding_critical] [("severity", JStr "High")]).
  - repeat constructor.
  - reflexivity.
Defined.

(** Case is irrelevant: the three spellings fold to the same label. *)
Example casing_is_folded :
  toLowerCase "HIGH" = "high" /\ toLowerCase "High" = "high" /\ toLowerCase "high" = "high".
Proof. repeat split. Qed.

End SeverityFacts.

(** ** The Branch Aggregator *)

Module BranchFacts.

Import Str Js Dict Aggregators Notions DictFacts.

Lemma branch_key_well_formed (p : JSON) :
  well_formed_participant p = true -> branch_key p = Ok (branch_of p).
Proof.
  destruct p as [| | | |?|props]; simpl; try discriminate.
  unfold branch_key; simpl.
  destruct (own props "branch") as [[| | |s| |]|]; simpl; try discriminate;
    intros _; try reflexivity.
  destruct (s =? ""); reflexivity.
Qed.

Lemma branch_keys (ps : list JSON) :
  Forall (fun p => well_formed_participant p = true) ps ->
  Forall2 (fun p k => branch_key p = Ok k) ps (map branch_of ps).
Proof.
  induction 1; simpl; constructor; auto using branch_key_well_formed.
Qed.

(** *** Keys *)

Lemma keys_define (k : string) (v : Value) (o : Object) :
  keys (define k v o) = insert_key k (keys o).
Proof.
  unfold keys. induction o as [|[k1 v1] r IH]; simpl; [reflexivity|].
  destruct (String.eqb_spec k k1) as [->|]; simpl; [reflexivity|].
  destruct (precedes k k1); simpl; [reflexivity|]. f_equal. exact IH.
Qed.

Lemma keys_tally (ls : list string) : forall o : Object,
  Forall (fun l => l <> "__proto__") ls ->
  keys (tally ls o) = fold_left (fun ks k => insert_key k ks) ls (keys o).
Proof.
  induction ls as [|k r IH]; intros o H; simpl; [reflexivity|].
  inversion H as [|? ? Hk Hr]; subst.
  unfold tally in IH. rewrite IH by assumption. f_equal.
  unfold count, assign. destruct (String.eqb_spec k "__proto__"); [contradiction|].
  apply keys_define.
Qed.

Lemma array_index_inj (k k' : string) (i : N) :
  array_index k = Some i -> array_index k' = Some i -> k = k'.
Proof.
  unfold array_index. intros H H'.
  destruct (NilEmpty.uint_of_string k) as [d|]; [|discriminate].
  destruct (NilEmpty.uint_of_string k') as [d'|]; [|discriminate].
  destruct (String.eqb_spec (digits (N.of_uint d)) k) as [E|]; [|discriminate].
  destruct (String.eqb_spec (digits (N.of_uint d')) k') as [E'|]; [|discriminate].
  simpl in H, H'.
  destruct (N.of_uint d <? 4294967295)%N; [|discriminate].
  destruct (N.of_uint d' <? 4294967295)%N; [|discriminate].
  congruence.
Qed.

Lemma index_lt_trans (a b c : string) : index_lt a b -> index_lt b c -> index_lt a c.
Proof.
  unfold index_lt.
  destruct (array_index a), (array_index b), (array_index c); try tauto. lia.
Qed.

Lemma index_lt_is_index (a b : string) : index_lt a b -> is_index a = true /\ is_index b = true.
Proof.
  unfold index_lt, is_index.
  destruct (array_index a), (array_index b); tauto.
Qed.

(** A key that is not an array index joins at the end, unless it is there. *)
Lemma insert_key_named (k : string) (ks : list string) :
  is_index k = false ->
  insert_key k ks = if in_dec string_dec k ks then ks else (ks ++ [k])%list.
Proof.
  unfold is_index. intros Hk. induction ks as [|k1 r IH]; simpl; [reflexivity|].
  destruct (String.eqb_spec k k1) as [->|Hne].
  - destruct (string_dec k1 k1); [reflexivity|contradiction].
  - unfold precedes. destruct (array_index k); [discriminate|].
    rewrite IH. destruct (string_dec k1 k); [congruence|].
    destruct (in_dec string_dec k r); reflexivity.
Qed.

Lemma insert_key_past_indices (k : string) (idx ks : list string) :
  is_index k = false ->
  Forall (fun x => is_index x = true) idx ->
  insert_key k (idx ++ ks)%list = (idx ++ insert_key k ks)%list.
Proof.
  intros Hk. induction 1 as [|k1 r H1 _ IH]; simpl; [reflexivity|].
  destruct (String.eqb_spec k k1) as [->|]; [congruence|].
  unfold precedes. unfold is_index in Hk. destruct (array_index k); [discriminate|].
  f_equal. exact IH.
Qed.

(** An array index joins the sorted indices at its place. *)
Lemma insert_key_index (k : string) (ks : list string) :
  is_index k = true ->
  Forall (fun x => is_index x = false) ks ->
  forall idx : list string,
    StronglySorted index_lt idx ->
    Forall (fun x => is_index x = true) idx ->
    exists idx',
      insert_key k (idx ++ ks)%list = (idx' ++ ks)%list /\
      StronglySorted index_lt idx' /\
      Forall (fun x => is_index x = true) idx' /\
      (forall x, In x idx' <-> x = k \/ In x idx).
Proof.
  intros Hk Hks. induction idx as [|k1 r IH]; intros Hs Hi.
  - exists [k]. simpl. repeat split.
    + destruct ks as [|k' ks']; [reflexivity|]. simpl.
      inversion Hks as [|? ? Hk' _]; subst.
      destruct (String.eqb_spec k k') as [->|]; [congruence|].
      unfold precedes. unfold is_index in Hk, Hk'.
      destruct (array_index k); [|discriminate].
      destruct (array_index k'); [discriminate|reflexivity].
    + repeat constructor.
    + repeat constructor. assumption.
    + intros [->|[]]; auto.
    + intros [->|[]]; auto.
  - inversion Hs as [|? ? Hs' Hlt]; subst. inversion Hi as [|? ? Hk1 Hi']; subst.
    simpl. destruct (String.eqb_spec k k1) as [->|Hne].
    + exists (k1 :: r). repeat split; auto; simpl; intuition congruence.
    + unfold precedes.
      destruct (array_index k) as [i|] eqn:Ei; [|unfold is_index in Hk; rewrite Ei in Hk; discriminate].
      destruct (array_index k1) as [j|] eqn:Ej; [|unfold is_index in Hk1; rewrite Ej in Hk1; discriminate].
      destruct (N.ltb_spec i j) as [Hij|Hij].
      * exists (k :: k1 :: r). repeat split; auto.
        -- constructor; [assumption|]. constructor.
           ++ unfold index_lt. rewrite Ei, Ej. assumption.
           ++ eapply Forall_impl; [|exact Hlt]. intros x Hx.
              apply index_lt_trans with k1; [|assumption].
              unfold index_lt. rewrite Ei, Ej. assumption.
        -- intros [->|H]; simpl; auto.
        -- intros [->|H]; simpl in *; auto.
      * destruct (IH Hs' Hi') as (idx' & E & Hs'' & Hi'' & Hin).
        exists (k1 :: idx'). repeat split.
        -- simpl. rewrite E. reflexivity.
        -- constructor; [assumption|]. apply Forall_forall. intros x Hx.
           apply Hin in Hx. destruct Hx as [->|Hx].
           ++ unfold index_lt. rewrite Ei, Ej.
              assert (i <> j) by (intros ->; apply Hne; eapply array_index_inj; eassumption).
              lia.
           ++ rewrite Forall_forall in Hlt. auto.
        -- constructor; assumption.
        -- intros [->|Hx]; [auto|]. apply Hin in Hx. simpl. tauto.
        -- intros [->|[->|Hx]]; simpl; [right; apply Hin; auto|auto|right; apply Hin; auto].
Qed.

(** *** First-seen order *)

Lemma first_seen_In (l : list string) (x : string) : In x (first_seen l) <-> In x l.
Proof.
  induction l as [|a l IH]; simpl; [tauto|].
  rewrite filter_In, IH.
  destruct (String.eqb_spec x a) as [->|]; simpl; intuition congruence.
Qed.

Lemma first_seen_NoDup (l : list string) : NoDup (first_seen l).
Proof.
  induction l as [|a l IH]; simpl; constructor.
  - rewrite filter_In, String.eqb_refl. simpl. intros [_ H]. discriminate.
  - apply NoDup_filter. exact IH.
Qed.

Lemma if_in_dec_true {A} (k : string) (l : list string) (x y : A) :
  In k l -> (if in_dec string_dec k l then x else y) = x.
Proof. intros H. destruct (in_dec string_dec k l); [reflexivity|contradiction]. Qed.

Lemma if_in_dec_false {A} (k : string) (l : list string) (x y : A) :
  ~ In k l -> (if in_dec string_dec k l then x else y) = y.
Proof. intros H. destruct (in_dec string_dec k l); [contradiction|reflexivity]. Qed.

Lemma first_seen_snoc (l : list string) (k : string) :
  first_seen (l ++ [k])
  = if in_dec string_dec k (first_seen l) then first_seen l
    else (first_seen l ++ [k])%list.
Proof.
  induction l as [|a l IH]; cbn [first_seen app].
  - reflexivity.
  - rewrite IH. destruct (in_dec string_dec k (first_seen l)) as [Hin|Hnin].
    + rewrite if_in_dec_true; [reflexivity|].
      destruct (String.eqb_spec k a) as [->|Hne]; [left; reflexivity|].
      right. apply filter_In. split; [assumption|].
      destruct (String.eqb_spec k a); [contradiction|reflexivity].
    + rewrite filter_app. cbn [filter].
      destruct (String.eqb_spec k a) as [->|Hne]; cbn [negb].
      * rewrite app_nil_r, if_in_dec_true; [reflexivity|left; reflexivity].
      * rewrite if_in_dec_false; [reflexivity|].
        intros [Hi|Hi]; [congruence|]. apply filter_In in Hi. tauto.
Qed.

(** The order in which [Object.keys] lists the keys created one after the
    other from [ls]: the array indices in ascending order, then the other
    keys in first-seen order. *)
Lemma enumeration (ls : list string) :
  exists idx,
    fold_left (fun ks k => insert_key k ks) ls []
    = (idx ++ first_seen (filter (fun l => negb (is_index l)) ls))%list /\
    StronglySorted index_lt idx /\
    Forall (fun x => is_index x = true) idx /\
    (forall x, In x idx <-> In x ls /\ is_index x = true).
Proof.
  induction ls as [|k ls IH] using rev_ind.
  - exists []. simpl. repeat split; try constructor; tauto.
  - destruct IH as (idx & E & Hs & Hi & Hin).
    rewrite fold_left_app, E, filter_app. simpl.
    destruct (is_index k) eqn:Hk; simpl.
    + rewrite app_nil_r.
      destruct (insert_key_index k (first_seen (filter (fun l => negb (is_index l)) ls))
                                 Hk) with (idx := idx)
        as (idx' & E' & Hs' & Hi' & Hin'); try assumption.
      { apply Forall_forall. intros x Hx. apply first_seen_In, filter_In in Hx.
        destruct Hx as [_ Hx]. destruct (is_index x); [discriminate|reflexivity]. }
      exists idx'. repeat split; try assumption.
      * apply Hin' in H. rewrite in_app_iff. simpl. rewrite Hin in H. intuition.
      * apply Hin' in H. destruct H as [->|H]; [assumption|]. apply Hin in H. tauto.
      * intros [H H']. apply Hin'. rewrite in_app_iff in H. simpl in H.
        rewrite Hin. intuition.
    + rewrite insert_key_past_indices, insert_key_named, first_seen_snoc by assumption.
      exists idx. repeat split; try assumption.
      * apply Hin in H. rewrite in_app_iff. tauto.
      * apply Hin in H. tauto.
      * intros [H H']. apply Hin. rewrite in_app_iff in H. simpl in H.
        destruct H as [H|[->|[]]]; [tauto|congruence].
Qed.

(** *** Values *)

Lemma read_tally_fresh (ls : list string) : forall (o : Object) (k : string),
  k <> "__proto__" ->
  read o k = VUndefined ->
  read (tally ls o) k
  = match occurrences k ls with
    | O => VUndefined
    | S n => VNumber (S n)
    end.
Proof.
  induction ls as [|k1 r IH]; intros o k Hk Hr; simpl; [assumption|].
  destruct (String.eqb_spec k1 k) as [->|Hne]; simpl.
  - rewrite (read_tally r (count o k) k 1); [reflexivity|assumption|].
    rewrite read_count_same, Hr by assumption. reflexivity.
  - apply IH; [assumption|]. rewrite read_count_other by congruence. assumption.
Qed.

Lemma hits_in_distinct_keys (a : string) (ks : list string) :
  NoDup ks ->
  list_sum (map (fun k => if a =? k then 1 else 0) ks) = if in_dec string_dec a ks then 1 else 0.
Proof.
  induction 1 as [|k ks Hk Hnd IH]; simpl; [reflexivity|].
  rewrite IH. destruct (String.eqb_spec a k) as [->|Hne].
  - destruct (string_dec k k); [|contradiction].
    destruct (in_dec string_dec k ks); [contradiction|reflexivity].
  - destruct (string_dec k a); [congruence|].
    destruct (in_dec string_dec a ks); reflexivity.
Qed.

Lemma occurrences_over_distinct_keys (ks : list string) (ls : list string) :
  NoDup ks ->
  (forall x, In x ls -> In x ks) ->
  list_sum (map (fun k => occurrences k ls) ks) = List.length ls.
Proof.
  intros Hnd. induction ls as [|a r IH]; intros Hcover; simpl.
  - clear. induction ks; simpl; auto.
  - assert (E : list_sum (map (fun k => (if a =? k then 1 else 0) + occurrences k r) ks)
                = list_sum (map (fun k => if a =? k then 1 else 0) ks)
                  + list_sum (map (fun k => occurrences k r) ks)).
    { clear. induction ks; simpl; lia. }
    rewrite E, hits_in_distinct_keys, IH by (simpl in Hcover; auto).
    destruct (in_dec string_dec a ks) as [|Hn]; [reflexivity|].
    exfalso. apply Hn, Hcover. simpl. auto.
Qed.

(** *** The aggregator *)

(** What the aggregator returns for an array of participants whose keys are
    [ls]. *)
Lemma processBranchData_result (data : JSON) (analysis : option JSON)
      (ps : list JSON) (ls : list string) :
  get (Some data) "analysis" = Ok analysis ->
  get analysis "participants" = Ok (Some (JArr ps)) ->
  Forall2 (fun p k => branch_key p = Ok k) ps ls ->
  processBranchData (Some data)
  = Ok {| br_labels := keys (tally ls []);
          br_values := map (fun l => read (tally ls []) l) (keys (tally ls []));
          br_colors := map branch_color (seq 0 (List.length (keys (tally ls [])))) |}.
Proof.
  intros Ha Hp Hk. unfold processBranchData.
  rewrite Ha; simpl. rewrite Hp; simpl.
  rewrite (forEach_tally branch_key ps ls) by assumption. reflexivity.
Qed.

(** The keys of the object built from the labels [ls]. *)
Lemma tally_keys (ls : list string) :
  Forall (fun l => l <> "__proto__") ls ->
  exists idx,
    keys (tally ls [])
    = (idx ++ first_seen (filter (fun l => negb (is_index l)) ls))%list /\
    Forall (fun k => is_index k = true) idx /\
    StronglySorted index_lt idx /\
    NoDup (keys (tally ls [])) /\
    (forall l, In l (keys (tally ls [])) <-> In l ls).
Proof.
  intros Hl.
  destruct (enumeration ls) as (idx & E & Hs & Hi & Hin).
  exists idx. rewrite (keys_tally _ [] Hl). simpl. rewrite E.
  repeat split; try assumption.
  - apply NoDup_app; repeat split.
    + clear - Hs. induction Hs as [|a l _ IH Hlt]; constructor; [|assumption].
      intros Ha. rewrite Forall_forall in Hlt. specialize (Hlt a Ha).
      unfold index_lt in Hlt. destruct (array_index a); [lia|assumption].
    + apply first_seen_NoDup.
    + intros x Hx Hx'. apply first_seen_In, filter_In in Hx'.
      rewrite Forall_forall in Hi. rewrite (Hi x Hx) in Hx'. destruct Hx'. discriminate.
  - rewrite in_app_iff, first_seen_In, filter_In, Hin. tauto.
  - rewrite in_app_iff, first_seen_In, filter_In, Hin.
    intros H. destruct (is_index l); simpl; tauto.
Qed.

(** C3 (as stated) fails: a branch value that is an array index is listed
    before the branch values seen earlier. *)
Lemma branch_first_seen_order_counterexample :
  exists bd,
    processBranchData (Some (response_of [] [participant "B"; participant "7"])) = Ok bd /\
    br_labels bd = ["7"; "B"] /\
    first_seen (map branch_of [participant "B"; participant "7"]) = ["B"; "7"].
Proof. eexists. repeat split. Qed.

(** C3 (amended): for every list of well-formed participants none of whose
    branch values is "__proto__", the aggregator produces exactly one bucket
    per distinct branch value (a missing branch replaced by "Unspecified");
    the buckets whose label is an array index come first, in ascending
    numeric order, and the other buckets follow in first-seen order; the
    colour of a bucket is [branch_color] of its position. *)
Theorem branch_buckets
        (data : JSON) (analysis : option JSON) (ps : list JSON) :
  get (Some data) "analysis" = Ok analysis ->
  get analysis "participants" = Ok (Some (JArr ps)) ->
  Forall (fun p => well_formed_participant p = true) ps ->
  Forall (fun p => branch_of p <> "__proto__") ps ->
  exists bd idx,
    processBranchData (Some data) = Ok bd /\
    NoDup (br_labels bd) /\
    (forall l, In l (br_labels bd) <-> In l (map branch_of ps)) /\
    br_labels bd
    = (idx ++ first_seen (filter (fun l => negb (is_index l)) (map branch_of ps)))%list /\
    Forall (fun k => is_index k = true) idx /\
    StronglySorted index_lt idx /\
    br_colors bd = map branch_color (seq 0 (List.length (br_labels bd))).
Proof.
  intros Ha Hp Hwf Hproto.
  rewrite (processBranchData_result data analysis ps (map branch_of ps) Ha Hp
                                    (branch_keys ps Hwf)).
  assert (Hl : Forall (fun l => l <> "__proto__") (map branch_of ps)).
  { apply Forall_map. exact Hproto. }
  destruct (tally_keys (map branch_of ps) Hl) as (idx & E & Hi & Hs & Hnd & Hin).
  eexists; exists idx. split; [reflexivity|]. simpl.
  repeat split; try assumption; apply Hin.
Qed.

Lemma branch_buckets_witness :
  exists bd idx,
    processBranchData
      (Some (response_of [] [participant "B"; participant "7"; participant "B"; finding_plain]))
    = Ok bd /\
    NoDup (br_labels bd) /\
    (forall l, In l (br_labels bd)
               <-> In l (map branch_of [participant "B"; participant "7"; participant "B";
                                        finding_plain])) /\
    br_labels bd
    = (idx ++ first_seen
                (filter (fun l => negb (is_index l))
                        (map branch_of [participant "B"; participant "7"; participant "B";
                                        finding_plain])))%list /\
    Forall (fun k => is_index k = true) idx /\
    StronglySorted index_lt idx /\
    br_colors bd = map branch_color (seq 0 (List.length (br_labels bd))).
Proof.
  apply (branch_buckets
           (response_of [] [participant "B"; participant "7"; participant "B"; finding_plain])
           _ _ eq_refl eq_refl).
  - repeat constructor.
  - repeat constructor; discriminate.
Defined.

(** C9 (failing input): a participant whose branch is "__proto__" creates
    no bucket, so the counts of a one-element list sum to 0; one whose
    branch is "constructor" gets a bucket whose value is text, not a count. *)
Theorem inherited_branch_names_miscounted :
  (exists bd,
      processBranchData (Some (response_of [] [participant "__proto__"])) = Ok bd /\
      br_labels bd = [] /\ br_values bd = [] /\
      total (br_values bd) <> List.length [participant "__proto__"])
  /\
  (exists bd,
      processBranchData (Some (response_of [] [participant "constructor"])) = Ok bd /\
      br_labels bd = ["constructor"] /\ br_values bd = [VString] /\
      forallb is_count (br_values bd) = false).
Proof.
  split; eexists; repeat split; discriminate.
Qed.

(** Apart from the names a plain object inherits, C9 holds: the counts sum
    to the number of participants, each is at least 1, and the three arrays
    have the same length. *)
Lemma branch_counts_sum
      (data : JSON) (analysis : option JSON) (ps : list JSON) :
  get (Some data) "analysis" = Ok analysis ->
  get analysis "participants" = Ok (Some (JArr ps)) ->
  Forall (fun p => well_formed_participant p = true) ps ->
  Forall (fun p => inherited (branch_of p) = false) ps ->
  exists bd,
    processBranchData (Some data) = Ok bd /\
    total (br_values bd) = List.length ps /\
    forallb is_count (br_values bd) = true /\
    List.length (br_values bd) = List.length (br_labels bd) /\
    List.length (br_colors bd) = List.length (br_labels bd).
Proof.
  intros Ha Hp Hwf Hinh.
  assert (Hproto : Forall (fun p => branch_of p <> "__proto__") ps).
  { eapply Forall_impl; [|exact Hinh]. intros p H E. cbv beta in H. rewrite E in H. discriminate. }
  destruct (tally_keys (map branch_of ps)) as (idx & _ & _ & _ & Hnd & Hin).
  { apply Forall_map. exact Hproto. }
  eexists. split; [eapply processBranchData_result; eauto using branch_keys|]. simpl.
  set (ls := map branch_of ps) in *. set (o := tally ls []) in *.
  assert (Hread : forall k, In k (keys o) -> read o k = VNumber (occurrences k ls)
                                             /\ 1 <= occurrences k ls).
  { intros k Hk. apply Hin in Hk.
    assert (Hk' : inherited k = false).
    { unfold ls in Hk. apply in_map_iff in Hk. destruct Hk as (p & <- & Hp').
      rewrite Forall_forall in Hinh. auto. }
    assert (Hne : k <> "__proto__") by (intros ->; discriminate).
    assert (Hocc : 1 <= occurrences k ls).
    { clear - Hk. induction ls as [|a r IH]; simpl in *; [contradiction|].
      destruct Hk as [->|Hk]; [rewrite String.eqb_refl; lia|].
      specialize (IH Hk). lia. }
    unfold o. rewrite (read_tally_fresh ls [] k Hne).
    - destruct (occurrences k ls); [lia|]. split; [reflexivity|lia].
    - unfold read. simpl. rewrite Hk'. reflexivity. }
  repeat split.
  - rewrite <- (length_map branch_of ps). fold ls.
    rewrite <- (occurrences_over_distinct_keys (keys o) ls Hnd) by (intros x; apply Hin).
    clear - Hread. induction (keys o) as [|k r IH]; simpl; [reflexivity|].
    destruct (Hread k (or_introl eq_refl)) as [-> _].
    rewrite IH; [reflexivity|]. intros k' Hk'. apply Hread. simpl. auto.
  - clear - Hread. induction (keys o) as [|k r IH]; simpl; [reflexivity|].
    destruct (Hread k (or_introl eq_refl)) as [-> Hle]. simpl.
    rewrite IH by (intros k' Hk'; apply Hread; simpl; auto).
    destruct (occurrences k ls); [lia|reflexivity].
  - apply length_map.
  - rewrite length_map, length_seq. reflexivity.
Qed.

Lemma branch_counts_sum_witness :
  exists bd,
    processBranchData
      (Some (response_of [] [participant "NYC"; participant "7"; participant "NYC"])) = Ok bd /\
    total (br_values bd) = 3 /\
    forallb is_count (br_values bd) = true /\
    List.length (br_values bd) = List.length (br_labels bd) /\
    List.length (br_colors bd) = List.length (br_labels bd).
Proof.
  apply (branch_counts_sum
           (response_of [] [participant "NYC"; participant "7"; participant "NYC"])
           _ _ eq_refl eq_refl); repeat constructor.
Defined.

End BranchFacts.

(** ** The Session Controller *)

(** ** The panels and the charts *)

Module ViewFacts.

Import Str Js Dict Aggregators Json Page App Notions MoreNotions.

Lemma Shown_inj (r r' : Rendered) : Shown r = Shown r' -> r = r'.
Proof.
  destruct r, r'. unfold Shown. simpl. intros H. injection H as -> -> -> ->.
  reflexivity.
Qed.

Lemma shown_Shown (v : View) (r : Rendered) : shown v = Some r -> v = Shown r.
Proof.
  destruct v as [[text|] [panel|] [|severityData branchData|]]; try discriminate.
  unfold shown. simpl. intros H. injection H as <-. reflexivity.
Qed.

(** After [destroy()] no chart is drawn. *)
Lemma destroyed_charts (v : View) :
  charts (destroy_charts v) = NoCharts \/ charts (destroy_charts v) = Disposed.
Proof.
  unfold destroy_charts. destruct (charts v) eqn:E; simpl; auto.
Qed.

(** A page that an exception of [displayResults] leaves has no chart, so it
    does not show the complete results of an analysis. *)
Lemma interrupted_charts (summary : Result string) (panel : Result FindingsPanel)
      (v : View) (severityData : SeverityData) (branchData : BranchData) :
  charts (interrupted_at summary panel v) <> Drawn severityData branchData.
Proof.
  assert (E : charts (interrupted_at summary panel v) = charts (destroy_charts v))
    by (destruct summary as [text|]; [destruct panel|]; reflexivity).
  rewrite E. destruct (destroyed_charts v) as [D|D]; rewrite D; discriminate.
Qed.

Lemma interrupted_not_shown (summary : Result string) (panel : Result FindingsPanel)
      (v : View) (r : Rendered) :
  interrupted_at summary panel v <> Shown r.
Proof.
  intros H. apply (f_equal charts) in H. exact (interrupted_charts _ _ _ _ _ H).
Qed.

#[local] Arguments get : simpl never.
#[local] Arguments summary_text : simpl never.
#[local] Arguments findings_panel : simpl never.
#[local] Arguments Earlier.findings_panel : simpl never.
#[local] Arguments processSeverityData : simpl never.
#[local] Arguments processBranchData : simpl never.
#[local] Arguments Earlier.processSeverityData : simpl never.
#[local] Arguments Earlier.processBranchData : simpl never.

(** [displayResults] as one step: the complete results, or the exception
    and the page it leaves.  Nothing but the panels and the charts is
    touched. *)
Lemma displayResults_run (data : JSON) (st : State) :
  displayResults data st =
  match render data with
  | Ok r => (set_view (Shown r) st, Ok tt)
  | Throw e => (set_view (interrupted data (view st)) st, Throw e)
  end.
Proof.
  unfold displayResults, generateCharts, render, interrupted, interrupted_at,
    findings_and_charts, findings_html, bind, lift, modify.
  simpl.
  destruct (summary_text data) as [text|e]; simpl; [|reflexivity].
  destruct (get (Some data) "analysis") as [analysis|e]; simpl; [|reflexivity].
  destruct (get analysis "findings") as [findings|e]; simpl; [|reflexivity].
  destruct (findings_panel findings) as [panel|e]; simpl; [|reflexivity].
  destruct (processSeverityData (Some data)) as [severityData|e]; simpl; [|reflexivity].
  destruct (processBranchData (Some data)) as [branchData|e]; simpl; reflexivity.
Qed.

Lemma earlier_displayResults_run (data : JSON) (st : State) :
  Earlier.displayResults data st =
  match Earlier.render data with
  | Ok r => (set_view (Shown r) st, Ok tt)
  | Throw e =>
      (set_view (interrupted_at (summary_text data) (Earlier.findings_html data)
                                (view st)) st,
       Throw e)
  end.
Proof.
  unfold Earlier.displayResults, Earlier.generateCharts, Earlier.render,
    interrupted_at, Earlier.findings_and_charts, Earlier.findings_html,
    bind, lift, modify.
  simpl.
  destruct (summary_text data) as [text|e]; simpl; [|reflexivity].
  destruct (get (Some data) "analysis") as [analysis|e]; simpl; [|reflexivity].
  destruct (get analysis "findings") as [findings|e]; simpl; [|reflexivity].
  destruct (Earlier.findings_panel findings) as [panel|e]; simpl; [|reflexivity].
  destruct (Earlier.processSeverityData (Some data)) as [severityData|e]; simpl;
    [|reflexivity].
  destruct (Earlier.processBranchData (Some data)) as [branchData|e]; simpl; reflexivity.
Qed.

End ViewFacts.

Module SessionFacts.

Import Str Js Dict Aggregators Json Page App Notions MoreNotions ViewFacts.

Ltac run :=
  unfold DOMContentLoaded;
  unfold analyzeBtn_click, generateReportBtn_click, analyze_try, restore,
    fetch, setItem, showAlert, console_error,
    setLoadingState, downloadFile, parse, try_finally, try_catch, bind, lift,
    read_state, modify, throw, ret;
  simpl.

(** The validation of the handler, in terms of the parsed value. *)
Lemma validation (v : JSON) :
  match get (Some v) "audit_report" with
  | Ok audit_report => truthy (get_opt audit_report "exceptions") = has_exceptions v
  | Throw _ => has_exceptions v = false
  end.
Proof.
  destruct v as [| | | | |props]; simpl; try reflexivity.
  destruct (own props "audit_report") as [[| | | | |props']|]; reflexivity.
Qed.

#[local] Arguments truthy : simpl never.
#[local] Arguments get : simpl never.
#[local] Arguments get_opt : simpl never.
#[local] Arguments or_default : simpl never.
#[local] Arguments ToString : simpl never.
#[local] Arguments JSON_parse : simpl never.
#[local] Arguments JSON_stringify : simpl never.
#[local] Arguments summary_text : simpl never.
#[local] Arguments findings_and_charts : simpl never.
#[local] Arguments render : simpl never.
#[local] Arguments displayResults : simpl never.
#[local] Arguments trim : simpl never.

(** A rejected submission: no request, and nothing but the alerts, the
    console and the button is touched; the alert is out of sight while the
    results section is hidden. *)
Lemma rejected_submit (st : State) (answer : Fetch) (write : Write) :
  accepted (trim (auditDataTextarea st)) = false ->
  let st' := fst (analyzeBtn_click answer write st) in
  requests st' = requests st /\
  currentAnalysis st' = currentAnalysis st /\
  localStorage st' = localStorage st /\
  view st' = view st /\
  resultsHidden st' = resultsHidden st /\
  analyzeBtn st' = idle_analyzeBtn /\
  (exists text, alerts st' = danger text :: alerts st) /\
  (resultsHidden st = true -> visible_alerts st' = []).
Proof.
  unfold accepted, visible_alerts. run.
  destruct (JSON_parse (trim (auditDataTextarea st))) as [v|]; simpl.
  - intros Hv. pose proof (validation v) as V.
    destruct (get (Some v) "audit_report") as [audit_report|e]; simpl.
    + rewrite V, Hv. simpl.
      repeat split; [eexists; reflexivity|intros ->; reflexivity].
    + repeat split; [eexists; reflexivity|intros ->; reflexivity].
  - intros _. repeat split; [eexists; reflexivity|intros ->; reflexivity].
Qed.

(** An accepted submission sends the trimmed text. *)
Lemma accepted_submit (st : State) (answer : Fetch) (write : Write) :
  accepted (trim (auditDataTextarea st)) = true ->
  requests (fst (analyzeBtn_click answer write st))
  = analyze_request (trim (auditDataTextarea st)) :: requests st.
Proof.
  unfold accepted. run.
  destruct (JSON_parse (trim (auditDataTextarea st))) as [v|]; simpl; [|discriminate].
  intros Hv. pose proof (validation v) as V.
  destruct (get (Some v) "audit_report") as [audit_report|e]; simpl; [|congruence].
  rewrite V, Hv. simpl.
  destruct answer as [|ok body]; simpl; [reflexivity|].
  destruct (JSON_parse body) as [d|]; simpl; [|reflexivity].
  destruct ok; simpl.
  - destruct write; simpl; [|reflexivity].
    rewrite displayResults_run. destruct (render d); reflexivity.
  - destruct (get (Some d) "error") as [error|]; simpl; [|reflexivity].
    destruct (ToString (or_default error "Analysis failed")); reflexivity.
Qed.

(** C4 (failing input): on the freshly loaded page, submitting text that is
    not JSON, or JSON without [audit_report.exceptions], issues no request
    and leaves the analysis and the panels untouched, but the alert is put
    into the results section, which is still hidden: the user sees no
    error. *)
Theorem validation_alert_hidden (answer : Fetch) (write : Write) :
  let st1 := fst (analyzeBtn_click answer write (typed "not json" fresh_page)) in
  let st2 := fst (analyzeBtn_click answer write
                    (typed (json "{'audit_report':{}}") fresh_page)) in
  snd (DOMContentLoaded None) = Ok tt /\
  (requests st1 = [] /\ currentAnalysis st1 = JNull /\ view st1 = Blank /\
   alerts st1 = [danger (Builtin "Analysis failed: " SyntaxError)] /\
   visible_alerts st1 = []) /\
  (requests st2 = [] /\ currentAnalysis st2 = JNull /\ view st2 = Blank /\
   alerts st2 = [danger (Plain "JSON must contain audit_report with exceptions array")] /\
   visible_alerts st2 = []).
Proof. destruct answer as [|[|] body], write; vm_compute; repeat split. Qed.

(** C5 (as stated) fails: an input whose [audit_report.exceptions] is an
    empty array passes the validation and is sent. *)
Lemma empty_exceptions_sent_counterexample :
  requests (fst (analyzeBtn_click Rejected Stored
                   (typed (json "{'audit_report':{'exceptions':[]}}") fresh_page)))
  = [analyze_request (json "{'audit_report':{'exceptions':[]}}")].
Proof. vm_compute. reflexivity. Qed.

(** C5 (amended): the validation passes, and the request carrying the
    trimmed text is sent, exactly when the text parses to an object whose
    [audit_report] is an object with a truthy [exceptions] entry; any array,
    the empty one included, is truthy; nothing else is validated.  The
    text is trimmed of every white space and line terminator of the
    language, and a number too small for binary64 is zero, hence falsy. *)
Theorem submit_validation (st : State) (answer : Fetch) (write : Write) :
  let text := trim (auditDataTextarea st) in
  let st' := fst (analyzeBtn_click answer write st) in
  (accepted text = true -> requests st' = analyze_request text :: requests st) /\
  (accepted text = false -> requests st' = requests st) /\
  (forall items, has_exceptions
                   (JObj [("audit_report", JObj [("exceptions", JArr items)])]) = true).
Proof.
  repeat split.
  - apply accepted_submit.
  - intros H. apply (rejected_submit st answer write H).
Qed.

Lemma submit_validation_witness :
  requests (fst (analyzeBtn_click Rejected Stored (typed sample_audit_text fresh_page)))
  = [analyze_request sample_audit_text].
Proof.
  exact (proj1 (submit_validation (typed sample_audit_text fresh_page) Rejected Stored)
               eq_refl).
Defined.




(** The page after a non-success response. *)
Lemma failed_analysis_state (st : State) (body : string) (write : Write) :
  accepted (trim (auditDataTextarea st)) = true ->
  fst (analyzeBtn_click (Responded false body) write st)
  = (let st1 := set_requests (analyze_request (trim (auditDataTextarea st)) :: requests st)
                 (set_analyzeBtn {| disabled := true; spinner := true;
                                    caption := "Analyzing..." |} st) in
    let st2 := set_console (("Analysis error:", thrown_for body) :: console st1) st1 in
    let st3 := set_alerts
                 (danger (with_message "Analysis failed: " (thrown_for body)) :: alerts st2)
                 st2 in
    set_analyzeBtn idle_analyzeBtn st3).
Proof.
  unfold accepted, thrown_for. run.
  destruct (JSON_parse (trim (auditDataTextarea st))) as [v|]; simpl; [|discriminate].
  intros Hv. pose proof (validation v) as V.
  destruct (get (Some v) "audit_report") as [audit_report|e]; simpl; [|congruence].
  rewrite V, Hv. simpl.
  destruct (JSON_parse body) as [d|]; simpl; [|reflexivity].
  destruct (get (Some d) "error") as [error|e]; simpl; [|reflexivity].
  destruct (ToString (or_default error "Analysis failed")); reflexivity.
Qed.

(** C7 (failing input): on the freshly loaded page a non-success response
    is reported with the [error] text of the service, but the alert is put
    into the results section, which is still hidden: nothing is surfaced.
    In general, after a non-success response the current analysis, its
    stored copy, the panels and the visibility of the results section stay
    as they were, the button is idle again, and one alert is added, out of
    sight while the section is hidden.  Its text carries the message of
    what the handler throws: the [error] string of the response object
    when there is one that is not empty, and "Analysis failed" when the
    response value has no truthy [error]; a body that is not JSON is
    reported with the message of the parser's [SyntaxError], and the body
    [null] with that of a [TypeError]. *)
Theorem failed_analysis_reported :
  (forall (st : State) (body : string) (write : Write),
      accepted (trim (auditDataTextarea st)) = true ->
      let st' := fst (analyzeBtn_click (Responded false body) write st) in
      currentAnalysis st' = currentAnalysis st /\
      localStorage st' = localStorage st /\
      view st' = view st /\
      resultsHidden st' = resultsHidden st /\
      analyzeBtn st' = idle_analyzeBtn /\
      alerts st' = danger (with_message "Analysis failed: " (thrown_for body)) :: alerts st /\
      (resultsHidden st = true -> visible_alerts st' = []) /\
      (forall props message,
          JSON_parse body = Some (JObj props) ->
          own props "error" = Some (JStr message) ->
          message <> "" ->
          alerts st' = danger (Plain ("Analysis failed: " ++ message)) :: alerts st /\
          console st' = ("Analysis error:", Error message) :: console st) /\
      (forall data error,
          JSON_parse body = Some data ->
          get (Some data) "error" = Ok error ->
          truthy error = false ->
          alerts st' = danger (Plain "Analysis failed: Analysis failed") :: alerts st /\
          console st' = ("Analysis error:", Error "Analysis failed") :: console st) /\
      (JSON_parse body = None ->
       alerts st' = danger (Builtin "Analysis failed: " SyntaxError) :: alerts st) /\
      (JSON_parse body = Some JNull ->
       alerts st' = danger (Builtin "Analysis failed: " TypeError) :: alerts st)) /\
  (forall write : Write,
      let st' := fst (analyzeBtn_click (Responded false sample_error_body) write
                                       (typed sample_audit_text fresh_page)) in
      alerts st' = [danger (Plain "Analysis failed: quota exceeded")] /\
      visible_alerts st' = []).
Proof.
  split.
  - intros st body write Hv st'. subst st'.
    rewrite (failed_analysis_state st body write Hv). unfold visible_alerts. simpl.
    do 6 (split; [reflexivity|]).
    split; [intros ->; reflexivity|].
    unfold thrown_for. split; [|split; [|split]].
    + intros props message -> Hm Hne. simpl. rewrite Hm.
      unfold or_default, truthy. destruct (String.eqb_spec message ""); [contradiction|].
      simpl. split; reflexivity.
    + intros data error -> -> Hf. unfold or_default.
      destruct error as [x|]; [rewrite Hf|]; simpl; split; reflexivity.
    + intros ->. reflexivity.
    + intros ->. reflexivity.
  - intros []; vm_compute; split; reflexivity.
Qed.

Lemma failed_analysis_reported_witness :
  currentAnalysis (fst (analyzeBtn_click (Responded false sample_error_body) Stored
                                         analysed_page))
  = response_of [finding_critical] [] /\
  localStorage (fst (analyzeBtn_click (Responded false sample_error_body) Stored
                                      analysed_page))
  = localStorage analysed_page /\
  alerts (fst (analyzeBtn_click (Responded false sample_error_body) Stored analysed_page))
  = [danger (Plain "Analysis failed: quota exceeded")].
Proof.
  pose proof (proj1 failed_analysis_reported analysed_page sample_error_body Stored
                    eq_refl) as H.
  destruct H as (H1 & H2 & _ & _ & _ & _ & _ & H8 & _).
  split; [exact H1|split; [exact H2|]].
  exact (proj1 (H8 [("error", JStr "quota exceeded")] "quota exceeded" eq_refl eq_refl
                   ltac:(discriminate))).
Defined.

(** C8: a report request made while [currentAnalysis] is [null] (or any
    other falsy value) only adds a warning: no request is sent and nothing
    else changes; when [currentAnalysis] is truthy, as every object is, the
    request body is [JSON.stringify(currentAnalysis)]. *)
Theorem report_needs_analysis (st : State) (answer : Fetch) :
  let st' := fst (generateReportBtn_click answer st) in
  (truthy (Some (currentAnalysis st)) = false ->
   st' = set_alerts (warning (Plain "No analysis results available") :: alerts st) st /\
   requests st' = requests st) /\
  (truthy (Some (currentAnalysis st)) = true ->
   requests st' = report_request (currentAnalysis st) :: requests st /\
   req_body (report_request (currentAnalysis st)) = JSON_stringify (currentAnalysis st) /\
   currentAnalysis st' = currentAnalysis st) /\
  truthy (Some JNull) = false /\
  (forall props, truthy (Some (JObj props)) = true).
Proof.
  run. split; [|split; [|split; [reflexivity|reflexivity]]]; intros H; rewrite H; simpl.
  - split; reflexivity.
  - destruct answer as [|[|] body]; simpl; repeat split.
Qed.

Lemma report_needs_analysis_witness :
  fst (generateReportBtn_click Rejected fresh_page)
  = set_alerts [warning (Plain "No analysis results available")] fresh_page /\
  requests (fst (generateReportBtn_click (Responded true "docx") analysed_page))
  = [report_request (response_of [finding_critical] [])].
Proof.
  split.
  - exact (proj1 (proj1 (report_needs_analysis fresh_page Rejected) eq_refl)).
  - exact (proj1 (proj1 (proj2 (report_needs_analysis analysed_page (Responded true "docx")))
                        eq_refl)).
Defined.

(** C10: the restore step parses the stored value without a guard: a stored
    string that is not empty and not JSON makes the load handler throw a
    [SyntaxError]; the string "null", and every stored JSON value that is
    not an object, makes it throw a [TypeError]; in both cases nothing
    catches the exception.  With nothing stored the page loads. *)
Theorem restore_not_total :
  (forall stored,
      stored <> "" -> JSON_parse stored = None ->
      snd (DOMContentLoaded (Some stored)) = Throw SyntaxError) /\
  snd (DOMContentLoaded (Some "null")) = Throw TypeError /\
  (forall stored data,
      stored <> "" -> JSON_parse stored = Some data ->
      (forall props, data <> JObj props) ->
      snd (DOMContentLoaded (Some stored)) = Throw TypeError) /\
  DOMContentLoaded None = (initial None, Ok tt).
Proof.
  split; [|split; [|split]].
  - intros stored Hne Hp. run.
    destruct (String.eqb_spec stored ""); [contradiction|]. simpl.
    rewrite Hp. reflexivity.
  - vm_compute. reflexivity.
  - intros stored data Hne Hp Hobj. run.
    destruct (String.eqb_spec stored ""); [contradiction|]. simpl.
    rewrite Hp. simpl. rewrite displayResults_run.
    assert (Hr : render data = Throw TypeError).
    { destruct data as [| | | | |props]; try reflexivity.
      exfalso. exact (Hobj props eq_refl). }
    rewrite Hr. reflexivity.
  - reflexivity.
Qed.

Lemma restore_not_total_witness :
  snd (DOMContentLoaded (Some "{oops")) = Throw SyntaxError /\
  snd (DOMContentLoaded (Some "[1,2]")) = Throw TypeError.
Proof.
  split.
  - exact (proj1 restore_not_total "{oops" ltac:(discriminate) eq_refl).
  - exact (proj1 (proj2 (proj2 restore_not_total)) "[1,2]" (JArr [JNum 1 0; JNum 2 0])
                 ltac:(discriminate) eq_refl ltac:(discriminate)).
Defined.

(** *** Sample runs *)

(** The sample response of the specification: severity counts 0, 1, 0, 0 and
    one branch bucket, NYC with count 1. *)
Example sample_response_buckets :
  match JSON_parse (json "{'analysis':{'summary':'OK','findings':[{'severity':'medium'}],'participants':[{'branch':'NYC'}]}}") with
  | Some data =>
      match render data with
      | Ok r =>
          executiveSummary r = "OK" /\
          sev_values (severityChart r) = [VNumber 0; VNumber 1; VNumber 0; VNumber 0] /\
          br_labels (branchChart r) = ["NYC"] /\
          br_values (branchChart r) = [VNumber 1]
      | Throw _ => False
      end
  | None => False
  end.
Proof. vm_compute. repeat split. Qed.

(** An empty findings list renders the placeholder and four zero counts. *)
Example empty_findings_placeholder :
  match render (response_of [] []) with
  | Ok r =>
      detailedFindings r = NoFindingsAvailable /\
      sev_values (severityChart r) = [VNumber 0; VNumber 0; VNumber 0; VNumber 0]
  | Throw _ => False
  end.
Proof. vm_compute. repeat split. Qed.

(** The analysis stored by a successful submission is the one the next page
    load restores. *)
Example stored_analysis_restored :
  let body := json "{'analysis':{'summary':'OK','findings':[{'severity':'medium'}],'participants':[{'branch':'NYC'},{'branch':'7'}]}}" in
  let st := fst (analyzeBtn_click (Responded true body) Stored
                   (typed sample_audit_text fresh_page)) in
  let reloaded := DOMContentLoaded (localStorage st) in
  snd reloaded = Ok tt /\
  currentAnalysis (fst reloaded) = currentAnalysis st /\
  view (fst reloaded) = view st /\
  resultsHidden (fst reloaded) = false.
Proof. vm_compute. repeat split. Qed.

(** A selected file replaces the textarea content and sends nothing. *)
Example upload_replaces_textarea (st : State) (text : string) :
  let st' := fst (fileUpload_change (Some text) st) in
  auditDataTextarea st' = normalize_newlines text /\ requests st' = requests st.
Proof. split; reflexivity. Qed.

End SessionFacts.

(** ** Badges and findings cards *)

Module RenderFacts.

Import Str Js Dict Aggregators Json Page App Notions MoreNotions DictFacts.

Lemma prefix_app (p t : string) : String.prefix p (p ++ t) = true.
Proof.
  induction p as [|c p IH]; simpl.
  - destruct t; reflexivity.
  - destruct (ascii_dec c c); [exact IH|contradiction].
Qed.

Lemma prefix_split (p s : string) : String.prefix p s = true -> exists t, s = p ++ t.
Proof.
  revert s. induction p as [|c p IH]; intros s H.
  - exists s. reflexivity.
  - destruct s as [|c' s]; simpl in H; [discriminate|].
    destruct (ascii_dec c c') as [<-|]; [|discriminate].
    destruct (IH s H) as [t ->]. exists t. reflexivity.
Qed.

(** [includes] is the substring test. *)
Lemma includes_spec (s sub : string) :
  includes s sub = true <-> exists pre post, s = pre ++ sub ++ post.
Proof.
  split.
  - induction s as [|c r IH]; cbn [includes]; intros H.
    + rewrite orb_false_r in H. destruct (prefix_split _ _ H) as [t E].
      exists "", t. exact E.
    + apply orb_true_iff in H. destruct H as [H|H].
      * destruct (prefix_split _ _ H) as [t E]. exists "", t. exact E.
      * destruct (IH H) as (pre & post & ->). exists (String c pre), post. reflexivity.
  - intros (pre & post & ->). induction pre as [|c pre IH].
    + change ("" ++ sub ++ post) with (sub ++ post).
      destruct (sub ++ post) eqn:E; cbn [includes]; rewrite <- E, prefix_app; reflexivity.
    + change (String c pre ++ sub ++ post) with (String c (pre ++ sub ++ post)).
      cbn [includes]. rewrite IH. apply orb_true_r.
Qed.

Lemma badge_of_string (s : string) :
  getSeverityBadgeClass (Some (JStr s)) = Ok (badge_of s).
Proof.
  unfold getSeverityBadgeClass, or_default, truthy, badge_of.
  destruct (String.eqb_spec s "") as [->|]; simpl; [reflexivity|].
  destruct (includes (toLowerCase s) "high"); [reflexivity|].
  destruct (includes (toLowerCase s) "medium"); [reflexivity|].
  destruct (includes (toLowerCase s) "low"); reflexivity.
Qed.

(** The badge class of a severity: "danger" exactly when the folded
    severity contains "high", "warning" when it contains "medium" but not
    "high", "success" when it contains "low" but neither of the two,
    "secondary" otherwise, also for a missing or falsy severity; a truthy
    severity that is not a string throws a [TypeError]. *)
Theorem badge_by_substring :
  (forall s,
      getSeverityBadgeClass (Some (JStr s)) = Ok (badge_of s) /\
      (badge_of s = "danger" <-> exists pre post, toLowerCase s = pre ++ "high" ++ post) /\
      (badge_of s = "warning" <->
       (exists pre post, toLowerCase s = pre ++ "medium" ++ post) /\
       ~ (exists pre post, toLowerCase s = pre ++ "high" ++ post)) /\
      (badge_of s = "success" <->
       (exists pre post, toLowerCase s = pre ++ "low" ++ post) /\
       ~ (exists pre post, toLowerCase s = pre ++ "medium" ++ post) /\
       ~ (exists pre post, toLowerCase s = pre ++ "high" ++ post))) /\
  (forall x, truthy x = false -> getSeverityBadgeClass x = Ok "secondary") /\
  (forall v, truthy (Some v) = true -> (forall s, v <> JStr s) ->
             getSeverityBadgeClass (Some v) = Throw TypeError).
Proof.
  split; [|split].
  - intros s. rewrite <- !includes_spec.
    split; [apply badge_of_string|]. unfold badge_of.
    split; [|split].
    + destruct (includes (toLowerCase s) "high");
        destruct (includes (toLowerCase s) "medium");
        destruct (includes (toLowerCase s) "low"); split; intros; try discriminate;
        try reflexivity.
    + destruct (includes (toLowerCase s) "high");
        destruct (includes (toLowerCase s) "medium");
        destruct (includes (toLowerCase s) "low"); split; intros H;
        try discriminate; try reflexivity; try (split; congruence);
        destruct H; try discriminate; try congruence.
    + destruct (includes (toLowerCase s) "high");
        destruct (includes (toLowerCase s) "medium");
        destruct (includes (toLowerCase s) "low"); split; intros H;
        try discriminate; try reflexivity; try (repeat split; congruence);
        destruct H as (? & ? & ?); try discriminate; try congruence.
  - intros x Hx. unfold getSeverityBadgeClass, or_default.
    destruct x as [v|]; [rewrite Hx|]; reflexivity.
  - intros v Hv Hs. unfold getSeverityBadgeClass, or_default. rewrite Hv.
    destruct v; try reflexivity. exfalso. exact (Hs s eq_refl).
Qed.

Lemma badge_by_substring_witness :
  getSeverityBadgeClass None = Ok "secondary" /\
  getSeverityBadgeClass (Some (JNum 3 0)) = Throw TypeError.
Proof.
  split.
  - exact (proj1 (proj2 badge_by_substring) None eq_refl).
  - exact (proj2 (proj2 badge_by_substring) (JNum 3 0) eq_refl
                 ltac:(discriminate)).
Defined.

(** Whenever the chart counts a well-formed finding in one of its four
    buckets, the badge of its card has the colour of that bucket: danger
    for high, warning for medium, success for low, secondary for
    unspecified. *)
Theorem badge_agrees_with_bucket (props : list (string * JSON)) (k : string) :
  well_formed_finding (JObj props) = true ->
  severity_key (JObj props) = Ok k ->
  charted k = true ->
  getSeverityBadgeClass (own props "severity") = Ok (bucket_badge k).
Proof.
  unfold well_formed_finding, severity_key, getSeverityBadgeClass, charted. simpl.
  destruct (own props "severity") as [[| | |s| |]|]; simpl; try discriminate;
    intros _ Hk; try (injection Hk as <-; intros _; reflexivity).
  destruct (s =? ""); simpl in *.
  - injection Hk as <-. intros _. reflexivity.
  - injection Hk as <-. intros Hc.
    destruct (String.eqb_spec (toLowerCase s) "high") as [->|]; [reflexivity|].
    destruct (String.eqb_spec (toLowerCase s) "medium") as [->|]; [reflexivity|].
    destruct (String.eqb_spec (toLowerCase s) "low") as [->|]; [reflexivity|].
    destruct (String.eqb_spec (toLowerCase s) "unspecified") as [->|]; [reflexivity|].
    discriminate.
Qed.

Lemma badge_agrees_with_bucket_witness :
  getSeverityBadgeClass (Some (JStr "High")) = Ok "danger".
Proof.
  exact (badge_agrees_with_bucket [("severity", JStr "High")] "high" eq_refl eq_refl eq_refl).
Defined.

(** The card of a displayable finding. *)
Lemma finding_card_displayable (index : nat) (props : list (string * JSON)) :
  displayable_finding (JObj props) = true ->
  finding_card index (JObj props)
  = Ok {| card_badge := match own props "severity" with
                        | Some (JStr s) => badge_of s
                        | _ => "secondary"
                        end;
          card_number := index + 1;
          card_title := text_or props "title" "Untitled Finding";
          card_description := text_or props "description" "No description provided";
          card_recommendation := text_if_any props "recommendation" |}.
Proof.
  unfold displayable_finding, optional_text, finding_card, text_or, text_if_any. simpl.
  intros H. apply andb_true_iff in H. destruct H as [H Hr].
  apply andb_true_iff in H. destruct H as [H Hd].
  apply andb_true_iff in H. destruct H as [Hs Ht].
  assert (Eb : getSeverityBadgeClass (own props "severity")
               = Ok match own props "severity" with
                    | Some (JStr s) => badge_of s
                    | _ => "secondary"
                    end).
  { destruct (own props "severity") as [[| | |s| |]|]; try discriminate; try reflexivity.
    apply badge_of_string. }
  rewrite Eb. simpl.
  destruct (own props "title") as [[| | |t| |]|]; try discriminate; simpl;
    destruct (own props "description") as [[| | |d| |]|]; try discriminate; simpl;
    destruct (own props "recommendation") as [[| | |r| |]|]; try discriminate; simpl;
    unfold or_default, truthy;
    repeat match goal with
           | |- context [?x =? ""] => destruct (x =? ""); simpl
           end; reflexivity.
Qed.

Lemma finding_cards_displayable (fs : list JSON) : forall index : nat,
  forallb displayable_finding fs = true ->
  exists cards,
    finding_cards index fs = Ok cards /\
    map card_number cards = seq (index + 1) (List.length fs) /\
    map card_title cards = map (fun f => text_or (props_of f) "title" "Untitled Finding") fs /\
    map card_description cards
    = map (fun f => text_or (props_of f) "description" "No description provided") fs /\
    map card_recommendation cards
    = map (fun f => text_if_any (props_of f) "recommendation") fs.
Proof.
  induction fs as [|f fs IH]; intros index H; simpl in *.
  - exists []. repeat split.
  - apply andb_true_iff in H. destruct H as [Hf Hfs].
    destruct f as [| | | | |props]; try discriminate.
    rewrite (finding_card_displayable index props Hf). simpl.
    destruct (IH (S index) Hfs) as (cards & -> & Hn & Ht & Hd & Hr). simpl.
    eexists; split; [reflexivity|]. simpl.
    rewrite Hn, Ht, Hd, Hr. replace (S index + 1) with (S (index + 1)) by lia.
    repeat split.
Qed.

(** The findings panel shows one card per finding, numbered from 1 in the
    order of the list, with "Untitled Finding" and "No description
    provided" standing in for a missing title or description and a
    recommendation only where one is given; an empty list shows the
    placeholder instead. *)
Theorem findings_panel_cards (fs : list JSON) :
  forallb displayable_finding fs = true ->
  exists cards,
    findings_panel (Some (JArr fs))
    = Ok (match fs with [] => NoFindingsAvailable | _ => Cards cards end) /\
    map card_number cards = seq 1 (List.length fs) /\
    map card_title cards = map (fun f => text_or (props_of f) "title" "Untitled Finding") fs /\
    map card_description cards
    = map (fun f => text_or (props_of f) "description" "No description provided") fs /\
    map card_recommendation cards
    = map (fun f => text_if_any (props_of f) "recommendation") fs.
Proof.
  intros H. destruct (finding_cards_displayable fs 0 H) as (cards & E & Hrest).
  exists cards. split; [|exact Hrest].
  destruct fs as [|f fs]; [reflexivity|].
  unfold findings_panel. rewrite E. reflexivity.
Qed.

Lemma findings_panel_cards_witness :
  exists cards,
    findings_panel (Some (JArr [finding_plain; finding_High]))
    = Ok (Cards cards) /\
    map card_number cards = [1; 2] /\
    map card_title cards = ["Cash count"; "Untitled Finding"] /\
    map card_description cards = ["No description provided"; "No description provided"] /\
    map card_recommendation cards = [None; None].
Proof.
  exact (findings_panel_cards [finding_plain; finding_High] eq_refl).
Defined.

End RenderFacts.

(** ** The aggregators on arbitrary input *)

Module AggregatorFacts.

Import Str Js Dict Aggregators Json Page App Notions MoreNotions DictFacts.

Lemma severity_key_countable (finding : JSON) :
  if countable_finding finding
  then exists k, severity_key finding = Ok k
  else severity_key finding = Throw TypeError.
Proof.
  destruct finding as [| | | | |props]; simpl; try (eexists; reflexivity); try reflexivity.
  unfold severity_key. simpl.
  destruct (own props "severity") as [[| [|] |m e|s| |]|]; simpl;
    try (eexists; reflexivity); try reflexivity.
  - unfold or_default, truthy. destruct (m =? 0)%Z; simpl; [eexists|]; reflexivity.
  - unfold or_default, truthy. destruct (s =? ""); simpl; eexists; reflexivity.
Qed.

(** Counting over an array: all keys are computed, or the first item
    without a key ends the loop with its [TypeError]. *)
Lemma forEach_count (key : JSON -> Result string) (ok : JSON -> bool) :
  (forall x, if ok x then exists k, key x = Ok k else key x = Throw TypeError) ->
  forall (items : list JSON) (o : Object),
    if forallb ok items
    then exists ks,
        Forall2 (fun x k => key x = Ok k) items ks /\
        forEach (fun o x => rbind (key x) (fun k => Ok (count o k))) items o = Ok (tally ks o)
    else forEach (fun o x => rbind (key x) (fun k => Ok (count o k))) items o
         = Throw TypeError.
Proof.
  intros Hkey. induction items as [|x r IH]; intros o; simpl.
  - exists []. split; [constructor|reflexivity].
  - pose proof (Hkey x) as Hx. destruct (ok x); simpl.
    + destruct Hx as [k Hk]. rewrite Hk. simpl.
      specialize (IH (count o k)). destruct (forallb ok r).
      * destruct IH as (ks & Hks & E). exists (k :: ks). split; [constructor; assumption|].
        exact E.
      * exact IH.
    + rewrite Hx. reflexivity.
Qed.

Lemma severity_outcome (data : JSON) (analysis findings : option JSON) :
  get (Some data) "analysis" = Ok analysis ->
  get analysis "findings" = Ok findings ->
  if optional_list countable_finding findings
  then exists sd h m l u,
      processSeverityData (Some data) = Ok sd /\
      sev_labels sd = ["High"; "Medium"; "Low"; "Unspecified"] /\
      sev_values sd = [VNumber h; VNumber m; VNumber l; VNumber u] /\
      h + m + l + u <= List.length (items_of findings)
  else processSeverityData (Some data) = Throw TypeError.
Proof.
  intros Ha Hf. unfold processSeverityData. rewrite Ha; simpl. rewrite Hf; simpl.
  destruct findings as [[| | | |fs|]|]; simpl; try reflexivity;
    try (exists {| sev_labels := ["High"; "Medium"; "Low"; "Unspecified"];
                   sev_values := [VNumber 0; VNumber 0; VNumber 0; VNumber 0];
                   sev_colors := [ "rgba(220,53,69,0.7)"; "rgba(255,193,7,0.7)";
                                   "rgba(25,135,84,0.7)"; "rgba(108,117,125,0.7)" ];
                   sev_borderColors := [ "rgba(220,53,69,1)"; "rgba(255,193,7,1)";
                                         "rgba(25,135,84,1)"; "rgba(108,117,125,1)" ] |},
            0, 0, 0, 0; repeat split; lia).
  pose proof (forEach_count severity_key countable_finding severity_key_countable
                            fs severityCounts0) as H.
  destruct (forallb countable_finding fs).
  - destruct H as (ks & Hks & ->). simpl.
    eexists. exists (occurrences "high" ks), (occurrences "medium" ks),
      (occurrences "low" ks), (occurrences "unspecified" ks).
    split; [reflexivity|]. simpl. split; [reflexivity|]. split.
    + rewrite !(read_tally ks severityCounts0 _ 0) by (reflexivity || discriminate).
      reflexivity.
    + pose proof (SeverityFacts.charted_partition ks) as Hp.
      pose proof (Forall2_length Hks) as Hl. lia.
  - rewrite H. reflexivity.
Qed.

(** The Severity Aggregator returns exactly when the findings are absent,
    [null], or an array of items none of which is [null] or carries a
    truthy severity that is not a string; on every other input it throws a
    [TypeError].  What it returns are the four fixed labels and four
    numbers, whose sum never exceeds the number of findings. *)
Theorem severity_aggregation_outcome
        (data : JSON) (analysis findings : option JSON) :
  get (Some data) "analysis" = Ok analysis ->
  get analysis "findings" = Ok findings ->
  if optional_list countable_finding findings
  then exists sd h m l u,
      processSeverityData (Some data) = Ok sd /\
      sev_labels sd = ["High"; "Medium"; "Low"; "Unspecified"] /\
      sev_values sd = [VNumber h; VNumber m; VNumber l; VNumber u] /\
      h + m + l + u <= List.length (items_of findings)
  else processSeverityData (Some data) = Throw TypeError.
Proof. exact (severity_outcome data analysis findings). Qed.

Lemma severity_aggregation_outcome_witness :
  processSeverityData (Some (response_of [finding_High; JNull] [])) = Throw TypeError.
Proof.
  exact (severity_aggregation_outcome (response_of [finding_High; JNull] []) _ _
                                      eq_refl eq_refl).
Defined.

(** [ToString] returns exactly on the printable values and throws a
    [TypeError] on the others. *)
Lemma ToString_printable : forall v : JSON,
  if printable v then exists s, ToString v = Ok s else ToString v = Throw TypeError.
Proof.
  fix IH 1. intros [| [|] |m e|s|items|props]; simpl; try (eexists; reflexivity).
  - induction items as [|x r IHr]; simpl; [eexists; reflexivity|].
    pose proof (IH x) as Hx.
    assert (Hx' : if printable x
                  then exists s, match x with JNull => Ok "" | _ => ToString x end = Ok s
                  else match x with JNull => Ok "" | _ => ToString x end = Throw TypeError).
    { destruct x; try exact Hx. exists "". reflexivity. }
    clear Hx. destruct (printable x); simpl.
    + destruct Hx' as [s ->]. simpl. destruct r as [|y r'].
      * eexists; reflexivity.
      * destruct (forallb printable (y :: r')).
        -- destruct IHr as [t ->]. simpl. eexists; reflexivity.
        -- rewrite IHr. reflexivity.
    + rewrite Hx'. reflexivity.
  - destruct (own props "toString"); [reflexivity|eexists; reflexivity].
Qed.

Lemma branch_key_countable (p : JSON) :
  if countable_participant p
  then exists k, branch_key p = Ok k
  else branch_key p = Throw TypeError.
Proof.
  destruct p as [| | | | |props];
    try (simpl; eexists; reflexivity); try reflexivity.
  unfold countable_participant, branch_key, get, or_default, rbind.
  destruct (own props "branch") as [v|]; [|eexists; reflexivity].
  destruct (truthy (Some v)); [|eexists; reflexivity].
  apply ToString_printable.
Qed.

Lemma branch_outcome (data : JSON) (analysis participants : option JSON) :
  get (Some data) "analysis" = Ok analysis ->
  get analysis "participants" = Ok participants ->
  if optional_list countable_participant participants
  then exists bd,
      processBranchData (Some data) = Ok bd /\
      List.length (br_values bd) = List.length (br_labels bd) /\
      List.length (br_colors bd) = List.length (br_labels bd) /\
      List.length (br_labels bd) <= List.length (items_of participants)
  else processBranchData (Some data) = Throw TypeError.
Proof.
  intros Ha Hp. unfold processBranchData. rewrite Ha; simpl. rewrite Hp; simpl.
  destruct participants as [[| | | |ps|]|]; simpl; try reflexivity;
    try (eexists; split; [reflexivity|]; repeat split; simpl; lia).
  pose proof (forEach_count branch_key countable_participant branch_key_countable ps [])
    as H.
  destruct (forallb countable_participant ps).
  - destruct H as (ks & Hks & ->). simpl.
    eexists; split; [reflexivity|]. simpl.
    unfold keys. rewrite !length_map, length_seq. repeat split.
    rewrite (Forall2_length Hks).
    assert (Hgrow : forall (l : list string) (o : Object),
               List.length (tally l o) <= List.length o + List.length l).
    { clear. induction l as [|k l IH]; intros o; simpl; [lia|].
      etransitivity; [apply IH|].
      assert (List.length (count o k) <= S (List.length o)); [|lia].
      unfold count, assign. destruct (k =? "__proto__"); [lia|].
      generalize (or_zero_plus_one (read o k)). intros v.
      induction o as [|[k' v'] o IHo]; simpl; [lia|].
      destruct (k =? k'); simpl; [lia|]. destruct (precedes k k'); simpl; lia. }
    specialize (Hgrow ks []). simpl in Hgrow. exact Hgrow.
  - rewrite H. reflexivity.
Qed.

(** The Branch Aggregator returns exactly when the participants are
    absent, [null], or an array of items none of which is [null] or carries
    a truthy branch that cannot be printed; on every other input it throws
    a [TypeError].  What it returns are three arrays of one length, with no
    more buckets than participants. *)
Theorem branch_aggregation_outcome
        (data : JSON) (analysis participants : option JSON) :
  get (Some data) "analysis" = Ok analysis ->
  get analysis "participants" = Ok participants ->
  if optional_list countable_participant participants
  then exists bd,
      processBranchData (Some data) = Ok bd /\
      List.length (br_values bd) = List.length (br_labels bd) /\
      List.length (br_colors bd) = List.length (br_labels bd) /\
      List.length (br_labels bd) <= List.length (items_of participants)
  else processBranchData (Some data) = Throw TypeError.
Proof. exact (branch_outcome data analysis participants). Qed.

Lemma branch_aggregation_outcome_witness :
  processBranchData
    (Some (response_of [] [participant "NYC";
                           JObj [("branch", JObj [("toString", JNull)])]]))
  = Throw TypeError.
Proof.
  exact (branch_aggregation_outcome
           (response_of [] [participant "NYC";
                            JObj [("branch", JObj [("toString", JNull)])]]) _ _
           eq_refl eq_refl).
Defined.

(** *** Colours *)

Lemma NoDup_map_in {A B} (f : A -> B) (l : list A) :
  (forall x y, In x l -> In y l -> f x = f y -> x = y) ->
  NoDup l -> NoDup (map f l).
Proof.
  intros Hf. induction 1 as [|a l Ha Hnd IH]; simpl; constructor.
  - intros Hin. apply in_map_iff in Hin. destruct Hin as (b & E & Hb).
    apply Ha. rewrite <- (Hf b a); simpl; auto.
  - apply IH. intros x y Hx Hy. apply Hf; simpl; auto.
Qed.

Lemma same_number_refl (x : PrimFloat.float) : same_number x x = true.
Proof.
  unfold same_number. destruct (FloatOps.Prim2SF x) as [s|s| |s m e];
    rewrite ?Bool.eqb_reflx, ?Pos.eqb_refl, ?Z.eqb_refl; reflexivity.
Qed.

Lemma distinct_hues_NoDup (l : list Color) : distinct_hues l = true -> NoDup l.
Proof.
  induction l as [|c r IH]; simpl; intros H; constructor;
    apply andb_prop in H; destruct H as [Hc Hr]; [|auto].
  intros Hin. rewrite forallb_forall in Hc. specialize (Hc c Hin).
  rewrite same_number_refl in Hc. discriminate.
Qed.

(** The colours of the first five hundred positions, computed. *)
Lemma first_colours :
  distinct_hues (map branch_color (seq 0 500)) = true /\
  forallb branch_colour_form (map branch_color (seq 0 500)) = true.
Proof. split; vm_compute; reflexivity. Qed.

(** In a result of at most five hundred buckets, every hue, as binary64
    computes it, is at least 0 and below 360, with the fixed saturation,
    lightness and alpha, and no two buckets have the same colour. *)
Theorem branch_colours_distinct (data : option JSON) (bd : BranchData) :
  processBranchData data = Ok bd ->
  List.length (br_labels bd) <= 500 ->
  forallb branch_colour_form (br_colors bd) = true /\ NoDup (br_colors bd).
Proof.
  unfold processBranchData. intros H.
  destruct (get data "analysis") as [analysis|]; simpl in H; [|discriminate].
  destruct (get analysis "participants") as [participants|]; simpl in H; [|discriminate].
  destruct (forEach_opt participants _ _) as [o|]; simpl in H; [|discriminate].
  injection H as <-. cbn [br_labels br_colors]. generalize (List.length (keys o)).
  intros n Hn. destruct first_colours as [Hd Hf].
  replace 500 with (n + (500 - n)) in Hd, Hf by lia.
  rewrite seq_app, map_app in Hd, Hf. split.
  - rewrite forallb_app in Hf. apply andb_prop in Hf. tauto.
  - apply distinct_hues_NoDup in Hd. apply NoDup_app_remove_r in Hd. exact Hd.
Qed.

Lemma branch_colours_distinct_witness :
  NoDup (map branch_color (seq 0 3)).
Proof.
  exact (proj2 (branch_colours_distinct
                  (Some (response_of [] [participant "A"; participant "B"; participant "C"]))
                  _ eq_refl ltac:(simpl; lia))).
Defined.

End AggregatorFacts.

Module Binary64Facts.

Import PrimFloat.

Set Warnings "-inexact-float".

(** The hue of the fifth bucket carries the rounding error of the product:
    it is [190.03200000000004], not the binary64 number nearest to
    [190.032]. *)
Example fifth_hue :
  eqb (Aggregators.hue (Aggregators.branch_color 4)) 190.03200000000004%float = true /\
  eqb (Aggregators.hue (Aggregators.branch_color 4)) 190.032%float = false.
Proof. split; vm_compute; reflexivity. Qed.

Set Warnings "inexact-float".

End Binary64Facts.

(** ** Rendering and the handlers on every path *)

Module HandlerFacts.

Import Str Js Dict Aggregators Json Page App Notions MoreNotions DictFacts ViewFacts.

Lemma forallb_impl {A} (p q : A -> bool) (l : list A) :
  (forall x, p x = true -> q x = true) -> forallb p l = true -> forallb q l = true.
Proof.
  intros H. induction l as [|x l IH]; simpl; [reflexivity|].
  intros E. apply andb_true_iff in E. destruct E as [Ex El].
  rewrite (H x Ex), (IH El). reflexivity.
Qed.

Lemma optional_list_impl (p q : JSON -> bool) (x : option JSON) :
  (forall v, p v = true -> q v = true) ->
  optional_list p x = true -> optional_list q x = true.
Proof.
  intros H. destruct x as [[| | | |items|]|]; simpl; try discriminate; try reflexivity.
  apply forallb_impl. exact H.
Qed.

Lemma displayable_countable (f : JSON) :
  displayable_finding f = true -> countable_finding f = true.
Proof.
  destruct f as [| | | | |props]; simpl; try discriminate.
  unfold optional_text.
  destruct (own props "severity") as [[| | | | |]|]; simpl; try discriminate; reflexivity.
Qed.

Lemma participant_countable (p : JSON) :
  well_formed_participant p = true -> countable_participant p = true.
Proof.
  destruct p as [| | | | |props]; simpl; try discriminate.
  destruct (own props "branch") as [[| | |s| |]|]; simpl; try discriminate; try reflexivity.
  destruct (negb (s =? "")); reflexivity.
Qed.

(** A well-typed analysis result always renders: [displayResults] throws
    nothing and leaves the page showing the result, whatever it showed
    before; the summary panel shows the summary, or "No summary available"
    when it is missing or empty, and the findings panel shows the
    placeholder when there are no findings. *)
Theorem well_typed_result_renders (data : JSON) :
  well_typed_result data = true ->
  exists r,
    render data = Ok r /\
    (forall st, displayResults data st = (set_view (Shown r) st, Ok tt)) /\
    executiveSummary r = text_or (analysis_props data) "summary" "No summary available" /\
    (items_of (own (analysis_props data) "findings") = [] ->
     detailedFindings r = NoFindingsAvailable).
Proof.
  destruct data as [| | | | |props]; simpl; try discriminate.
  destruct (own props "analysis") as [[| | | | |analysis]|] eqn:Ea; try discriminate.
  intros H. apply andb_true_iff in H. destruct H as [H Hp].
  apply andb_true_iff in H. destruct H as [Hs Hf].
  assert (Es : summary_text (JObj props)
               = Ok (text_or analysis "summary" "No summary available")).
  { unfold summary_text, get, text_or. simpl. rewrite Ea. simpl.
    unfold optional_text in Hs.
    destruct (own analysis "summary") as [[| | |s| |]|]; try discriminate; try reflexivity.
    unfold or_default, truthy. destruct (s =? ""); reflexivity. }
  assert (Ep : exists panel,
             findings_panel (own analysis "findings") = Ok panel /\
             (items_of (own analysis "findings") = [] -> panel = NoFindingsAvailable)).
  { destruct (own analysis "findings") as [[| | | |fs|]|]; simpl in Hf; try discriminate;
      try (eexists; split; [reflexivity|reflexivity]).
    destruct (RenderFacts.finding_cards_displayable fs 0 Hf) as (cards & E & _).
    destruct fs as [|f fs]; [eexists; split; reflexivity|].
    unfold findings_panel. rewrite E. simpl.
    eexists; split; [reflexivity|]. discriminate. }
  destruct Ep as (panel & Epanel & Hempty).
  pose proof (AggregatorFacts.severity_outcome
                (JObj props) (Some (JObj analysis)) (own analysis "findings")) as Hsev.
  unfold get in Hsev. simpl in Hsev. rewrite Ea in Hsev.
  specialize (Hsev eq_refl eq_refl).
  rewrite (optional_list_impl _ _ _ displayable_countable Hf) in Hsev.
  destruct Hsev as (sd & _ & _ & _ & _ & Esd & _).
  pose proof (AggregatorFacts.branch_outcome
                (JObj props) (Some (JObj analysis)) (own analysis "participants")) as Hbr.
  unfold get in Hbr. simpl in Hbr. rewrite Ea in Hbr.
  specialize (Hbr eq_refl eq_refl).
  rewrite (optional_list_impl _ _ _ participant_countable Hp) in Hbr.
  destruct Hbr as (bd & Ebd & _).
  assert (Er : findings_and_charts (JObj props)
                                   (text_or analysis "summary" "No summary available")
               = Ok {| executiveSummary := text_or analysis "summary" "No summary available";
                       detailedFindings := panel;
                       severityChart := sd; branchChart := bd |}).
  { unfold findings_and_charts, get. simpl. rewrite Ea. simpl.
    rewrite Epanel. simpl. rewrite Esd. simpl. rewrite Ebd. reflexivity. }
  eexists. split; [|split; [|split]].
  - unfold render. rewrite Es. simpl. exact Er.
  - intros st. rewrite displayResults_run. unfold render.
    rewrite Es. simpl. rewrite Er. reflexivity.
  - reflexivity.
  - exact Hempty.
Qed.

Lemma well_typed_result_renders_witness :
  exists r,
    render (response_of [finding_plain] [participant "NYC"]) = Ok r /\
    (forall st, displayResults (response_of [finding_plain] [participant "NYC"]) st
                = (set_view (Shown r) st, Ok tt)) /\
    executiveSummary r = "No summary available" /\
    (items_of (Some (JArr [finding_plain])) = [] ->
     detailedFindings r = NoFindingsAvailable).
Proof.
  exact (well_typed_result_renders (response_of [finding_plain] [participant "NYC"]) eq_refl).
Defined.

#[local] Arguments truthy : simpl never.
#[local] Arguments get : simpl never.
#[local] Arguments get_opt : simpl never.
#[local] Arguments or_default : simpl never.
#[local] Arguments ToString : simpl never.
#[local] Arguments JSON_parse : simpl never.
#[local] Arguments JSON_stringify : simpl never.
#[local] Arguments summary_text : simpl never.
#[local] Arguments findings_and_charts : simpl never.
#[local] Arguments render : simpl never.
#[local] Arguments displayResults : simpl never.
#[local] Arguments trim : simpl never.

Ltac unfold_handlers :=
  unfold DOMContentLoaded;
  unfold analyzeBtn_click, generateReportBtn_click, analyze_try, restore,
    fetch, setItem, showAlert, console_error,
    setLoadingState, downloadFile, parse, try_finally, try_catch, bind, lift,
    read_state, modify, throw, ret;
  simpl.

Ltac frame :=
  repeat split;
  solve [ reflexivity
        | left; reflexivity
        | right; reflexivity
        | right; eexists; reflexivity ].

(** A stored analysis that parses and renders is restored at page load
    without any request: the page holds it as current analysis and shows
    it, the results section is revealed, and nothing is alerted. *)
Theorem restore_shows_stored (stored : string) (data : JSON) (r : Rendered) :
  stored <> "" ->
  JSON_parse stored = Some data ->
  render data = Ok r ->
  DOMContentLoaded (Some stored)
  = (set_resultsHidden false
       (set_view (Shown r) (set_currentAnalysis data (initial (Some stored)))),
     Ok tt).
Proof.
  intros Hne Hp Hr. unfold_handlers.
  destruct (String.eqb_spec stored ""); [contradiction|]. simpl.
  rewrite Hp. simpl. rewrite displayResults_run, Hr. reflexivity.
Qed.

Lemma restore_shows_stored_witness :
  requests (fst (DOMContentLoaded (Some sample_response_body))) = [] /\
  resultsHidden (fst (DOMContentLoaded (Some sample_response_body))) = false /\
  snd (DOMContentLoaded (Some sample_response_body)) = Ok tt.
Proof.
  destruct (render (JObj [("analysis",
                           JObj [("summary", JStr "OK");
                                 ("findings", JArr [JObj [("severity", JStr "medium")]]);
                                 ("participants", JArr [participant "NYC"])])]))
    as [r|e] eqn:Er; [|discriminate Er].
  rewrite (restore_shows_stored sample_response_body _ r ltac:(discriminate) eq_refl Er).
  repeat split.
Defined.



(** A failed render leaves panels of two analyses: on a page that shows an
    analysis, a response whose findings are a text replaces the summary
    panel only, and one whose findings are a number replaces both panels,
    the findings by the placeholder; in both cases the charts are
    disposed, the results section stays revealed, and the response is the
    current analysis and its stored copy. *)
Example failed_render_mixes_panels :
  let shown := fst (analyzeBtn_click (Responded true sample_response_body) Stored
                      (typed sample_audit_text fresh_page)) in
  let text_body := json "{'analysis':{'summary':'New','findings':'none'}}" in
  let number_body := json "{'analysis':{'summary':'New','findings':5}}" in
  let st1 := fst (analyzeBtn_click (Responded true text_body) Stored shown) in
  let st2 := fst (analyzeBtn_click (Responded true number_body) Stored shown) in
  summaryPanel (view shown) = Some "OK" /\
  (summaryPanel (view st1) = Some "New" /\
   findingsPanel (view st1) = findingsPanel (view shown) /\
   charts (view st1) = Disposed /\ resultsHidden st1 = false /\
   localStorage st1 = Some text_body /\
   alerts st1 = [danger (Builtin "Analysis failed: " TypeError)]) /\
  (summaryPanel (view st2) = Some "New" /\
   findingsPanel (view st2) = Some NoFindingsAvailable /\
   charts (view st2) = Disposed /\ resultsHidden st2 = false /\
   localStorage st2 = Some number_body /\
   alerts st2 = [danger (Builtin "Analysis failed: " TypeError)]).
Proof. vm_compute. repeat split. Qed.

(** The Analyze handler catches everything: for every page and every way
    the request and the write to local storage can settle it returns
    normally, leaves its button enabled with the caption "Analyze Data",
    sends at most one request and raises at most one alert, and never
    touches the textarea, the report button or the downloads. *)
Theorem analyze_click_frame (st : State) (answer : Fetch) (write : Write) :
  let st' := fst (analyzeBtn_click answer write st) in
  snd (analyzeBtn_click answer write st) = Ok tt /\
  analyzeBtn st' = idle_analyzeBtn /\
  generateReportBtn st' = generateReportBtn st /\
  auditDataTextarea st' = auditDataTextarea st /\
  downloads st' = downloads st /\
  (requests st' = requests st \/
   requests st' = analyze_request (trim (auditDataTextarea st)) :: requests st) /\
  (alerts st' = alerts st \/ exists text, alerts st' = danger text :: alerts st).
Proof.
  unfold_handlers.
  destruct (JSON_parse (trim (auditDataTextarea st))) as [v|]; simpl; [|frame].
  destruct (get (Some v) "audit_report") as [audit_report|]; simpl; [|frame].
  destruct (truthy (get_opt audit_report "exceptions")); simpl; [|frame].
  destruct answer as [|ok body]; simpl; [frame|].
  destruct (JSON_parse body) as [data|]; simpl; [|frame].
  destruct ok; simpl.
  - destruct write; simpl; [|frame].
    rewrite displayResults_run. destruct (render data); simpl; frame.
  - destruct (get (Some data) "error") as [error|]; simpl; [|frame].
    destruct (ToString (or_default error "Analysis failed")); simpl; frame.
Qed.

Lemma analyze_click_frame_witness :
  snd (analyzeBtn_click Rejected Stored analysed_page) = Ok tt /\
  analyzeBtn (fst (analyzeBtn_click Rejected Stored analysed_page)) = idle_analyzeBtn.
Proof.
  split.
  - exact (proj1 (analyze_click_frame analysed_page Rejected Stored)).
  - exact (proj1 (proj2 (analyze_click_frame analysed_page Rejected Stored))).
Defined.

(** The report handler catches everything and changes neither the
    analysis, nor its stored copy, nor what the page shows.  With a truthy
    current analysis it sends one request and leaves its button enabled
    with its caption; a success response is offered as the download
    [audit_report.docx] without any alert; every other outcome downloads
    nothing and raises one alert, "Report generation failed" for a
    non-success response. *)
Theorem report_click_outcome (st : State) (answer : Fetch) :
  let st' := fst (generateReportBtn_click answer st) in
  (snd (generateReportBtn_click answer st) = Ok tt /\
   currentAnalysis st' = currentAnalysis st /\
   localStorage st' = localStorage st /\
   view st' = view st /\
   resultsHidden st' = resultsHidden st /\
   analyzeBtn st' = analyzeBtn st) /\
  (truthy (Some (currentAnalysis st)) = true ->
   requests st' = report_request (currentAnalysis st) :: requests st /\
   generateReportBtn st' = idle_generateReportBtn /\
   match answer with
   | Responded true blob =>
       downloads st' = (blob, "audit_report.docx") :: downloads st /\
       alerts st' = alerts st
   | Responded false _ =>
       downloads st' = downloads st /\
       alerts st'
       = danger (Plain "Report generation failed: Report generation failed") :: alerts st
   | Rejected =>
       downloads st' = downloads st /\
       alerts st' = danger (Builtin "Report generation failed: " TypeError) :: alerts st
   end).
Proof.
  unfold_handlers. split.
  - destruct (truthy (Some (currentAnalysis st))); simpl; [|repeat split].
    destruct answer as [|[|] blob]; simpl; repeat split.
  - intros ->. simpl. destruct answer as [|[|] blob]; simpl; repeat split.
Qed.

Lemma report_click_outcome_witness :
  downloads (fst (generateReportBtn_click (Responded true "docx") analysed_page))
  = [("docx", "audit_report.docx")] /\
  alerts (fst (generateReportBtn_click (Responded true "docx") analysed_page)) = [].
Proof.
  exact (proj2 (proj2 (proj2 (report_click_outcome analysed_page (Responded true "docx"))
                             eq_refl))).
Defined.

Lemma normalize_newlines_no_CR (text : string) :
  ~ In (ascii_of_nat 13) (list_ascii_of_string (normalize_newlines text)).
Proof.
  assert (H : forall n text, String.length text <= n ->
                ~ In (ascii_of_nat 13) (list_ascii_of_string (normalize_newlines text))).
  { clear text. induction n as [|n IH]; intros [|c r] Hn;
      try (intros []); try (simpl in Hn; lia).
    cbn [normalize_newlines String.length] in *.
    destruct (Nat.eqb_spec (nat_of_ascii c) 13) as [E|E];
      cbn [list_ascii_of_string In]; intros [H|H].
    - discriminate H.
    - revert H. destruct r as [|c' r']; [intros []|].
      destruct (nat_of_ascii c' =? 10)%nat; apply IH; simpl in *; lia.
    - apply E. rewrite H. reflexivity.
    - revert H. apply IH. lia. }
  apply (H (String.length text)). lia.
Qed.

(** A selected file only replaces the textarea content, which reads back
    with every line end a single LF: nothing is sent until Analyze is
    clicked, and that click then sends the trimmed value of the textarea
    when it is an acceptable audit report, and nothing otherwise.  Without
    a selected file the page is left as it is. *)
Theorem upload_then_submit
        (st : State) (text : string) (answer : Fetch) (write : Write) :
  let uploaded := fst (fileUpload_change (Some text) st) in
  let value := normalize_newlines text in
  fileUpload_change None st = (st, Ok tt) /\
  uploaded = typed value st /\
  ~ In (ascii_of_nat 13) (list_ascii_of_string value) /\
  requests uploaded = requests st /\
  (accepted (trim value) = true ->
   requests (fst (analyzeBtn_click answer write uploaded))
   = analyze_request (trim value) :: requests st) /\
  (accepted (trim value) = false ->
   requests (fst (analyzeBtn_click answer write uploaded)) = requests st).
Proof.
  split; [reflexivity|]. split; [reflexivity|].
  split; [apply normalize_newlines_no_CR|]. split; [reflexivity|]. split.
  - intros H.
    apply (SessionFacts.accepted_submit (typed (normalize_newlines text) st) answer write H).
  - intros H.
    apply (SessionFacts.rejected_submit (typed (normalize_newlines text) st) answer write H).
Qed.

Lemma upload_then_submit_witness :
  requests (fst (analyzeBtn_click Rejected Stored
                   (fst (fileUpload_change (Some sample_audit_text) fresh_page))))
  = [analyze_request sample_audit_text].
Proof.
  exact (proj1 (proj2 (proj2 (proj2 (proj2 (upload_then_submit fresh_page sample_audit_text
                                                               Rejected Stored)))))
               eq_refl).
Defined.

End HandlerFacts.

(** ** The earlier copy of the script, compared *)

Module EarlierFacts.

Import Str Js Dict Aggregators Json Page App Notions MoreNotions ViewFacts.

(** The two copies of the aggregators differ only on a findings or
    participants value that is falsy without being [null] or missing
    ([false], [0], the empty string): the earlier copy skips it and returns
    empty counts where the current one throws a [TypeError].  On every
    other input they return the same labels and values, or throw the same
    exception. *)
Theorem aggregators_differ_on_falsy
        (data : JSON) (analysis findings participants : option JSON) :
  get (Some data) "analysis" = Ok analysis ->
  get analysis "findings" = Ok findings ->
  get analysis "participants" = Ok participants ->
  (truthy findings = true \/ findings = None \/ findings = Some JNull ->
   match Earlier.processSeverityData (Some data), processSeverityData (Some data) with
   | Ok a, Ok b => sev_labels a = sev_labels b /\ sev_values a = sev_values b
   | Throw e, Throw e' => e = e'
   | _, _ => False
   end) /\
  (truthy findings = false -> findings <> None -> findings <> Some JNull ->
   (exists sd, Earlier.processSeverityData (Some data) = Ok sd /\
               sev_values sd = [VNumber 0; VNumber 0; VNumber 0; VNumber 0]) /\
   processSeverityData (Some data) = Throw TypeError) /\
  (truthy participants = true \/ participants = None \/ participants = Some JNull ->
   Earlier.processBranchData (Some data) = processBranchData (Some data)) /\
  (truthy participants = false -> participants <> None -> participants <> Some JNull ->
   (exists bd, Earlier.processBranchData (Some data) = Ok bd /\ br_labels bd = []) /\
   processBranchData (Some data) = Throw TypeError).
Proof.
  intros Ha Hf Hp.
  unfold Earlier.processSeverityData, processSeverityData,
    Earlier.processBranchData, processBranchData, Earlier.forEach_if, forEach_opt.
  rewrite Ha; simpl. rewrite Hf, Hp; simpl.
  split; [|split; [|split]].
  - intros [H|[->| ->]]; try reflexivity; try (simpl; split; reflexivity).
    rewrite H. destruct findings as [[| | | |fs|]|]; try discriminate; try reflexivity.
    destruct (forEach _ fs severityCounts0); simpl; [split; reflexivity|reflexivity].
  - intros H Hn Hn'. rewrite H. simpl.
    split; [eexists; split; reflexivity|].
    destruct findings as [[| | | | |]|]; try discriminate; try congruence; reflexivity.
  - intros [H|[->| ->]]; try reflexivity.
    rewrite H. destruct participants as [[| | | |ps|]|]; try discriminate; reflexivity.
  - intros H Hn Hn'. rewrite H. simpl.
    split; [eexists; split; reflexivity|].
    destruct participants as [[| | | | |]|]; try discriminate; try congruence; reflexivity.
Qed.

Lemma aggregators_differ_on_falsy_witness :
  (exists sd,
      Earlier.processSeverityData
        (Some (JObj [("analysis", JObj [("findings", JStr "")])])) = Ok sd /\
      sev_values sd = [VNumber 0; VNumber 0; VNumber 0; VNumber 0]) /\
  processSeverityData (Some (JObj [("analysis", JObj [("findings", JStr "")])]))
  = Throw TypeError.
Proof.
  exact (proj1 (proj2 (aggregators_differ_on_falsy
                         (JObj [("analysis", JObj [("findings", JStr "")])]) _ _ _
                         eq_refl eq_refl eq_refl))
               eq_refl ltac:(discriminate) ltac:(discriminate)).
Defined.

#[local] Arguments truthy : simpl never.
#[local] Arguments get : simpl never.
#[local] Arguments get_opt : simpl never.
#[local] Arguments or_default : simpl never.
#[local] Arguments ToString : simpl never.
#[local] Arguments JSON_parse : simpl never.
#[local] Arguments JSON_stringify : simpl never.
#[local] Arguments summary_text : simpl never.
#[local] Arguments findings_and_charts : simpl never.
#[local] Arguments render : simpl never.
#[local] Arguments displayResults : simpl never.
#[local] Arguments Earlier.findings_and_charts : simpl never.
#[local] Arguments Earlier.render : simpl never.
#[local] Arguments Earlier.displayResults : simpl never.
#[local] Arguments trim : simpl never.
#[local] Arguments String.prefix : simpl never.

Ltac unfold_both :=
  unfold Earlier.analyzeBtn_click, Earlier.analyze_try,
    analyzeBtn_click, analyze_try, fetch, setItem, showAlert,
    console_error, setLoadingState, parse, try_finally, try_catch, bind, lift,
    read_state, modify, throw, ret;
  simpl.

Ltac quiet :=
  split;
  [ reflexivity
  | first [ left; reflexivity
          | right; eexists; split;
            [ reflexivity
            | first [ reflexivity
                    | match goal with e : Exn |- _ => destruct e; reflexivity end ] ] ] ].

(** The second validation of the earlier Analyze handler can never fail,
    since the same text has just been parsed: no alert it raises starts
    with "Invalid JSON format".  The handler keeps nothing in local
    storage. *)
Theorem earlier_submit_never_invalid_format (st : State) (answer : Fetch) :
  let st' := fst (Earlier.analyzeBtn_click answer st) in
  localStorage st' = localStorage st /\
  (alerts st' = alerts st \/
   exists a, alerts st' = a :: alerts st /\ has_prefix "Invalid JSON format" a = false).
Proof.
  unfold_both.
  destruct (JSON_parse (trim (auditDataTextarea st))) as [v|]; simpl; [|quiet].
  destruct (get (Some v) "audit_report") as [audit_report|e]; simpl; [|quiet].
  destruct (truthy (get_opt audit_report "exceptions")); simpl; [|quiet].
  destruct answer as [|ok body]; simpl; [quiet|].
  destruct (JSON_parse body) as [data|]; simpl; [|quiet].
  destruct ok; simpl.
  - rewrite earlier_displayResults_run.
    destruct (Earlier.render data) as [r|e]; simpl; quiet.
  - destruct (get (Some data) "error") as [error|e]; simpl; [|quiet].
    destruct (ToString (or_default error "Analysis failed")) as [m|e]; simpl; quiet.
Qed.

Lemma earlier_submit_never_invalid_format_witness :
  localStorage (fst (Earlier.analyzeBtn_click (Responded true sample_response_body)
                                              analysed_page))
  = localStorage analysed_page.
Proof.
  exact (proj1 (earlier_submit_never_invalid_format
                  analysed_page (Responded true sample_response_body))).
Defined.

(** On every path that does not end in a success response the two copies
    of the Analyze handler do the same: for a text that is not accepted, a
    request that is rejected and a non-success response they leave the
    same page. *)
Theorem earlier_submit_agrees_on_failure (st : State) (answer : Fetch) (write : Write) :
  accepted (trim (auditDataTextarea st)) = false \/
  answer = Rejected \/ (exists body, answer = Responded false body) ->
  Earlier.analyzeBtn_click answer st = analyzeBtn_click answer write st.
Proof.
  unfold accepted. unfold_both.
  destruct (JSON_parse (trim (auditDataTextarea st))) as [v|]; simpl; [|reflexivity].
  pose proof (SessionFacts.validation v) as V.
  destruct (get (Some v) "audit_report") as [audit_report|]; simpl; [|reflexivity].
  rewrite V. destruct (has_exceptions v); simpl; [|reflexivity].
  intros [H|[->|[body ->]]]; [discriminate|reflexivity|]. simpl.
  destruct (JSON_parse body) as [data|]; simpl; [|reflexivity].
  destruct (get (Some data) "error") as [error|]; simpl; [|reflexivity].
  destruct (ToString (or_default error "Analysis failed")); reflexivity.
Qed.

Lemma earlier_submit_agrees_on_failure_witness :
  Earlier.analyzeBtn_click (Responded false sample_error_body) analysed_page
  = analyzeBtn_click (Responded false sample_error_body) Stored analysed_page.
Proof.
  exact (earlier_submit_agrees_on_failure
           analysed_page (Responded false sample_error_body) Stored
           (or_intror (or_intror (ex_intro _ sample_error_body eq_refl)))).
Defined.

End EarlierFacts.

(** ** The text of numbers and strings, read back by the parser *)

Module NumberTextFacts.
Import Str Js Dict Json MoreNotions.


Lemma explode_app (a b : string) :
  list_ascii_of_string (a ++ b) = (list_ascii_of_string a ++ list_ascii_of_string b)%list.
Proof. induction a as [|c a IH]; simpl; [reflexivity|]. rewrite IH. reflexivity. Qed.

Lemma explode_length (a : string) : List.length (list_ascii_of_string a) = String.length a.
Proof. induction a as [|c a IH]; simpl; [reflexivity|]. rewrite IH. reflexivity. Qed.

Lemma uint_digits (d : Decimal.uint) :
  Forall (fun c => is_digit c = true) (list_ascii_of_string (NilEmpty.string_of_uint d)).
Proof. induction d; simpl; constructor; auto. Qed.

Ltac digit_value :=
  match goal with
  | |- context [N.of_nat (nat_of_ascii ?c)] =>
      let v := eval vm_compute in (N.of_nat (nat_of_ascii c) - 48)%N in
      change (N.of_nat (nat_of_ascii c) - 48)%N with v
  end.

Lemma uint_value_from (d : Decimal.uint) : forall acc : positive,
  fold_left (fun acc c => (acc * 10 + (N.of_nat (nat_of_ascii c) - 48))%N)
    (list_ascii_of_string (NilEmpty.string_of_uint d)) (Npos acc)
  = Npos (Pos.of_uint_acc d acc).
Proof.
  induction d; intros acc;
    cbn [fold_left list_ascii_of_string NilEmpty.string_of_uint Pos.of_uint_acc];
    [reflexivity|..];
    rewrite <- IHd; f_equal; digit_value; lia.
Qed.

Lemma uint_value (d : Decimal.uint) :
  digits_value (list_ascii_of_string (NilEmpty.string_of_uint d)) = Pos.of_uint d.
Proof.
  unfold digits_value.
  induction d;
    cbn [fold_left list_ascii_of_string NilEmpty.string_of_uint Pos.of_uint];
    [reflexivity| |..].
  - exact IHd.
  - rewrite <- uint_value_from. reflexivity.
  - rewrite <- uint_value_from. reflexivity.
  - rewrite <- uint_value_from. reflexivity.
  - rewrite <- uint_value_from. reflexivity.
  - rewrite <- uint_value_from. reflexivity.
  - rewrite <- uint_value_from. reflexivity.
  - rewrite <- uint_value_from. reflexivity.
  - rewrite <- uint_value_from. reflexivity.
  - rewrite <- uint_value_from. reflexivity.
Qed.

Lemma uint_head (d : Decimal.uint) :
  Decimal.unorm d = d -> d <> Decimal.zero -> d <> Decimal.Nil ->
  exists c r, list_ascii_of_string (NilEmpty.string_of_uint d) = c :: r /\ c <> "0"%char.
Proof.
  intros Hn Hz Hnil. destruct d; try contradiction;
    try (simpl; eexists; eexists; split; [reflexivity|discriminate]).
  exfalso. rewrite DecimalFacts.unorm_D0 in Hn. unfold Decimal.unorm in Hn.
  pose proof (DecimalFacts.nb_digits_nzhead d) as Hl.
  destruct (Decimal.nzhead d) eqn:E; try discriminate.
  - injection Hn as <-. apply Hz. reflexivity.
  - injection Hn as ->. simpl in Hl. lia.
Qed.

Lemma digits_uint (n : N) :
  digits n = NilEmpty.string_of_uint (N.to_uint n) /\ N.to_uint n <> Decimal.Nil.
Proof.
  unfold digits, NilZero.string_of_uint. destruct n as [|p]; simpl.
  - split; [reflexivity|discriminate].
  - pose proof (DecimalPos.Unsigned.to_uint_nonnil p) as H.
    destruct (Pos.to_uint p); [contradiction|..]; split; try reflexivity; discriminate.
Qed.

Lemma digits_all (n : N) : Forall (fun c => is_digit c = true) (list_ascii_of_string (digits n)).
Proof. rewrite (proj1 (digits_uint n)). apply uint_digits. Qed.

Lemma digits_value_digits (n : N) : digits_value (list_ascii_of_string (digits n)) = n.
Proof.
  rewrite (proj1 (digits_uint n)), uint_value. apply DecimalN.Unsigned.of_to.
Qed.

Lemma digits_head (n : N) :
  n <> 0%N -> exists c r, list_ascii_of_string (digits n) = c :: r /\ c <> "0"%char.
Proof.
  intros Hn. destruct (digits_uint n) as [-> Hnil].
  apply uint_head; [|intros E|assumption].
  - pose proof (DecimalN.Unsigned.to_of (N.to_uint n)) as H.
    rewrite DecimalN.Unsigned.of_to in H. symmetry. exact H.
  - apply Hn. rewrite <- (DecimalN.Unsigned.of_to n), E. reflexivity.
Qed.

Lemma digits_nonempty (n : N) : list_ascii_of_string (digits n) <> [].
Proof.
  destruct (digits_uint n) as [-> Hnil].
  destruct (N.to_uint n); [contradiction|..]; discriminate.
Qed.

Lemma digits_value_snoc (l : chars) (c : ascii) :
  digits_value (l ++ [c])%list = (digits_value l * 10 + (N.of_nat (nat_of_ascii c) - 48))%N.
Proof. unfold digits_value. rewrite fold_left_app. reflexivity. Qed.

Lemma is_digit_value (c : ascii) :
  is_digit c = true ->
  (N.of_nat (nat_of_ascii c) - 48 < 10)%N /\
  ((N.of_nat (nat_of_ascii c) - 48 = 0)%N -> c = "0"%char).
Proof.
  unfold is_digit. intros H. apply andb_prop in H. destruct H as [H1 H2].
  apply Nat.leb_le in H1, H2. split; [lia|].
  intros E. assert (nat_of_ascii c = 48%nat) as E' by lia.
  rewrite <- (ascii_nat_embedding c), E'. reflexivity.
Qed.

Lemma digits_last (n : N) :
  (n mod 10 <> 0)%N ->
  exists l c, list_ascii_of_string (digits n) = (l ++ [c])%list /\ c <> "0"%char.
Proof.
  intros Hn. pose proof (digits_all n) as Ha. pose proof (digits_value_digits n) as Hv.
  destruct (exists_last (digits_nonempty n)) as (l & c & E).
  exists l, c. split; [assumption|]. intros ->.
  rewrite E, digits_value_snoc in Hv. apply Hn. rewrite <- Hv.
  change (N.of_nat (nat_of_ascii "0") - 48)%N with 0%N.
  rewrite N.add_0_r. apply N.Div0.mod_mul.
Qed.

Lemma mantissa_last (m : Z) :
  (m mod 10 =? 0)%Z = false -> (Z.abs_N m mod 10)%N <> 0%N.
Proof.
  intros H E. apply Z.eqb_neq in H. apply H.
  apply N.Div0.mod_divides in E. destruct E as [q E].
  assert (Z.abs m = 10 * Z.of_N q)%Z as E' by lia.
  destruct (Z.abs_spec m) as [[_ A]|[_ A]].
  - replace m with (Z.of_N q * 10)%Z by lia. apply Z_mod_mult.
  - replace m with (- Z.of_N q * 10)%Z by lia. apply Z_mod_mult.
Qed.

(** *** The pieces of a number literal *)

Lemma span_digits_app (ds rest : chars) :
  Forall (fun c => is_digit c = true) ds ->
  span_digits rest = ([], rest) ->
  span_digits (ds ++ rest)%list = (ds, rest).
Proof.
  intros Hd Hr. induction Hd as [|c ds Hc _ IH]; simpl; [assumption|].
  rewrite Hc, IH. reflexivity.
Qed.

Lemma ends_number_span (rest : chars) :
  ends_number rest = true ->
  span_digits rest = ([], rest) /\
  parse_fraction rest = Some ([], rest) /\
  parse_exponent rest = Some (0%Z, rest).
Proof.
  destruct rest as [|c r]; [repeat split|].
  unfold ends_number. intros H. apply negb_true_iff in H.
  apply orb_false_iff in H. destruct H as [H HE].
  apply orb_false_iff in H. destruct H as [H He].
  apply orb_false_iff in H. destruct H as [Hd Hdot].
  unfold parse_fraction, parse_exponent, optional. simpl.
  rewrite Hd, Hdot, He, HE. repeat split.
Qed.

Lemma optional_minus (neg : bool) (c : ascii) (b : chars) :
  is_digit c = true ->
  optional "-" ((if neg then ["-"%char] else []) ++ c :: b)%list = (neg, c :: b).
Proof.
  intros Hc. destruct neg; [reflexivity|]. simpl.
  destruct (Ascii.eqb_spec c "-") as [->|]; [discriminate|reflexivity].
Qed.

(** A literal with integer part [ip], fraction [fp] and exponent [x]. *)
Lemma parse_number_parts (neg : bool) (c : ascii) (b ip fp s2 s3 s4 : chars) (x : Z) :
  is_digit c = true ->
  span_digits (c :: b) = (ip, s2) ->
  (Ascii.eqb c "0" && negb (Nat.eqb (List.length ip) 1)) = false ->
  parse_fraction s2 = Some (fp, s3) ->
  parse_exponent s3 = Some (x, s4) ->
  parse_number ((if neg then ["-"%char] else []) ++ c :: b)%list
  = Some (decimal neg (ip ++ fp)%list (x - Z.of_nat (List.length fp)), s4).
Proof.
  intros Hc Hs Hz Hf He. unfold parse_number.
  rewrite optional_minus by assumption. rewrite Hs.
  simpl in Hs. rewrite Hc in Hs. destruct (span_digits b) as [d r'].
  injection Hs as <- <-. simpl in Hz.
  change (Nat.eqb (S (List.length d)) 1) with (Nat.eqb (List.length d) 0) in Hz.
  rewrite Hz, Hf, He. reflexivity.
Qed.

Lemma drop_zeros_app (zs l : chars) :
  Forall (fun c => c = "0"%char) zs -> drop_zeros (zs ++ l)%list = drop_zeros l.
Proof. induction 1 as [|c zs -> _ IH]; simpl; [reflexivity|exact IH]. Qed.

Lemma digits_value_zeros (zs l : chars) :
  Forall (fun c => c = "0"%char) zs -> digits_value (zs ++ l)%list = digits_value l.
Proof.
  unfold digits_value. induction 1 as [|c zs -> _ IH]; simpl; [reflexivity|exact IH].
Qed.

(** The digits [l], which end in a digit other than zero, followed by the
    zeros [zs]. *)
Lemma decimal_of (m : Z) (l pre zs : chars) (c : ascii) (e0 e : Z) :
  digits_value l = Z.abs_N m -> m <> 0%Z ->
  l = (pre ++ [c])%list -> c <> "0"%char ->
  rounds_to_zero (Z.abs m) e = false ->
  Forall (fun c => c = "0"%char) zs ->
  (e0 + Z.of_nat (List.length zs))%Z = e ->
  decimal (m <? 0)%Z (l ++ zs)%list e0 = JNum m e.
Proof.
  intros Hv Hm El Hc Hrz Hz He. unfold decimal. cbv zeta.
  assert (Es : rev (drop_zeros (rev (l ++ zs)%list)) = l).
  { rewrite rev_app_distr, drop_zeros_app by (apply Forall_rev; assumption).
    rewrite El, rev_app_distr. simpl.
    destruct (Ascii.eqb_spec c "0"); [contradiction|].
    simpl. rewrite rev_involutive. reflexivity. }
  rewrite Es, Hv.
  replace (e0 + Z.of_nat (List.length (l ++ zs)%list) - Z.of_nat (List.length l))%Z
    with e by (rewrite length_app; lia).
  replace (Z.of_N (Z.abs_N m)) with (Z.abs m) by lia.
  rewrite Hrz. destruct (Z.eqb_spec (Z.abs m) 0); [lia|].
  cbn [orb]. f_equal. destruct (Z.ltb_spec m 0); lia.
Qed.

Lemma decimal_of_digits (m : Z) (l pre : chars) (c : ascii) (e0 e : Z) :
  digits_value l = Z.abs_N m -> m <> 0%Z ->
  l = (pre ++ [c])%list -> c <> "0"%char ->
  rounds_to_zero (Z.abs m) e = false ->
  e0 = e ->
  decimal (m <? 0)%Z l e0 = JNum m e.
Proof.
  intros Hv Hm El Hc Hrz He.
  pose proof (decimal_of m l pre [] c e0 e Hv Hm El Hc Hrz (Forall_nil _)) as H.
  rewrite List.app_nil_r in H. apply H. simpl. lia.
Qed.

(** *** The text of a number, as characters *)

Lemma explode_repeat0 (k : nat) : list_ascii_of_string (repeat0 k) = repeat "0"%char k.
Proof. induction k as [|k IH]; simpl; [reflexivity|]. rewrite IH. reflexivity. Qed.

Lemma repeat_zeros (k : nat) : Forall (fun c => c = "0"%char) (repeat "0"%char k).
Proof. induction k; simpl; constructor; auto. Qed.

Lemma repeat_digits (k : nat) : Forall (fun c => is_digit c = true) (repeat "0"%char k).
Proof. induction k; simpl; constructor; auto. Qed.

Lemma explode_substring_firstn (s : string) : forall n : nat,
  list_ascii_of_string (substring 0 n s) = firstn n (list_ascii_of_string s).
Proof.
  induction s as [|c s IH]; intros [|n]; simpl; try reflexivity.
  rewrite IH. reflexivity.
Qed.

Lemma explode_substring_skipn (s : string) : forall n : nat,
  (n <= String.length s)%nat ->
  list_ascii_of_string (substring n (String.length s - n) s) = skipn n (list_ascii_of_string s).
Proof.
  induction s as [|c s IH]; intros [|n] Hn; simpl in *; try reflexivity; try lia.
  - rewrite explode_substring_firstn, <- explode_length, firstn_all. reflexivity.
  - apply IH. lia.
Qed.

Lemma parse_exponent_digits (x : Z) (rest : chars) :
  ends_number rest = true ->
  parse_exponent
    ("e"%char
       :: list_ascii_of_string ((if (x <? 0)%Z then "-" else "+") ++ digits (Z.abs_N x))
       ++ rest)%list
  = Some (x, rest).
Proof.
  intros Hr. destruct (ends_number_span rest Hr) as (Hs & _ & _).
  pose proof (span_digits_app _ _ (digits_all (Z.abs_N x)) Hs) as Hd.
  pose proof (digits_nonempty (Z.abs_N x)) as Hne.
  pose proof (digits_value_digits (Z.abs_N x)) as Hv.
  unfold parse_exponent. rewrite explode_app.
  destruct (Z.ltb_spec x 0); simpl; rewrite Hd;
    (destruct (list_ascii_of_string (digits (Z.abs_N x))); [contradiction|]);
    rewrite Hv; do 2 f_equal; lia.
Qed.

Lemma parse_fraction_digits (fp rest : chars) :
  Forall (fun c => is_digit c = true) fp -> fp <> [] ->
  span_digits rest = ([], rest) ->
  parse_fraction ("."%char :: fp ++ rest)%list = Some (fp, rest).
Proof.
  intros Hd Hne Hr. unfold parse_fraction. simpl.
  rewrite (span_digits_app _ _ Hd Hr). destruct fp; [contradiction|reflexivity].
Qed.

(** [JSON.parse] reads the text of a number back as that number. *)
Lemma parse_number_to_string (m e : Z) (rest : chars) :
  normal_number m e = true -> ends_number rest = true ->
  parse_number (list_ascii_of_string (number_to_string m e) ++ rest)%list = Some (JNum m e, rest).
Proof.
  intros Hn Hr. destruct (ends_number_span rest Hr) as (Hs & Hf & He).
  unfold normal_number in Hn. unfold number_to_string.
  destruct (Z.eqb_spec m 0) as [->|Hm].
  - apply Z.eqb_eq in Hn. subst e.
    unfold parse_number. simpl. rewrite Hs. simpl. rewrite Hf, He. reflexivity.
  - apply andb_prop in Hn. destruct Hn as [Hn Hrz].
    apply negb_true_iff in Hn, Hrz. pose proof (mantissa_last m Hn) as Hlast.
    assert (Hnz : Z.abs_N m <> 0%N) by lia.
    destruct (digits_head _ Hnz) as (c0 & r0 & E0 & Hc0).
    destruct (digits_last _ Hlast) as (pre & cl & El & Hcl).
    pose proof (digits_all (Z.abs_N m)) as Hall.
    pose proof (digits_value_digits (Z.abs_N m)) as Hval.
    pose proof (explode_length (digits (Z.abs_N m))) as Hk.
    remember (digits (Z.abs_N m)) as ds eqn:Eds.
    remember (Z.of_nat (String.length ds)) as k eqn:Ek.
    remember (k + e)%Z as n eqn:En.
    assert (Hd0 : is_digit c0 = true) by (rewrite E0 in Hall; inversion Hall; assumption).
    assert (Hz0 : forall b, Ascii.eqb c0 "0" && b = false)
      by (intros b; destruct (Ascii.eqb_spec c0 "0"); [contradiction|reflexivity]).
    rewrite explode_app.
    replace (list_ascii_of_string (if (m <? 0)%Z then "-" else ""))
      with (if (m <? 0)%Z then ["-"%char] else []) by (destruct (m <? 0)%Z; reflexivity).
    rewrite <- app_assoc.
    destruct ((k <=? n)%Z && (n <=? 21)%Z) eqn:C1.
    { (* an integer: the digits, then zeros *)
      apply andb_prop in C1. destruct C1 as [C1 _]. apply Z.leb_le in C1.
      rewrite explode_app, explode_repeat0, <- app_assoc.
      set (zs := repeat "0"%char (Z.to_nat (n - k))).
      rewrite E0 in *. cbn [app].
      etransitivity.
      - eapply parse_number_parts; [exact Hd0| |apply Hz0|exact Hf|exact He].
        change (c0 :: (r0 ++ zs ++ rest))%list with ((c0 :: r0) ++ zs ++ rest)%list.
        rewrite app_assoc. apply span_digits_app; [|assumption].
        apply Forall_app. split; [assumption|apply repeat_digits].
      - rewrite List.app_nil_r, (decimal_of m _ pre zs cl _ e); auto;
          [apply repeat_zeros|].
        unfold zs. rewrite repeat_length. simpl. lia. }
    destruct ((0 <? n)%Z && (n <=? 21)%Z) eqn:C2.
    { (* a point inside the digits *)
      apply andb_prop in C2. destruct C2 as [C2 C2']. apply Z.ltb_lt in C2.
      assert (Hnk : (n < k)%Z).
      { destruct (Z.leb_spec k n) as [A|A]; [|assumption].
        rewrite C2' in C1. discriminate. }
      rewrite !explode_app, explode_substring_firstn.
      replace (Z.to_nat (k - n)) with (String.length ds - Z.to_nat n)%nat by lia.
      rewrite explode_substring_skipn by lia.
      remember (Z.to_nat n) as N eqn:EN.
      destruct N as [|N]; [lia|].
      pose proof (firstn_skipn (S N) (list_ascii_of_string ds)) as Hfs.
      assert (Hfd : Forall (fun c => is_digit c = true) (firstn (S N) (list_ascii_of_string ds)) /\
                    Forall (fun c => is_digit c = true) (skipn (S N) (list_ascii_of_string ds))).
      { apply Forall_app. rewrite Hfs. assumption. }
      destruct Hfd as [Hfd Hsd].
      assert (Hsn : skipn (S N) (list_ascii_of_string ds) <> []).
      { intros E. apply (f_equal (@List.length ascii)) in E.
        rewrite length_skipn in E. simpl in E. lia. }
      rewrite <- !app_assoc.
      assert (Ehd : exists t, firstn (S N) (list_ascii_of_string ds) = c0 :: t).
      { rewrite E0. simpl. eexists. reflexivity. }
      destruct Ehd as [t Et]. rewrite Et in *.
      change (list_ascii_of_string ".") with ["."%char]. cbn [app].
      etransitivity.
      - eapply parse_number_parts; [exact Hd0| |apply Hz0| |exact He].
        + change (c0 :: (t ++ "."%char :: skipn (S N) (list_ascii_of_string ds) ++ rest))%list
            with ((c0 :: t) ++ "."%char :: skipn (S N) (list_ascii_of_string ds) ++ rest)%list.
          apply span_digits_app; [assumption|reflexivity].
        + apply parse_fraction_digits; assumption.
      - rewrite Hfs, (decimal_of_digits m _ pre cl _ e); auto.
        rewrite length_skipn. lia. }
    destruct ((-6 <? n)%Z && (n <=? 0)%Z) eqn:C3.
    { (* zeros between the point and the digits *)
      apply andb_prop in C3. destruct C3 as [_ C3]. apply Z.leb_le in C3.
      change (list_ascii_of_string ("0." ++ repeat0 (Z.to_nat (- n)) ++ ds))
        with ("0"%char :: "."%char :: list_ascii_of_string (repeat0 (Z.to_nat (- n)) ++ ds)).
      rewrite explode_app, explode_repeat0.
      set (zs := repeat "0"%char (Z.to_nat (- n))).
      cbn [app]. rewrite <- app_assoc.
      etransitivity.
      - eapply parse_number_parts; [reflexivity|reflexivity|reflexivity| |exact He].
        rewrite app_assoc. apply parse_fraction_digits; [| |assumption].
        + apply Forall_app. split; [apply repeat_digits|assumption].
        + rewrite E0. destruct zs; discriminate.
      - change (["0"%char] ++ zs ++ list_ascii_of_string ds)%list
          with (("0"%char :: zs) ++ list_ascii_of_string ds)%list.
        rewrite (decimal_of_digits m _ (("0"%char :: zs) ++ pre)%list cl _ e); auto.
        + rewrite digits_value_zeros; [assumption|].
          constructor; [reflexivity|apply repeat_zeros].
        + rewrite El, app_assoc. reflexivity.
        + rewrite length_app. unfold zs. rewrite repeat_length. lia. }
    (* scientific notation *)
    destruct ds as [|d r]; [discriminate E0|].
    simpl in E0. injection E0 as <- <-.
    assert (Hr0 : Forall (fun c => is_digit c = true) (list_ascii_of_string r))
      by (inversion Hall; assumption).
    pose proof (parse_exponent_digits (n - 1) rest Hr) as Hx.
    destruct r as [|c2 r2].
    + change (list_ascii_of_string (String d "e" ++
                ((if (n - 1 <? 0)%Z then "-" else "+") ++ digits (Z.abs_N (n - 1)))))
        with (d :: "e"%char ::
                list_ascii_of_string
                  ((if (n - 1 <? 0)%Z then "-" else "+") ++ digits (Z.abs_N (n - 1)))).
      cbn [app].
      etransitivity.
      * eapply parse_number_parts;
          [exact Hd0|simpl; rewrite Hd0; reflexivity|apply Hz0|reflexivity|exact Hx].
      * rewrite (decimal_of_digits m [d] pre cl _ e); auto. simpl in *. lia.
    + change (list_ascii_of_string (String d "." ++ String c2 r2 ++ "e" ++
                ((if (n - 1 <? 0)%Z then "-" else "+") ++ digits (Z.abs_N (n - 1)))))
        with (d :: "."%char :: list_ascii_of_string (String c2 r2 ++ String "e"
                ((if (n - 1 <? 0)%Z then "-" else "+") ++ digits (Z.abs_N (n - 1))))).
      rewrite explode_app. cbn [app]. rewrite <- app_assoc.
      change (list_ascii_of_string (String "e" ((if (n - 1 <? 0)%Z then "-" else "+")
                                     ++ digits (Z.abs_N (n - 1)))) ++ rest)%list
        with ("e"%char :: list_ascii_of_string ((if (n - 1 <? 0)%Z then "-" else "+")
                                     ++ digits (Z.abs_N (n - 1))) ++ rest)%list.
      etransitivity.
      * eapply parse_number_parts;
          [exact Hd0|simpl; rewrite Hd0; reflexivity|apply Hz0| |exact Hx].
        apply (parse_fraction_digits (c2 :: list_ascii_of_string r2));
          [assumption|discriminate|reflexivity].
      * rewrite (decimal_of_digits m (d :: c2 :: list_ascii_of_string r2) pre cl _ e); auto.
        simpl in *. lia.
Qed.

(** *** Strings *)

Lemma parse_string_plain (c : ascii) (r : chars) :
  Ascii.eqb c dquote = false -> Ascii.eqb c "\" = false ->
  (nat_of_ascii c <? 32)%nat = false ->
  parse_string (c :: r)
  = match parse_string r with
    | Some (t, r') => Some (String c t, r')
    | None => None
    end.
Proof. intros H1 H2 H3. cbn [parse_string]. rewrite H1, H2, H3. reflexivity. Qed.

Lemma parse_string_escaped (e x : ascii) (r : chars) :
  Ascii.eqb e "u" = false -> escaped e = Some x ->
  parse_string ("\"%char :: e :: r)
  = match parse_string r with
    | Some (t, r') => Some (String x t, r')
    | None => None
    end.
Proof.
  intros H1 H2. cbn [parse_string].
  change (Ascii.eqb "\" dquote) with false. change (Ascii.eqb "\" "\") with true.
  cbv iota. rewrite H1, H2. reflexivity.
Qed.

Lemma parse_string_unicode (h1 h2 h3 h4 : ascii) (u : N) (r : chars) :
  hex4 h1 h2 h3 h4 = Some u ->
  parse_string ("\"%char :: "u"%char :: h1 :: h2 :: h3 :: h4 :: r)
  = match parse_string r with
    | Some (t, r') => Some (utf8 u ++ t, r')
    | None => None
    end.
Proof.
  intros H. cbn [parse_string].
  change (Ascii.eqb "\" dquote) with false. change (Ascii.eqb "\" "\") with true.
  change (Ascii.eqb "u" "u") with true.
  cbv iota. rewrite H. reflexivity.
Qed.

Lemma control_character (n : nat) :
  (n < 32)%nat ->
  hex4 "0" "0" (hex_digit (N.of_nat n / 16)) (hex_digit (N.of_nat n mod 16)) = Some (N.of_nat n) /\
  utf8 (N.of_nat n) = String (ascii_of_nat n) "".
Proof.
  intros H. do 32 (destruct n as [|n]; [split; vm_compute; reflexivity|]). lia.
Qed.

(** What the parser makes of the escaped form of one character. *)
Lemma parse_string_escape_char (c : ascii) (r : chars) :
  parse_string (list_ascii_of_string (escape (String c "")) ++ r)%list
  = match parse_string r with
    | Some (t, r') => Some (String c t, r')
    | None => None
    end.
Proof.
  cbn [escape]. rewrite explode_app, List.app_nil_r.
  destruct (Ascii.eqb c dquote) eqn:Hq.
  { apply Ascii.eqb_eq in Hq. subst c. apply parse_string_escaped; reflexivity. }
  destruct (Ascii.eqb c "\") eqn:Hb.
  { apply Ascii.eqb_eq in Hb. subst c. apply parse_string_escaped; reflexivity. }
  assert (Hc : forall n, nat_of_ascii c = n -> c = ascii_of_nat n)
    by (intros n <-; symmetry; apply ascii_nat_embedding).
  destruct (Nat.eqb_spec (nat_of_ascii c) 8) as [E|_].
  { rewrite (Hc _ E). apply parse_string_escaped; reflexivity. }
  destruct (Nat.eqb_spec (nat_of_ascii c) 12) as [E|_].
  { rewrite (Hc _ E). apply parse_string_escaped; reflexivity. }
  destruct (Nat.eqb_spec (nat_of_ascii c) 10) as [E|_].
  { rewrite (Hc _ E). apply parse_string_escaped; reflexivity. }
  destruct (Nat.eqb_spec (nat_of_ascii c) 13) as [E|_].
  { rewrite (Hc _ E). apply parse_string_escaped; reflexivity. }
  destruct (Nat.eqb_spec (nat_of_ascii c) 9) as [E|_].
  { rewrite (Hc _ E). apply parse_string_escaped; reflexivity. }
  destruct (Nat.ltb_spec (nat_of_ascii c) 32) as [Hl|Hl].
  { destruct (control_character _ Hl) as [Hh Hu].
    change (list_ascii_of_string ("\u00" ++ String (hex_digit (N.of_nat (nat_of_ascii c) / 16))
                      (String (hex_digit (N.of_nat (nat_of_ascii c) mod 16)) "")))
      with ("\"%char :: "u"%char :: "0"%char :: "0"%char
              :: hex_digit (N.of_nat (nat_of_ascii c) / 16)
              :: hex_digit (N.of_nat (nat_of_ascii c) mod 16) :: []).
    cbn [app]. rewrite (parse_string_unicode _ _ _ _ _ r Hh), Hu, ascii_nat_embedding.
    reflexivity. }
  apply parse_string_plain; [assumption|assumption|].
  apply Nat.ltb_ge. assumption.
Qed.

Lemma parse_string_escape (s : string) (rest : chars) :
  parse_string (list_ascii_of_string (escape s) ++ dquote :: rest)%list = Some (s, rest).
Proof.
  induction s as [|c s IH].
  - cbn [escape list_ascii_of_string app parse_string].
    rewrite Ascii.eqb_refl. reflexivity.
  - pose proof (parse_string_escape_char
                  c (list_ascii_of_string (escape s) ++ dquote :: rest)%list) as H.
    cbn [escape] in *. rewrite explode_app, <- app_assoc.
    rewrite explode_app, List.app_nil_r in H. rewrite H, IH. reflexivity.
Qed.

End NumberTextFacts.

(** ** The order of the keys of an object *)

Module KeyOrderFacts.
Import Str Js Dict Json Notions MoreNotions.

Lemma define_append {V} (k : string) (v : V) (o : list (string * V)) :
  forallb (fun k' => stays_behind k' k) (map fst o) = true ->
  define k v o = (o ++ [(k, v)])%list.
Proof.
  induction o as [|[k1 v1] r IH]; simpl; [reflexivity|].
  unfold stays_behind at 1. intros H.
  apply andb_prop in H. destruct H as [H Hr].
  apply andb_prop in H. destruct H as [H1 H2].
  apply negb_true_iff in H1, H2. rewrite H1, H2, IH by assumption. reflexivity.
Qed.

Lemma key_order_app (l1 l2 : list string) :
  key_order (l1 ++ l2)%list = true ->
  key_order l1 = true /\ key_order l2 = true /\
  forall a b, In a l1 -> In b l2 -> stays_behind a b = true.
Proof.
  induction l1 as [|k l1 IH]; simpl.
  - intros H. repeat split; [assumption|]. intros a b [].
  - intros H. apply andb_prop in H. destruct H as [Hk H].
    rewrite forallb_app in Hk. apply andb_prop in Hk. destruct Hk as [Hk1 Hk2].
    destruct (IH H) as (H1 & H2 & H12). rewrite Hk1, H1. repeat split; [assumption|].
    intros a b [<-|Ha] Hb; [|auto].
    rewrite forallb_forall in Hk2. auto.
Qed.

(** Properties that are in key order are those of the object on which
    they are defined one after the other. *)
Lemma define_all_in_order (props : list (string * JSON)) :
  forall o : list (string * JSON),
    key_order (map fst (o ++ props)%list) = true ->
    define_all props o = (o ++ props)%list.
Proof.
  unfold define_all.
  induction props as [|[k v] r IH]; intros o H; simpl.
  - rewrite List.app_nil_r. reflexivity.
  - rewrite define_append.
    + rewrite IH; rewrite <- app_assoc; [reflexivity|exact H].
    + rewrite map_app in H. destruct (key_order_app _ _ H) as (_ & _ & H12).
      apply forallb_forall. intros k' Hk'. apply H12; [assumption|]. left. reflexivity.
Qed.

Lemma In_define {V} (k : string) (v : V) (o : list (string * V)) (x : string) :
  In x (map fst (define k v o)) <-> x = k \/ In x (map fst o).
Proof.
  induction o as [|[k1 v1] r IH]; simpl; [intuition|].
  destruct (String.eqb_spec k k1) as [->|]; simpl; [intuition|].
  destruct (precedes k k1); simpl; [intuition|]. rewrite IH. intuition.
Qed.

Lemma precedes_index (k k' : string) :
  precedes k k' = true -> exists i, array_index k = Some i.
Proof.
  unfold precedes. destruct (array_index k) as [i|]; [eauto|discriminate].
Qed.

(** A key that overtakes [k1] overtakes what stays behind [k1]. *)
Lemma overtakes_behind (k k1 x : string) :
  precedes k k1 = true -> stays_behind k1 x = true -> stays_behind k x = true.
Proof.
  unfold stays_behind, precedes. intros H Hx.
  apply andb_prop in Hx. destruct Hx as [Hne Hx]. apply negb_true_iff in Hne, Hx.
  destruct (array_index k) as [i|] eqn:Ei; [|discriminate].
  destruct (String.eqb_spec x k) as [->|]; simpl.
  - rewrite Ei in Hx. destruct (array_index k1) as [j|].
    + apply N.ltb_lt in H. apply N.ltb_ge in Hx. lia.
    + discriminate.
  - destruct (array_index x) as [l|]; [|reflexivity].
    destruct (array_index k1) as [j|]; [|discriminate].
    apply N.ltb_lt in H. apply N.ltb_ge in Hx.
    apply negb_true_iff. apply N.ltb_ge. lia.
Qed.

(** Defining a property keeps the properties in key order. *)
Lemma key_order_define {V} (k : string) (v : V) (o : list (string * V)) :
  key_order (map fst o) = true -> key_order (map fst (define k v o)) = true.
Proof.
  induction o as [|[k1 v1] r IH]; simpl; [reflexivity|].
  intros H. apply andb_prop in H. destruct H as [H1 Hr].
  destruct (String.eqb_spec k k1) as [->|Hne]; simpl.
  { rewrite H1, Hr. reflexivity. }
  destruct (precedes k k1) eqn:Hp; simpl.
  - rewrite H1, Hr, !andb_true_r.
    assert (Hk1 : stays_behind k k1 = true).
    { unfold stays_behind. destruct (String.eqb_spec k1 k); [congruence|]. simpl.
      apply negb_true_iff. unfold precedes in *.
      destruct (array_index k) as [i|]; [|discriminate].
      destruct (array_index k1) as [j|]; [|reflexivity].
      apply N.ltb_lt in Hp. apply N.ltb_ge. lia. }
    rewrite Hk1. simpl. apply forallb_forall. intros x Hx.
    rewrite forallb_forall in H1. eapply overtakes_behind; eauto.
  - rewrite IH by assumption. rewrite andb_true_r.
    apply forallb_forall. intros x Hx. apply In_define in Hx.
    destruct Hx as [->|Hx]; [|rewrite forallb_forall in H1; auto].
    unfold stays_behind. rewrite Hp.
    destruct (String.eqb_spec k k1); [contradiction|reflexivity].
Qed.

Lemma forallb_define {V} (f : V -> bool) (k : string) (v : V) (o : list (string * V)) :
  f v = true ->
  forallb (fun kv => f (snd kv)) o = true ->
  forallb (fun kv => f (snd kv)) (define k v o) = true.
Proof.
  intros Hv. induction o as [|[k1 v1] r IH]; simpl; [rewrite Hv; reflexivity|].
  intros H. apply andb_prop in H. destruct H as [H1 Hr].
  destruct (k =? k1); simpl; [rewrite Hv, Hr; reflexivity|].
  destruct (precedes k k1); simpl; [rewrite Hv, H1, Hr; reflexivity|].
  rewrite H1, IH by assumption. reflexivity.
Qed.

End KeyOrderFacts.

(** ** [JSON.parse] after [JSON.stringify] *)

Module RoundTripFacts.
Import Str Js Dict Json Notions MoreNotions NumberTextFacts KeyOrderFacts.


Lemma ends_value_number (rest : chars) : ends_value rest = true -> ends_number rest = true.
Proof.
  destruct rest as [|c r]; [reflexivity|]. unfold ends_value, ends_number.
  intros H. apply orb_prop in H. destruct H as [H|H].
  - apply orb_prop in H. destruct H as [H|H]; apply Ascii.eqb_eq in H; subst c; reflexivity.
  - apply Ascii.eqb_eq in H. subst c. reflexivity.
Qed.

Lemma parse_number_head (s r : chars) (v : JSON) :
  parse_number s = Some (v, r) ->
  exists c t, s = c :: t /\ (c = "-"%char \/ is_digit c = true).
Proof.
  unfold parse_number, optional. destruct s as [|c t]; [discriminate|].
  intros H. exists c, t. split; [reflexivity|].
  destruct (Ascii.eqb_spec c "-") as [->|]; [left; reflexivity|right].
  simpl in H. destruct (is_digit c); [reflexivity|discriminate].
Qed.

(** The first character of a number is not one that starts or ends
    any other kind of value. *)
Lemma number_head_tests (c : ascii) :
  c = "-"%char \/ is_digit c = true ->
  is_ws c = false /\ Ascii.eqb c "[" = false /\ Ascii.eqb c "{" = false /\
  Ascii.eqb c dquote = false /\ Ascii.eqb c "n" = false /\ Ascii.eqb c "t" = false /\
  Ascii.eqb c "f" = false /\ Ascii.eqb c "]" = false.
Proof.
  intros [->|H]; [repeat split|].
  assert (Hne : forall x, is_digit x = false -> Ascii.eqb c x = false).
  { intros x Hx. destruct (Ascii.eqb_spec c x) as [->|]; [congruence|reflexivity]. }
  repeat split; try (apply Hne; reflexivity).
  unfold is_digit in H. unfold is_ws.
  apply andb_prop in H. destruct H as [H1 H2]. apply Nat.leb_le in H1, H2.
  repeat (apply orb_false_iff; split); apply Nat.eqb_neq; lia.
Qed.

(** A value's text starts with a character that is neither white space
    nor a closing bracket. *)
Lemma stringify_head (v : JSON) :
  canonical v = true ->
  exists c t, list_ascii_of_string (JSON_stringify v) = c :: t /\
              is_ws c = false /\ Ascii.eqb c "]" = false.
Proof.
  destruct v as [|[|]|m e|s|items|props]; intros Hc;
    try (eexists; eexists; split; [reflexivity|split; reflexivity]).
  pose proof (parse_number_to_string m e [] Hc eq_refl) as Hp.
  destruct (parse_number_head _ _ _ Hp) as (c & t & E & Hh).
  rewrite List.app_nil_r in E. exists c, t. split; [exact E|].
  destruct (number_head_tests c Hh) as (H1 & _ & _ & _ & _ & _ & _ & H2). auto.
Qed.

Lemma skip_ws_head (c : ascii) (t : chars) : is_ws c = false -> skip_ws (c :: t) = c :: t.
Proof. intros H. simpl. rewrite H. reflexivity. Qed.

Lemma expect_head (x c : ascii) (t : chars) :
  is_ws c = false ->
  expect x (c :: t) = if Ascii.eqb c x then Some t else None.
Proof. intros H. unfold expect. rewrite skip_ws_head by assumption. reflexivity. Qed.

Lemma reads_back_scalar (v : JSON) (c : ascii) (t rest : chars) (g : nat) :
  list_ascii_of_string (JSON_stringify v) = c :: t ->
  is_ws c = false -> Ascii.eqb c "[" = false -> Ascii.eqb c "{" = false ->
  parse_scalar c (t ++ rest)%list = Some (v, rest) ->
  List.length (list_ascii_of_string (JSON_stringify v)) <= g ->
  parse_value g (list_ascii_of_string (JSON_stringify v) ++ rest)%list = Some (v, rest).
Proof.
  intros E Hw Hb Hc Hp Hg. rewrite E in *. destruct g as [|g]; [simpl in Hg; lia|].
  cbn [parse_value app]. rewrite skip_ws_head, Hb, Hc by assumption. exact Hp.
Qed.

Lemma reads_back_elements (items : list JSON) :
  Forall reads_back items -> forallb canonical items = true -> items <> [] ->
  forall (acc : list JSON) (rest : chars) (g : nat),
    ends_value rest = true ->
    List.length (list_ascii_of_string (join "," (map JSON_stringify items))) < g ->
    parse_elements
      g (list_ascii_of_string (join "," (map JSON_stringify items)) ++ "]"%char :: rest)%list
      acc
    = Some (JArr (rev acc ++ items)%list, rest).
Proof.
  induction 1 as [|x items Hx Hitems IH]; intros Hc Hne acc rest g Hr Hg; [contradiction|].
  simpl in Hc. apply andb_prop in Hc. destruct Hc as [Hcx Hc].
  destruct g as [|g]; [lia|].
  destruct items as [|y items].
  - cbn [map join] in *. cbn [parse_elements].
    rewrite (Hx ("]"%char :: rest) g) by (reflexivity || lia).
    rewrite !expect_head by reflexivity. simpl. reflexivity.
  - assert (Hj : join "," (map JSON_stringify (x :: y :: items))
                 = JSON_stringify x ++ String "," (join "," (map JSON_stringify (y :: items))))
      by reflexivity.
    rewrite Hj in Hg |- *. clear Hj.
    rewrite explode_app in Hg |- *. rewrite length_app in Hg.
    cbn [list_ascii_of_string List.length] in Hg |- *.
    rewrite <- app_assoc. cbn [parse_elements app].
    rewrite (Hx _ g) by (reflexivity || lia).
    rewrite expect_head by reflexivity. simpl Ascii.eqb. cbv iota.
    rewrite (IH Hc ltac:(discriminate) (x :: acc) rest g Hr) by lia.
    simpl. rewrite <- app_assoc. reflexivity.
Qed.

Lemma explode_quote (k : string) (rest : chars) :
  (list_ascii_of_string (quote k) ++ rest)%list
  = dquote :: (list_ascii_of_string (escape k) ++ dquote :: rest)%list.
Proof.
  unfold quote. cbn [list_ascii_of_string app]. rewrite explode_app, <- app_assoc.
  reflexivity.
Qed.

Lemma explode_member (kv : string * JSON) (rest : chars) :
  (list_ascii_of_string (member_text kv) ++ rest)%list
  = dquote :: (list_ascii_of_string (escape (fst kv))
                 ++ dquote :: ":"%char
                 :: list_ascii_of_string (JSON_stringify (snd kv)) ++ rest)%list.
Proof.
  unfold member_text. rewrite explode_app, <- app_assoc, explode_quote.
  reflexivity.
Qed.

Lemma member_length (kv : string * JSON) :
  List.length (list_ascii_of_string (JSON_stringify (snd kv)))
  < List.length (list_ascii_of_string (member_text kv)).
Proof.
  unfold member_text, quote. rewrite !explode_app. cbn [list_ascii_of_string List.length].
  rewrite !length_app. cbn [list_ascii_of_string List.length]. lia.
Qed.

Lemma reads_back_members (props : list (string * JSON)) :
  Forall (fun kv => reads_back (snd kv)) props -> props <> [] ->
  forall (acc : list (string * JSON)) (rest : chars) (g : nat),
    ends_value rest = true ->
    List.length (list_ascii_of_string (join "," (map member_text props))) < g ->
    parse_members
      g (list_ascii_of_string (join "," (map member_text props)) ++ "}"%char :: rest)%list
      acc
    = Some (JObj (define_all props acc), rest).
Proof.
  induction 1 as [|x props Hx Hprops IH]; intros Hne acc rest g Hr Hg; [contradiction|].
  destruct g as [|g]; [lia|].
  pose proof (member_length x) as Hm.
  destruct props as [|y props].
  - cbn [map join] in *. cbn [parse_members].
    rewrite explode_member, expect_head by reflexivity.
    rewrite Ascii.eqb_refl, parse_string_escape.
    rewrite expect_head by reflexivity. simpl Ascii.eqb. cbv iota.
    rewrite (Hx ("}"%char :: rest) g) by (reflexivity || lia).
    rewrite !expect_head by reflexivity. reflexivity.
  - assert (Hj : join "," (map member_text (x :: y :: props))
                 = member_text x ++ String "," (join "," (map member_text (y :: props))))
      by reflexivity.
    rewrite Hj in Hg |- *. clear Hj.
    rewrite explode_app in Hg |- *. rewrite length_app in Hg.
    cbn [list_ascii_of_string List.length] in Hg.
    rewrite <- app_assoc. cbn [parse_members].
    rewrite explode_member, expect_head by reflexivity.
    rewrite Ascii.eqb_refl, parse_string_escape.
    rewrite expect_head by reflexivity. simpl Ascii.eqb. cbv iota.
    cbn [list_ascii_of_string app].
    rewrite (Hx _ g) by (reflexivity || lia).
    rewrite expect_head by reflexivity. simpl Ascii.eqb. cbv iota.
    rewrite (IH ltac:(discriminate) (define (fst x) (snd x) acc) rest g Hr) by lia.
    reflexivity.
Qed.

Lemma explode_enclosed (o c : ascii) (body : string) (rest : chars) :
  (list_ascii_of_string (String o "" ++ body ++ String c "") ++ rest)%list
  = o :: (list_ascii_of_string body ++ c :: rest)%list.
Proof.
  cbn [String.append list_ascii_of_string app]. rewrite explode_app, <- app_assoc.
  reflexivity.
Qed.

Lemma enclosed_length (o c : ascii) (body : string) :
  List.length (list_ascii_of_string (String o "" ++ body ++ String c ""))
  = S (S (List.length (list_ascii_of_string body))).
Proof.
  cbn [String.append list_ascii_of_string List.length].
  rewrite explode_app, length_app. simpl. lia.
Qed.

(** [JSON.parse] reads the text of a canonical value back as that value. *)
Lemma canonical_reads_back : forall v : JSON, canonical v = true -> reads_back v.
Proof.
  fix IH 1. intros v Hc. destruct v as [|b|m e|s|items|props].
  - intros rest [|g] Hr Hg; [simpl in Hg; lia|reflexivity].
  - intros rest [|g] Hr Hg; [destruct b; simpl in Hg; lia|destruct b; reflexivity].
  - intros rest g Hr Hg. simpl in Hc.
    pose proof (parse_number_to_string m e rest Hc (ends_value_number _ Hr)) as Hp.
    destruct (parse_number_head _ _ _ Hp) as (c & t & E & Hh).
    destruct (number_head_tests c Hh) as (H1 & H2 & H3 & H4 & H5 & H6 & H7 & _).
    assert (E' : exists t', list_ascii_of_string (JSON_stringify (JNum m e)) = c :: t' /\
                            t = (t' ++ rest)%list).
    { destruct (stringify_head (JNum m e) Hc) as (c' & t' & E' & _).
      cbn [JSON_stringify] in E'. rewrite E' in E. injection E as <- <-.
      exists t'. split; [exact E'|reflexivity]. }
    destruct E' as (t' & E' & ->).
    apply (reads_back_scalar _ c t'); try assumption.
    unfold parse_scalar. rewrite H4, H5, H6, H7.
    change (c :: t' ++ rest)%list with ((c :: t') ++ rest)%list. rewrite <- E'. exact Hp.
  - intros rest [|g] Hr Hg; [simpl in Hg; lia|].
    cbn [JSON_stringify]. rewrite explode_quote. cbn [parse_value].
    rewrite skip_ws_head by reflexivity.
    change (Ascii.eqb dquote "[") with false. change (Ascii.eqb dquote "{") with false.
    cbv iota. unfold parse_scalar. rewrite Ascii.eqb_refl, parse_string_escape.
    reflexivity.
  - assert (Hitems : Forall reads_back items).
    { simpl in Hc. clear - IH Hc. induction items as [|x items IHitems]; constructor.
      - apply IH. simpl in Hc. apply andb_prop in Hc. tauto.
      - apply IHitems. simpl in Hc. apply andb_prop in Hc. tauto. }
    clear IH. simpl in Hc. intros rest [|g] Hr Hg; [simpl in Hg; lia|].
    cbn [JSON_stringify] in Hg |- *. rewrite enclosed_length in Hg.
    rewrite explode_enclosed.
    cbn [parse_value]. rewrite skip_ws_head by reflexivity.
    change (Ascii.eqb "[" "[") with true. cbv iota.
    destruct items as [|x items].
    + reflexivity.
    + assert (Hx : canonical x = true) by (simpl in Hc; apply andb_prop in Hc; tauto).
      destruct (stringify_head x Hx) as (c & t & E & Hw & Hb).
      assert (Ex : expect "]" (list_ascii_of_string (join "," (map JSON_stringify (x :: items)))
                                 ++ "]"%char :: rest)%list = None).
      { assert (Ej : exists t',
                   list_ascii_of_string (join "," (map JSON_stringify (x :: items))) = c :: t').
        { destruct items; cbn [map join]; [eauto|]. rewrite explode_app, E. simpl. eauto. }
        destruct Ej as [t' ->]. cbn [app]. rewrite expect_head, Hb by assumption.
        reflexivity. }
      rewrite Ex.
      rewrite (reads_back_elements _ Hitems Hc ltac:(discriminate) [] rest g Hr) by lia.
      reflexivity.
  - assert (Hprops : Forall (fun kv => reads_back (snd kv)) props).
    { simpl in Hc. apply andb_prop in Hc. destruct Hc as [_ Hc]. clear - IH Hc.
      induction props as [|[k x] props IHprops]; constructor.
      - apply IH. simpl in Hc. apply andb_prop in Hc. tauto.
      - apply IHprops. simpl in Hc. apply andb_prop in Hc. tauto. }
    clear IH. simpl in Hc. apply andb_prop in Hc. destruct Hc as [Hk _].
    intros rest [|g] Hr Hg; [simpl in Hg; lia|].
    cbn [JSON_stringify] in Hg |- *.
    change (map (fun kv => quote (fst kv) ++ ":" ++ JSON_stringify (snd kv)) props)
      with (map member_text props) in Hg |- *.
    rewrite enclosed_length in Hg. rewrite explode_enclosed.
    cbn [parse_value]. rewrite skip_ws_head by reflexivity.
    change (Ascii.eqb "{" "[") with false. change (Ascii.eqb "{" "{") with true. cbv iota.
    destruct props as [|x props].
    + reflexivity.
    + assert (Ex : expect "}" (list_ascii_of_string (join "," (map member_text (x :: props)))
                                 ++ "}"%char :: rest)%list = None).
      { assert (Ej : exists t', list_ascii_of_string (join "," (map member_text (x :: props)))
                                = dquote :: t').
        { destruct props; cbn [map join]; [|rewrite explode_app];
            unfold member_text, quote; simpl; eauto. }
        destruct Ej as [t' ->]. cbn [app]. rewrite expect_head by reflexivity.
        reflexivity. }
      rewrite Ex.
      rewrite (reads_back_members _ Hprops ltac:(discriminate) [] rest g Hr) by lia.
      rewrite (define_all_in_order _ [] Hk). reflexivity.
Qed.

(** Parsing the text of a canonical value gives the value back. *)
Lemma parse_stringify (v : JSON) :
  canonical v = true -> JSON_parse (JSON_stringify v) = Some v.
Proof.
  intros Hc. unfold JSON_parse.
  pose proof (canonical_reads_back
                v Hc [] (S (List.length (list_ascii_of_string (JSON_stringify v))))
                eq_refl ltac:(lia)) as H.
  rewrite List.app_nil_r in H. rewrite H. reflexivity.
Qed.

(** *** What the parser yields is canonical *)

Lemma span_digits_digits (s : chars) :
  Forall (fun c => is_digit c = true) (fst (span_digits s)).
Proof.
  induction s as [|c r IH]; simpl; [constructor|].
  destruct (is_digit c) eqn:Hc; [|constructor].
  destruct (span_digits r). simpl in *. constructor; assumption.
Qed.

Lemma drop_zeros_spec (l : chars) :
  Forall (fun c => is_digit c = true) l ->
  Forall (fun c => is_digit c = true) (drop_zeros l) /\
  match drop_zeros l with
  | [] => True
  | c :: _ => c <> "0"%char
  end.
Proof.
  induction 1 as [|c l Hc Hl IH]; simpl; [split; constructor|].
  destruct (Ascii.eqb_spec c "0"); [exact IH|].
  split; [constructor; assumption|assumption].
Qed.

Lemma decimal_normal (neg : bool) (ds : chars) (e0 : Z) :
  Forall (fun c => is_digit c = true) ds -> canonical (decimal neg ds e0) = true.
Proof.
  intros Hd. unfold decimal. cbv zeta.
  destruct (drop_zeros_spec (rev ds) (Forall_rev Hd)) as [Hs Hh].
  remember (e0 + Z.of_nat (List.length ds)
            - Z.of_nat (List.length (rev (drop_zeros (rev ds)))))%Z as e eqn:Ee.
  clear Ee.
  destruct (Z.eqb_spec (Z.of_N (digits_value (rev (drop_zeros (rev ds))))) 0) as [|Hm];
    [reflexivity|].
  cbn [orb].
  destruct (rounds_to_zero (Z.of_N (digits_value (rev (drop_zeros (rev ds))))) e) eqn:Hrz;
    [reflexivity|].
  destruct (drop_zeros (rev ds)) as [|c t]; [contradiction Hm; reflexivity|].
  simpl rev in *. rewrite digits_value_snoc in *.
  inversion Hs as [|? ? Hc _]; subst.
  destruct (is_digit_value c Hc) as [Hlt Hz].
  assert (Hnz : (N.of_nat (nat_of_ascii c) - 48 <> 0)%N) by (intros E; apply Hh, Hz, E).
  cbn [canonical]. unfold normal_number.
  set (q := digits_value (rev t)) in *. set (d := (N.of_nat (nat_of_ascii c) - 48)%N) in *.
  assert (Hmod : forall x : Z, (x = Z.of_N (q * 10 + d) \/ x = - Z.of_N (q * 10 + d))%Z ->
                               (x mod 10 =? 0)%Z = false).
  { intros x Hx. apply Z.eqb_neq. intros E.
    apply Z.mod_divide in E; [|lia]. destruct E as [y E]. lia. }
  destruct neg.
  - replace (Z.abs (- Z.of_N (q * 10 + d))) with (Z.of_N (q * 10 + d)) by lia.
    destruct (Z.eqb_spec (- Z.of_N (q * 10 + d)) 0); [lia|].
    rewrite Hmod, Hrz; auto.
  - replace (Z.abs (Z.of_N (q * 10 + d))) with (Z.of_N (q * 10 + d)) by lia.
    destruct (Z.eqb_spec (Z.of_N (q * 10 + d)) 0); [lia|].
    rewrite Hmod, Hrz; auto.
Qed.

Lemma parse_number_canonical (s r : chars) (v : JSON) :
  parse_number s = Some (v, r) -> canonical v = true.
Proof.
  unfold parse_number. destruct (optional "-" s) as [neg s1].
  pose proof (span_digits_digits s1) as Hip.
  destruct (span_digits s1) as [[|d more] s2]; [discriminate|]. simpl in Hip.
  destruct (Ascii.eqb d "0" && negb (Nat.eqb (List.length more) 0)); [discriminate|].
  unfold parse_fraction. destruct (optional "." s2) as [[|] r0].
  - pose proof (span_digits_digits r0) as Hfp.
    destruct (span_digits r0) as [[|f fp] r']; [discriminate|]. simpl in Hfp.
    destruct (parse_exponent r') as [[x s4]|]; [|discriminate].
    intros E. injection E as <- <-. apply decimal_normal.
    apply (proj2 (Forall_app _ (d :: more) (f :: fp))). split; assumption.
  - destruct (parse_exponent s2) as [[x s4]|]; [|discriminate].
    intros E. injection E as <- <-. apply decimal_normal.
    rewrite List.app_nil_r. assumption.
Qed.

Lemma parse_scalar_canonical (c : ascii) (r r' : chars) (v : JSON) :
  parse_scalar c r = Some (v, r') -> canonical v = true.
Proof.
  unfold parse_scalar.
  destruct (Ascii.eqb c dquote).
  { destruct (parse_string r) as [[t r0]|]; [|discriminate].
    intros E. injection E as <- <-. reflexivity. }
  destruct (Ascii.eqb c "n").
  { destruct (starts_with "ull" r); [|discriminate].
    intros E. injection E as <- <-. reflexivity. }
  destruct (Ascii.eqb c "t").
  { destruct (starts_with "rue" r); [|discriminate].
    intros E. injection E as <- <-. reflexivity. }
  destruct (Ascii.eqb c "f").
  { destruct (starts_with "alse" r); [|discriminate].
    intros E. injection E as <- <-. reflexivity. }
  apply parse_number_canonical.
Qed.

Lemma canonical_define (k : string) (v : JSON) (o : list (string * JSON)) :
  canonical v = true -> canonical (JObj o) = true -> canonical (JObj (define k v o)) = true.
Proof.
  simpl. intros Hv Ho. apply andb_prop in Ho. destruct Ho as [Hk Ho].
  rewrite key_order_define by assumption.
  rewrite (forallb_define canonical) by assumption. reflexivity.
Qed.

(** Whatever the parser yields is canonical. *)
Lemma parse_canonical (fuel : nat) :
  (forall s v r, parse_value fuel s = Some (v, r) -> canonical v = true) /\
  (forall s acc v r,
      parse_elements fuel s acc = Some (v, r) ->
      forallb canonical acc = true -> canonical v = true) /\
  (forall s acc v r,
      parse_members fuel s acc = Some (v, r) ->
      canonical (JObj acc) = true -> canonical v = true).
Proof.
  induction fuel as [|fuel (IHv & IHe & IHm)]; [repeat split; discriminate|].
  split; [|split].
  - intros s v r. simpl.
    destruct (skip_ws s) as [|c r0]; [discriminate|].
    destruct (Ascii.eqb c "[").
    { destruct (expect "]" r0) as [r1|].
      - intros E. injection E as <- <-. reflexivity.
      - intros E. apply (IHe _ _ _ _ E). reflexivity. }
    destruct (Ascii.eqb c "{").
    { destruct (expect "}" r0) as [r1|].
      - intros E. injection E as <- <-. reflexivity.
      - intros E. apply (IHm _ _ _ _ E). reflexivity. }
    apply parse_scalar_canonical.
  - intros s acc v r. simpl.
    destruct (parse_value fuel s) as [[v1 r1]|] eqn:Ev; [|discriminate].
    apply IHv in Ev.
    destruct (expect "," r1) as [r2|].
    + intros E Hacc. apply (IHe _ _ _ _ E). simpl. rewrite Ev, Hacc. reflexivity.
    + destruct (expect "]" r1) as [r2|]; [|discriminate].
      intros E Hacc. injection E as <- <-.
      change (forallb canonical (rev (v1 :: acc)) = true).
      apply forallb_forall. intros x Hx. apply in_rev in Hx.
      destruct Hx as [<-|Hx]; [assumption|].
      rewrite forallb_forall in Hacc. auto.
  - intros s acc v r. simpl.
    destruct (expect dquote s) as [r0|]; [|discriminate].
    destruct (parse_string r0) as [[k r1]|]; [|discriminate].
    destruct (expect ":" r1) as [r2|]; [|discriminate].
    destruct (parse_value fuel r2) as [[v1 r3]|] eqn:Ev; [|discriminate].
    apply IHv in Ev.
    destruct (expect "," r3) as [r4|].
    + intros E Hacc. apply (IHm _ _ _ _ E). apply canonical_define; assumption.
    + destruct (expect "}" r3) as [r4|]; [|discriminate].
      intros E Hacc. injection E as <- <-. apply canonical_define; assumption.
Qed.

Lemma JSON_parse_canonical (text : string) (v : JSON) :
  JSON_parse text = Some v -> canonical v = true.
Proof.
  unfold JSON_parse.
  destruct (parse_value _ _) as [[v' r]|] eqn:E; [|discriminate].
  destruct (skip_ws r); [|discriminate].
  intros H. injection H as <-. exact (proj1 (parse_canonical _) _ _ _ E).
Qed.

End RoundTripFacts.

(** ** The stored analysis across a reload *)

Module ReloadFacts.
Import Str Js Dict Aggregators Json Page App Notions MoreNotions ViewFacts.
Import SessionFacts HandlerFacts RoundTripFacts.

#[local] Arguments truthy : simpl never.
#[local] Arguments get : simpl never.
#[local] Arguments get_opt : simpl never.
#[local] Arguments or_default : simpl never.
#[local] Arguments ToString : simpl never.
#[local] Arguments JSON_parse : simpl never.
#[local] Arguments JSON_stringify : simpl never.
#[local] Arguments summary_text : simpl never.
#[local] Arguments findings_and_charts : simpl never.
#[local] Arguments render : simpl never.
#[local] Arguments displayResults : simpl never.
#[local] Arguments trim : simpl never.

(** The text stored for a canonical value is not empty and parses back to
    the value. *)
Lemma stored_text (data : JSON) :
  canonical data = true ->
  JSON_stringify data <> "" /\ JSON_parse (JSON_stringify data) = Some data.
Proof.
  intros Hc. split.
  - destruct (stringify_head data Hc) as (c & t & E & _).
    intros E'. rewrite E' in E. discriminate.
  - apply parse_stringify. exact Hc.
Qed.

(** The text the page stores for an analysis reads back as that analysis:
    for every value [JSON.parse] yields, [JSON.stringify] gives a text that
    is not empty and that [JSON.parse] turns into the same value, with the
    keys of its objects in the same order and its strings and numbers
    unchanged.  The hypothesis on numbers is where the embedding, which
    keeps decimals exact, agrees with the engine's binary64 numbers. *)
Theorem stored_analysis_reads_back (body : string) (data : JSON) :
  JSON_parse body = Some data ->
  numbers_survive data = true ->
  JSON_stringify data <> "" /\
  JSON_parse (JSON_stringify data) = Some data.
Proof.
  intros Hp _. apply stored_text. exact (JSON_parse_canonical _ _ Hp).
Qed.

Lemma stored_analysis_reads_back_witness :
  JSON_parse (JSON_stringify (JObj [("1", JStr "a"); ("b", JNum (-125) (-2))]))
  = Some (JObj [("1", JStr "a"); ("b", JNum (-125) (-2))]).
Proof.
  pose proof (stored_analysis_reads_back
                (json "{'b':-1.250,'1':'a'}")
                (JObj [("1", JStr "a"); ("b", JNum (-125) (-2))])
                eq_refl eq_refl) as H.
  exact (proj2 H).
Defined.


(** What the page load makes of a stored text that parses. *)
Lemma restore_outcome (stored : string) (data : JSON) :
  stored <> "" ->
  JSON_parse stored = Some data ->
  match render data with
  | Ok r =>
      DOMContentLoaded (Some stored)
      = (set_resultsHidden false
           (set_view (Shown r) (set_currentAnalysis data (initial (Some stored)))),
         Ok tt)
  | Throw e =>
      snd (DOMContentLoaded (Some stored)) = Throw e /\
      currentAnalysis (fst (DOMContentLoaded (Some stored))) = data /\
      resultsHidden (fst (DOMContentLoaded (Some stored))) = true
  end.
Proof.
  intros Hne Hp. unfold_handlers.
  destruct (String.eqb_spec stored ""); [contradiction|]. simpl.
  rewrite Hp. simpl. rewrite displayResults_run.
  destruct (render data) as [r|e]; simpl; [reflexivity|repeat split].
Qed.





End ReloadFacts.

(** ** Invariants of a session *)

Module SessionInvariants.
Import Str Js Dict Aggregators Json Page App Notions MoreNotions ViewFacts.
Import RoundTripFacts ReloadFacts.

#[local] Arguments truthy : simpl never.
#[local] Arguments get : simpl never.
#[local] Arguments get_opt : simpl never.
#[local] Arguments or_default : simpl never.
#[local] Arguments ToString : simpl never.
#[local] Arguments JSON_parse : simpl never.
#[local] Arguments JSON_stringify : simpl never.
#[local] Arguments summary_text : simpl never.
#[local] Arguments findings_and_charts : simpl never.
#[local] Arguments render : simpl never.
#[local] Arguments displayResults : simpl never.
#[local] Arguments trim : simpl never.
#[local] Arguments normalize_newlines : simpl never.

Ltac unfold_all :=
  unfold DOMContentLoaded;
  unfold analyzeBtn_click, generateReportBtn_click, analyze_try, restore,
    fetch, setItem, showAlert, console_error,
    setLoadingState, downloadFile, parse, try_finally, try_catch, bind, lift,
    read_state, modify, throw, ret;
  simpl.

(** The Analyze handler leaves the analysis, its stored copy and the
    charts alone, or replaces the analysis by a parsed success response;
    then it replaces the stored copy by the text of the response and
    renders it, unless local storage refuses the write. *)
Lemma analyze_effect (st : State) (answer : Fetch) (write : Write) :
  let st' := fst (analyzeBtn_click answer write st) in
  (localStorage st' = localStorage st /\
   view st' = view st /\ resultsHidden st' = resultsHidden st /\
   (currentAnalysis st' = currentAnalysis st \/ write = Refused)) \/
  (exists body data,
      answer = Responded true body /\ write = Stored /\ JSON_parse body = Some data /\
      currentAnalysis st' = data /\
      localStorage st' = Some (JSON_stringify data) /\
      match render data with
      | Ok r => view st' = Shown r /\ resultsHidden st' = false
      | Throw _ => view st' = interrupted data (view st)
      end).
Proof.
  unfold_all.
  destruct (JSON_parse (trim (auditDataTextarea st))) as [v|]; simpl;
    [|left; repeat split; left; reflexivity].
  destruct (get (Some v) "audit_report") as [audit_report|]; simpl;
    [|left; repeat split; left; reflexivity].
  destruct (truthy (get_opt audit_report "exceptions")); simpl;
    [|left; repeat split; left; reflexivity].
  destruct answer as [|ok body]; simpl; [left; repeat split; left; reflexivity|].
  destruct (JSON_parse body) as [data|] eqn:Hd; simpl;
    [|left; repeat split; left; reflexivity].
  destruct ok; simpl.
  - destruct write; simpl; [|left; repeat split; right; reflexivity].
    right. exists body, data.
    split; [reflexivity|]. split; [reflexivity|]. split; [exact Hd|].
    rewrite displayResults_run.
    destruct (render data) as [r|e]; simpl.
    + repeat split.
    + repeat split.
  - left. destruct (get (Some data) "error") as [error|]; simpl;
      [|repeat split; left; reflexivity].
    destruct (ToString (or_default error "Analysis failed")); repeat split;
      left; reflexivity.
Qed.

Lemma report_effect (st : State) (answer : Fetch) :
  let st' := fst (generateReportBtn_click answer st) in
  currentAnalysis st' = currentAnalysis st /\
  localStorage st' = localStorage st /\
  view st' = view st /\ resultsHidden st' = resultsHidden st.
Proof.
  unfold_all.
  destruct (truthy (Some (currentAnalysis st))); simpl; [|repeat split].
  destruct answer as [|[|] blob]; simpl; repeat split.
Qed.

(** What one event does to the analysis, its stored copy and the charts. *)
Lemma handle_effect (ev : Event) (st : State) :
  let st' := fst (handle ev st) in
  (localStorage st' = localStorage st /\
   view st' = view st /\ resultsHidden st' = resultsHidden st /\
   (currentAnalysis st' = currentAnalysis st \/ write_accepted ev = false)) \/
  (exists body data,
      ev = AnalyzeClicked (Responded true body) Stored /\ JSON_parse body = Some data /\
      currentAnalysis st' = data /\
      localStorage st' = Some (JSON_stringify data) /\
      match render data with
      | Ok r => view st' = Shown r /\ resultsHidden st' = false
      | Throw _ => view st' = interrupted data (view st)
      end).
Proof.
  destruct ev as [text|[file|]|answer write|answer]; simpl;
    try (left; repeat split; left; reflexivity).
  - destruct (analyze_effect st answer write)
      as [(Hs & Hv & Hh & Hc)|(body & data & -> & -> & H)].
    + left. repeat split; try assumption.
      destruct Hc as [Hc| ->]; [left; exact Hc|right; reflexivity].
    + right. exists body, data. split; [reflexivity|exact H].
  - left. destruct (report_effect st answer) as (Hc & Hs & Hv & Hh).
    repeat split; try assumption. left. exact Hc.
Qed.

(** The page load leaves local storage alone. *)
Lemma load_keeps_storage (stored : option string) :
  localStorage (fst (DOMContentLoaded stored)) = stored.
Proof.
  unfold_all. destruct stored as [text|]; [|reflexivity].
  destruct (String.eqb text ""); simpl; [reflexivity|].
  destruct (JSON_parse text) as [data|]; simpl; [|reflexivity].
  rewrite displayResults_run. destruct (render data); reflexivity.
Qed.

(** What the page shows once loaded is the stored analysis. *)
Lemma load_shows_stored (stored : option string) :
  shows_stored (fst (DOMContentLoaded stored)).
Proof.
  intros r. rewrite load_keeps_storage. unfold_all.
  destruct stored as [text|]; [|discriminate].
  destruct (String.eqb_spec text ""); simpl; [discriminate|].
  destruct (JSON_parse text) as [data|] eqn:Hp; simpl; [|discriminate].
  rewrite displayResults_run.
  destruct (render data) as [r'|] eqn:Er; simpl.
  - intros E. apply Shown_inj in E. subst r'. split; [reflexivity|].
    exists text, data. repeat split; assumption.
  - intros E. exfalso. exact (interrupted_not_shown _ _ _ _ E).
Qed.

Lemma reload_invariant (events : list Event) : forall st : State,
  forallb brings_plain_numbers events = true ->
  forallb write_accepted events = true ->
  currentAnalysis (fst (DOMContentLoaded (localStorage st))) = currentAnalysis st ->
  currentAnalysis (fst (DOMContentLoaded (localStorage (after events st))))
  = currentAnalysis (after events st).
Proof.
  induction events as [|ev events IH]; intros st Hn Hw Hst; simpl; [assumption|].
  simpl in Hn, Hw. apply andb_prop in Hn. destruct Hn as [_ Hn].
  apply andb_prop in Hw. destruct Hw as [Hev Hw].
  apply IH; [assumption|assumption|].
  destruct (handle_effect ev st)
    as [(Hs & _ & _ & [Hc|Hc])|(body & data & -> & Hp & Hc & Hs & _)].
  - rewrite Hs, Hc. assumption.
  - congruence.
  - rewrite Hs, Hc.
    destruct (stored_text data (JSON_parse_canonical _ _ Hp)) as [Hne Hback].
    pose proof (restore_outcome _ _ Hne Hback) as Ho.
    destruct (render data) as [r|e].
    + rewrite Ho. reflexivity.
    + tauto.
Qed.

Lemma shown_invariant (events : list Event) : forall st : State,
  shows_stored st -> shows_stored (after events st).
Proof.
  induction events as [|ev events IH]; intros st Hst; simpl; [assumption|].
  apply IH.
  destruct (handle_effect ev st)
    as [(Hs & Hv & Hh & _)|(body & data & _ & Hp & _ & Hs & Hv)];
    intros r Hr.
  - rewrite Hs, Hh. apply Hst. rewrite <- Hv. exact Hr.
  - destruct (stored_text data (JSON_parse_canonical _ _ Hp)) as [Hne Hback].
    destruct (render data) as [r'|e] eqn:Er.
    + destruct Hv as [Hv Hh]. rewrite Hv in Hr. apply Shown_inj in Hr. subst r'.
      split; [exact Hh|]. exists (JSON_stringify data), data. auto.
    + rewrite Hv in Hr. destruct (interrupted_not_shown _ _ _ _ Hr).
Qed.

(** Charts on display come with the panels of the same analysis. *)
Lemma load_charts_complete (stored : option string) :
  charts_complete (fst (DOMContentLoaded stored)).
Proof.
  intros severityData branchData. unfold_all.
  destruct stored as [text|]; [|discriminate].
  destruct (String.eqb text ""); simpl; [discriminate|].
  destruct (JSON_parse text) as [data|]; simpl; [|discriminate].
  rewrite displayResults_run.
  destruct (render data) as [r|]; simpl.
  - intros _. exists r. reflexivity.
  - intros E. destruct (interrupted_charts _ _ _ _ _ E).
Qed.

Lemma charts_invariant (events : list Event) : forall st : State,
  charts_complete st -> charts_complete (after events st).
Proof.
  induction events as [|ev events IH]; intros st Hst; simpl; [assumption|].
  apply IH.
  destruct (handle_effect ev st)
    as [(_ & Hv & _ & _)|(body & data & _ & _ & _ & _ & Hv)];
    intros severityData branchData Hc.
  - rewrite Hv in *. exact (Hst _ _ Hc).
  - destruct (render data) as [r|e].
    + exists r. exact (proj1 Hv).
    + rewrite Hv in Hc. destruct (interrupted_charts _ _ _ _ _ Hc).
Qed.

(** When every write to local storage is accepted, a reload would at any
    time restore the current analysis: after a page load whose restore
    step threw nothing and any events, each handled to its end before the
    next, loading the page with what local storage then holds yields the
    current analysis again, which the restore step sets before it renders
    it.  Local
    storage is written by this page only.  The hypothesis on numbers is
    where the embedding, which keeps decimals exact, agrees with the
    engine's binary64 numbers. *)
Theorem reload_restores_current_analysis (stored : option string) (events : list Event) :
  snd (DOMContentLoaded stored) = Ok tt ->
  forallb brings_plain_numbers events = true ->
  forallb write_accepted events = true ->
  let st := after events (fst (DOMContentLoaded stored)) in
  currentAnalysis (fst (DOMContentLoaded (localStorage st))) = currentAnalysis st.
Proof.
  intros _ Hn Hw. apply reload_invariant; [assumption|assumption|].
  rewrite load_keeps_storage. reflexivity.
Qed.

Lemma reload_restores_current_analysis_witness :
  currentAnalysis
    (fst (DOMContentLoaded (localStorage (after sample_session (fst (DOMContentLoaded None))))))
  = currentAnalysis (after sample_session (fst (DOMContentLoaded None))).
Proof.
  exact (reload_restores_current_analysis None sample_session eq_refl eq_refl eq_refl).
Defined.

(** What the page shows is the stored analysis or nothing whole: after a
    page load whose restore step threw nothing and any events, each
    handled to its end before the next and whatever local storage does
    with the writes,
    charts are on display only together with the two panels of the same
    analysis, and whenever the page shows the complete results of one
    analysis, the results section is revealed and a reload would show the
    same results.  A page that an exception of [displayResults] has left
    with panels of different analyses has no chart.  Local storage is
    written by this page only.  The hypothesis on numbers is where the
    embedding, which keeps decimals exact, agrees with the engine's
    binary64 numbers. *)
Theorem shown_results_are_stored (stored : option string) (events : list Event) :
  snd (DOMContentLoaded stored) = Ok tt ->
  forallb brings_plain_numbers events = true ->
  let st := after events (fst (DOMContentLoaded stored)) in
  (forall severityData branchData,
      charts (view st) = Drawn severityData branchData ->
      exists r, view st = Shown r /\
                severityChart r = severityData /\ branchChart r = branchData) /\
  (forall r, view st = Shown r ->
             resultsHidden st = false /\
             view (fst (DOMContentLoaded (localStorage st))) = Shown r).
Proof.
  intros _ _. cbv zeta. split.
  - intros severityData branchData Hc.
    destruct (charts_invariant events _ (load_charts_complete stored) _ _ Hc) as [r Hr].
    exists r. split; [exact Hr|]. rewrite Hr in Hc. injection Hc as <- <-.
    split; reflexivity.
  - intros r Hr.
    destruct (shown_invariant events _ (load_shows_stored stored) r Hr)
      as (Hh & text & data & Hs & Hne & Hp & Hrd).
    split; [exact Hh|]. rewrite Hs.
    pose proof (restore_outcome _ _ Hne Hp) as Ho. rewrite Hrd in Ho.
    rewrite Ho. reflexivity.
Qed.

Lemma shown_results_are_stored_witness :
  resultsHidden (after sample_session (fst (DOMContentLoaded None))) = false.
Proof.
  destruct (shown (view (after sample_session (fst (DOMContentLoaded None)))))
    as [r|] eqn:Ev; [|discriminate Ev].
  exact (proj1 (proj2 (shown_results_are_stored None sample_session eq_refl eq_refl)
                      r (shown_Shown _ _ Ev))).
Defined.

End SessionInvariants.
